(** * https-server.py: a development HTTPS file server with CORS headers

    The program is [src/https-server.py]: a request handler class
    [MyHTTPRequestHandler], which subclasses [SimpleHTTPRequestHandler] of
    Python's [http.server] and overrides [end_headers], and the start-up
    routine [run_server].

    The development is organised as the program is:
    - [Py]: the string operations of Python the code relies on;
    - [HTTPStatus]: the status codes the handlers use;
    - [BaseHTTPRequestHandler], [SimpleHTTPRequestHandler]: the methods the
      handler inherits ([Lib/http/server.py] of CPython 3.11), written with
      [self.end_headers] left open, as the dynamic dispatch of the language
      has it;
    - [MyHTTPRequestHandler]: the class of the program, closing that
      recursion with its own [end_headers];
    - [Server]: [run_server] and the accept loop of [socketserver].

    Strings of Python are modelled by [string]: the request line is decoded
    from ISO-8859-1, so every character of it is one of the 256 of [ascii],
    and the encoding to latin-1 of the status line and headers is the
    identity. *)

From Stdlib Require Import String Ascii List ZArith Lia Bool DecimalString.
Import ListNotations.
Open Scope string_scope.

Set Implicit Arguments.

(* ================================================================== *)
(** * Python's string operations *)

Module Py.

Local Open Scope nat_scope.

Definition chr (n : nat) : ascii := ascii_of_nat n.
Definition ord (c : ascii) : nat := nat_of_ascii c.

Definition TAB : string := String (chr 9) "".
Definition LF : string := String (chr 10) "".
Definition CR : string := String (chr 13) "".
Definition CRLF : string := CR ++ LF.
Definition DQ : string := String (chr 34) "".

(** [len(s)] as an integer. *)
Definition len (s : string) : Z := Z.of_nat (String.length s).

(** [str(n)] for an integer. *)
Definition str (z : Z) : string := NilZero.string_of_int (Z.to_int z).

(** [s.startswith(p)] and [s.endswith(p)]. *)
Definition startswith (p s : string) : bool := String.prefix p s.

Fixpoint rev_string (s acc : string) : string :=
  match s with
  | EmptyString => acc
  | String c s' => rev_string s' (String c acc)
  end.

Definition endswith (p s : string) : bool :=
  String.prefix (rev_string p "") (rev_string s "").

(** [c in s] for a one-character [c]. *)
Fixpoint contains (c : ascii) (s : string) : bool :=
  match s with
  | EmptyString => false
  | String d s' => Ascii.eqb c d || contains c s'
  end.

(** [sub in s]. *)
Fixpoint has_substring (sub s : string) : bool :=
  String.prefix sub s ||
  match s with
  | EmptyString => false
  | String _ s' => has_substring sub s'
  end.

(** [str.isspace] on the characters of ISO-8859-1. *)
Definition isspace (c : ascii) : bool :=
  let n := ord c in
  ((9 <=? n) && (n <=? 13)) || ((28 <=? n) && (n <=? 32))
  || (n =? 133) || (n =? 160).

(** [s.split()]: split on runs of whitespace, no empty words. *)
Fixpoint split_ws_from (cur : string) (s : string) : list string :=
  match s with
  | EmptyString => if String.eqb cur "" then [] else [cur]
  | String c s' =>
      if isspace c
      then (if String.eqb cur "" then split_ws_from "" s'
            else cur :: split_ws_from "" s')
      else split_ws_from (cur ++ String c "") s'
  end.

Definition split_ws (s : string) : list string := split_ws_from "" s.

(** [s.split(sep)] for a one-character separator: at least one piece. *)
Fixpoint split (sep : ascii) (s : string) : list string :=
  match s with
  | EmptyString => [""]
  | String c s' =>
      if Ascii.eqb c sep then "" :: split sep s'
      else match split sep s' with
           | w :: ws => String c w :: ws
           | [] => [String c ""]
           end
  end.

(** [s.split(sep, 1)]: at most one cut, at the first separator. *)
Fixpoint split1 (sep : ascii) (s : string) : list string :=
  match s with
  | EmptyString => [""]
  | String c s' =>
      if Ascii.eqb c sep then [""; s']
      else match split1 sep s' with
           | w :: ws => String c w :: ws
           | [] => [String c ""]
           end
  end.

(** [sep.join(l)]. *)
Definition join (sep : string) (l : list string) : string :=
  String.concat sep l.

(** [s.lstrip(chars)], [s.rstrip(chars)] for a set of characters given by
    a predicate; [s.rstrip()] is [rstrip isspace]. *)
Fixpoint lstrip (p : ascii -> bool) (s : string) : string :=
  match s with
  | EmptyString => ""
  | String c s' => if p c then lstrip p s' else s
  end.

Definition rstrip (p : ascii -> bool) (s : string) : string :=
  rev_string (lstrip p (rev_string s "")) "".

Definition is_char_of (chars : string) (c : ascii) : bool := contains c chars.

(** [s.lower()] on ISO-8859-1: A-Z, and the accented capitals but the
    multiplication sign. *)
Definition lower_char (c : ascii) : ascii :=
  let n := ord c in
  if ((65 <=? n) && (n <=? 90))
     || ((192 <=? n) && (n <=? 222) && negb (n =? 215))
  then chr (n + 32) else c.

Fixpoint lower (s : string) : string :=
  match s with
  | EmptyString => ""
  | String c s' => String (lower_char c) (lower s')
  end.

(** [s.replace(c, by)] for a one-character [c]. *)
Fixpoint replace (c : ascii) (by_ : string) (s : string) : string :=
  match s with
  | EmptyString => ""
  | String d s' =>
      if Ascii.eqb c d then by_ ++ replace c by_ s'
      else String d (replace c by_ s')
  end.

(** [int(s)]: optional sign, decimal digits, single underscores between
    digits, surrounding whitespace ignored; [None] is [ValueError]. A
    literal of more than 640 digits that has more digits than
    [sys.get_int_max_str_digits()], when that is not 0, is refused. *)
Definition digit_val (c : ascii) : option Z :=
  let n := ord c in
  if (48 <=? n) && (n <=? 57) then Some (Z.of_nat (n - 48)) else None.

Fixpoint int_digits (s : string) (acc : Z) (after_digit : bool) : option Z :=
  match s with
  | EmptyString => if after_digit then Some acc else None
  | String c s' =>
      match digit_val c with
      | Some d => int_digits s' (10 * acc + d) true
      | None =>
          if Ascii.eqb c "_" && after_digit
          then int_digits s' acc false
          else None
      end
  end.

Fixpoint count_digits (s : string) : Z :=
  match s with
  | EmptyString => 0
  | String c s' =>
      match digit_val c with
      | Some _ => Z.succ (count_digits s')
      | None => count_digits s'
      end
  end.

Definition str_digits_check_threshold : Z := 640.

Definition int (max_str_digits : Z) (s : string) : option Z :=
  let literal := rstrip isspace (lstrip isspace s) in
  let digits := count_digits literal in
  if (str_digits_check_threshold <? digits)%Z
     && (0 <? max_str_digits)%Z && (max_str_digits <? digits)%Z
  then None
  else
    match literal with
    | String "+" r => int_digits r 0 false
    | String "-" r => option_map Z.opp (int_digits r 0 false)
    | r => int_digits r 0 false
    end.

(** [repr(s)] of a string of ISO-8859-1 characters. *)
Definition hex_digit (n : nat) : ascii :=
  nth n (list_ascii_of_string "0123456789abcdef") "0"%char.

Definition hex2 (n : nat) : string :=
  String (hex_digit (n / 16)) (String (hex_digit (n mod 16)) "").

Definition isprintable (c : ascii) : bool :=
  let n := ord c in
  ((32 <=? n) && (n <=? 126))
  || ((161 <=? n) && negb (n =? 173)).

Definition repr_char (quote : ascii) (c : ascii) : string :=
  let n := ord c in
  if Ascii.eqb c quote || Ascii.eqb c "\" then String "\" (String c "")
  else if n =? 9 then "\t"
  else if n =? 10 then "\n"
  else if n =? 13 then "\r"
  else if isprintable c then String c ""
  else "\x" ++ hex2 n.

Fixpoint repr_body (quote : ascii) (s : string) : string :=
  match s with
  | EmptyString => ""
  | String c s' => repr_char quote c ++ repr_body quote s'
  end.

Definition repr (s : string) : string :=
  let quote :=
    if contains "'" s && negb (contains (chr 34) s) then chr 34 else "'"%char in
  String quote (repr_body quote s ++ String quote "").

(** [s.encode('UTF-8')] of a string of ISO-8859-1 characters. *)
Fixpoint encode_utf8 (s : string) : string :=
  match s with
  | EmptyString => ""
  | String c s' =>
      let n := ord c in
      if n <? 128 then String c (encode_utf8 s')
      else String (chr (192 + n / 64))
             (String (chr (128 + n mod 64)) (encode_utf8 s'))
  end.

(** [html.escape(s, quote=False)]. *)
Definition html_escape (s : string) : string :=
  replace ">" "&gt;" (replace "<" "&lt;" (replace "&" "&amp;" s)).

(** Comparison of pairs of integers, as Python compares tuples. *)
Definition tuple_ge (a b : Z * Z) : bool :=
  (fst b <? fst a)%Z || ((fst a =? fst b)%Z && (snd b <=? snd a)%Z).

(** [a >= b] on strings. *)
Definition str_ge (a b : string) : bool := String.leb b a.

(** [posixpath.normpath]. *)
Fixpoint normpath_comps (initial_slashes : nat) (comps new_comps : list string)
  : list string :=
  match comps with
  | [] => new_comps
  | comp :: rest =>
      if String.eqb comp "" || String.eqb comp "." then
        normpath_comps initial_slashes rest new_comps
      else if negb (String.eqb comp "..")
              || ((initial_slashes =? 0) && (length new_comps =? 0))
              || (negb (length new_comps =? 0)
                  && String.eqb (last new_comps "") "..")
      then normpath_comps initial_slashes rest (new_comps ++ [comp])
      else if negb (length new_comps =? 0)
      then normpath_comps initial_slashes rest (removelast new_comps)
      else normpath_comps initial_slashes rest new_comps
  end.

Definition normpath (path : string) : string :=
  if String.eqb path "" then "."
  else
    let initial_slashes :=
      if startswith "/" path then
        if startswith "//" path && negb (startswith "///" path) then 2 else 1
      else 0 in
    let comps := normpath_comps initial_slashes (split "/" path) [] in
    let path := join "/" comps in
    let path :=
      match initial_slashes with
      | 0 => path
      | 1 => "/" ++ path
      | _ => "//" ++ path
      end in
    if String.eqb path "" then "." else path.

(** [posixpath.dirname]: everything up to the last slash, without its
    trailing slashes unless it consists of slashes only. *)
Fixpoint upto_last_slash (s : string) : string :=
  match s with
  | EmptyString => ""
  | String c s' =>
      if contains "/" s then String c (upto_last_slash s') else ""
  end.

Definition dirname (p : string) : string :=
  let head := upto_last_slash p in
  if negb (String.eqb head "") && negb (String.eqb (lstrip (Ascii.eqb "/") head) "")
  then rstrip (Ascii.eqb "/") head else head.

(** [posixpath.join(a, b)]. *)
Definition path_join (a b : string) : string :=
  if startswith "/" b then b
  else if String.eqb a "" || endswith "/" a then a ++ b
  else a ++ "/" ++ b.

End Py.

(* ================================================================== *)
(** * Status codes

    The members of [http.HTTPStatus] the handlers name, each with its
    value, phrase and description; [BaseHTTPRequestHandler.responses] maps
    a member to the pair of the last two. *)

Module HTTPStatus.

Inductive t : Set :=
| CONTINUE | OK | NO_CONTENT | RESET_CONTENT
| MOVED_PERMANENTLY | NOT_MODIFIED
| BAD_REQUEST | NOT_FOUND | REQUEST_URI_TOO_LONG
| REQUEST_HEADER_FIELDS_TOO_LARGE
| NOT_IMPLEMENTED | HTTP_VERSION_NOT_SUPPORTED.

Definition value (s : t) : Z :=
  match s with
  | CONTINUE => 100 | OK => 200 | NO_CONTENT => 204 | RESET_CONTENT => 205
  | MOVED_PERMANENTLY => 301 | NOT_MODIFIED => 304
  | BAD_REQUEST => 400 | NOT_FOUND => 404 | REQUEST_URI_TOO_LONG => 414
  | REQUEST_HEADER_FIELDS_TOO_LARGE => 431
  | NOT_IMPLEMENTED => 501 | HTTP_VERSION_NOT_SUPPORTED => 505
  end%Z.

Definition phrase (s : t) : string :=
  match s with
  | CONTINUE => "Continue" | OK => "OK" | NO_CONTENT => "No Content"
  | RESET_CONTENT => "Reset Content"
  | MOVED_PERMANENTLY => "Moved Permanently"
  | NOT_MODIFIED => "Not Modified"
  | BAD_REQUEST => "Bad Request" | NOT_FOUND => "Not Found"
  | REQUEST_URI_TOO_LONG => "Request-URI Too Long"
  | REQUEST_HEADER_FIELDS_TOO_LARGE => "Request Header Fields Too Large"
  | NOT_IMPLEMENTED => "Not Implemented"
  | HTTP_VERSION_NOT_SUPPORTED => "HTTP Version Not Supported"
  end.

Definition description (s : t) : string :=
  match s with
  | CONTINUE => "Request received, please continue"
  | OK => "Request fulfilled, document follows"
  | NO_CONTENT => "Request fulfilled, nothing follows"
  | RESET_CONTENT => "Clear input form for further input"
  | MOVED_PERMANENTLY => "Object moved permanently -- see URI list"
  | NOT_MODIFIED => "Document has not changed since given time"
  | BAD_REQUEST => "Bad request syntax or unsupported method"
  | NOT_FOUND => "Nothing matches the given URI"
  | REQUEST_URI_TOO_LONG => "URI is too long"
  | REQUEST_HEADER_FIELDS_TOO_LARGE =>
      "The server is unwilling to process the request because its header "
      ++ "fields are too large"
  | NOT_IMPLEMENTED => "Server does not support this operation"
  | HTTP_VERSION_NOT_SUPPORTED => "Cannot fulfill request"
  end.

Definition eqb (a b : t) : bool := Z.eqb (value a) (value b).

End HTTPStatus.

(* ================================================================== *)
(** * The host: file system, clock and library tables

    What the handler asks of the machine it runs on.  A path is the string
    handed to the operating system. *)

Record stat_result : Set := { st_size : Z; st_mtime : Z }.

(** An open file: [f.read()] and [os.fstat(f.fileno())]. *)
Record file : Set := { read : string; fstat : stat_result }.

(** [datetime] values as far as [send_head] looks at them: the time in
    whole seconds since the epoch, read as UTC when there is no zone. *)
Inductive tzinfo : Set := tz_None | tz_utc | tz_other.
Record datetime : Set := { seconds : Z; dt_tzinfo : tzinfo }.

(** [urllib.parse.SplitResult]. *)
Record SplitResult : Set :=
  { scheme : string; netloc : string; sr_path : string;
    query : string; fragment : string }.

(** How [open(path, 'rb')] ends: with the file; with [OSError], when
    nothing is there, or a directory, or the file may not be read; or
    with [ValueError], which a path with a null character gets, and its
    subclass [UnicodeEncodeError], which a path gets that the encoding of
    the file system cannot take. *)
Inductive opening : Set :=
| Opened (f : file)
| Refused
| Invalid (unicode : bool).

Record Host : Type := {
  (** [os.getcwd()] *)
  getcwd : string;
  (** [os.path.exists], [os.path.isdir], [os.path.isfile] *)
  path_exists : string -> bool;
  path_isdir : string -> bool;
  path_isfile : string -> bool;
  (** [open(path, 'rb')] *)
  open_rb : string -> opening;
  (** [os.listdir]; [None] is [OSError] *)
  listdir : string -> option (list string);
  (** [time.time()] and [email.utils.formatdate(_, usegmt=True)] *)
  time : Z;
  formatdate : Z -> string;
  (** [BaseHTTPRequestHandler.sys_version] *)
  sys_version : string;
  (** [SimpleHTTPRequestHandler.guess_type], which reads the tables of
      [mimetypes] *)
  guess_type : string -> string;
  (** what [urllib.parse.unquote] makes of a string that has a percent
      sign in it *)
  unquote_escapes : string -> string;
  (** [urllib.parse.urlsplit], where [None] is its [ValueError], and
      [urlunsplit] *)
  urlsplit : string -> option SplitResult;
  urlunsplit : SplitResult -> string;
  (** [email.utils.parsedate_to_datetime]; [None] is one of the errors
      [send_head] catches *)
  parsedate_to_datetime : string -> option datetime;
  (** the page [list_directory] builds from the path, the request path and
      the names in the directory, encoded; [None] is the
      [UnicodeEncodeError] of the encoding *)
  directory_listing : string -> string -> list string -> option string;
  (** [sys.getfilesystemencoding()] *)
  getfilesystemencoding : string;
  (** [sys.get_int_max_str_digits()]: 4300 unless the interpreter was
      started otherwise, 0 for no limit *)
  int_max_str_digits : Z
}.

(* ================================================================== *)
(** * The handler object and the monad of its methods *)

(** What [http.client.parse_headers] makes of the header lines that follow
    the request line. *)
Inductive parsed_headers : Set :=
| Headers (hs : list (string * string))
| LineTooLong (err : string)
| TooManyHeaders (err : string).

(** A request as it arrives: the request line as [rfile.readline] returns
    it, and the header block. *)
Record request : Set := { line : string; header_block : parsed_headers }.

(** The attributes of a handler instance. [rfile] holds the requests the
    connection has yet to deliver; [wfile] holds the bytes written to the
    connection. An attribute that Python creates on first assignment has
    here a value that is never read before that assignment, but
    [_headers_buffer], whose absence the code tests. *)
Record handler : Set := mkHandler {
  rfile : list request;
  wfile : string;
  raw_requestline : string;
  requestline : string;
  request_version : string;
  command : option string;
  path : string;
  headers : list (string * string);
  close_connection : bool;
  _headers_buffer : option (list string)
}.

Inductive exn : Set :=
| AttributeError | ValueError | UnicodeEncodeError
| OSError | PermissionError | SSLError
| KeyboardInterrupt.

(** [KeyboardInterrupt] derives from [BaseException] only. *)
Definition is_Exception (e : exn) : bool :=
  match e with KeyboardInterrupt => false | _ => true end.

Inductive result (A : Type) : Type :=
| Ok (a : A) (h : handler)
| Raise (e : exn) (h : handler).
Arguments Raise {A} e h.

Definition M (A : Type) : Type := handler -> result A.

Definition ret {A} (a : A) : M A := fun h => Ok a h.
Definition raise {A} (e : exn) : M A := fun h => Raise e h.
Definition bind {A B} (m : M A) (k : A -> M B) : M B :=
  fun h => match m h with
           | Ok a h' => k a h'
           | Raise e h' => Raise e h'
           end.
Definition get : M handler := fun h => Ok h h.
Definition put (h : handler) : M unit := fun _ => Ok tt h.

Declare Scope m_scope.
Delimit Scope m_scope with M.
Notation "x <- m ;; k" := (bind m (fun x => k))
  (at level 61, m at next level, right associativity) : m_scope.
Notation "m ;; k" := (bind m (fun _ => k))
  (at level 61, right associativity) : m_scope.
Open Scope m_scope.

Definition when (b : bool) (m : M unit) : M unit := if b then m else ret tt.

(** Assignments to attributes: the handler after [self.x = v], and the
    assignment as a step of a method. *)
Definition with_rfile (v : list request) (h : handler) : handler :=
  mkHandler v (wfile h) (raw_requestline h) (requestline h)
    (request_version h) (command h) (path h) (headers h)
    (close_connection h) (_headers_buffer h).
Definition with_wfile (v : string) (h : handler) : handler :=
  mkHandler (rfile h) v (raw_requestline h) (requestline h)
    (request_version h) (command h) (path h) (headers h)
    (close_connection h) (_headers_buffer h).
Definition with_raw_requestline (v : string) (h : handler) : handler :=
  mkHandler (rfile h) (wfile h) v (requestline h) (request_version h)
    (command h) (path h) (headers h) (close_connection h)
    (_headers_buffer h).
Definition with_requestline (v : string) (h : handler) : handler :=
  mkHandler (rfile h) (wfile h) (raw_requestline h) v (request_version h)
    (command h) (path h) (headers h) (close_connection h)
    (_headers_buffer h).
Definition with_request_version (v : string) (h : handler) : handler :=
  mkHandler (rfile h) (wfile h) (raw_requestline h) (requestline h) v
    (command h) (path h) (headers h) (close_connection h)
    (_headers_buffer h).
Definition with_command (v : option string) (h : handler) : handler :=
  mkHandler (rfile h) (wfile h) (raw_requestline h) (requestline h)
    (request_version h) v (path h) (headers h) (close_connection h)
    (_headers_buffer h).
Definition with_path (v : string) (h : handler) : handler :=
  mkHandler (rfile h) (wfile h) (raw_requestline h) (requestline h)
    (request_version h) (command h) v (headers h) (close_connection h)
    (_headers_buffer h).
Definition with_headers (v : list (string * string)) (h : handler) : handler :=
  mkHandler (rfile h) (wfile h) (raw_requestline h) (requestline h)
    (request_version h) (command h) (path h) v (close_connection h)
    (_headers_buffer h).
Definition with_close_connection (v : bool) (h : handler) : handler :=
  mkHandler (rfile h) (wfile h) (raw_requestline h) (requestline h)
    (request_version h) (command h) (path h) (headers h) v
    (_headers_buffer h).
Definition with_headers_buffer (v : option (list string)) (h : handler) : handler :=
  mkHandler (rfile h) (wfile h) (raw_requestline h) (requestline h)
    (request_version h) (command h) (path h) (headers h)
    (close_connection h) v.

Definition set_rfile (v : list request) : M unit :=
  fun h => Ok tt (with_rfile v h).
Definition set_wfile (v : string) : M unit :=
  fun h => Ok tt (with_wfile v h).
Definition set_raw_requestline (v : string) : M unit :=
  fun h => Ok tt (with_raw_requestline v h).
Definition set_requestline (v : string) : M unit :=
  fun h => Ok tt (with_requestline v h).
Definition set_request_version (v : string) : M unit :=
  fun h => Ok tt (with_request_version v h).
Definition set_command (v : option string) : M unit :=
  fun h => Ok tt (with_command v h).
Definition set_path (v : string) : M unit :=
  fun h => Ok tt (with_path v h).
Definition set_headers (v : list (string * string)) : M unit :=
  fun h => Ok tt (with_headers v h).
Definition set_close_connection (v : bool) : M unit :=
  fun h => Ok tt (with_close_connection v h).
Definition set_headers_buffer (v : option (list string)) : M unit :=
  fun h => Ok tt (with_headers_buffer v h).

(** [self.wfile.write(data)]. *)
Definition wfile_write (data : string) : M unit :=
  h <- get ;; set_wfile (wfile h ++ data).

(** [self.headers.get(name, default)], [self.headers[name]] and
    [name in self.headers]: header names compare without case, the first
    match counts. *)
Fixpoint headers_find (name : string) (hs : list (string * string))
  : option string :=
  match hs with
  | [] => None
  | (k, v) :: hs' =>
      if String.eqb (Py.lower k) (Py.lower name) then Some v
      else headers_find name hs'
  end.

Definition headers_get (hs : list (string * string)) (name default : string)
  : string :=
  match headers_find name hs with Some v => v | None => default end.

Definition headers_mem (name : string) (hs : list (string * string)) : bool :=
  match headers_find name hs with Some _ => true | None => false end.

(* ================================================================== *)
(** * [http.server.BaseHTTPRequestHandler]

    The methods [MyHTTPRequestHandler] inherits two levels up. A call
    [self.end_headers()] or [getattr(self, mname)] in them reaches the
    method of the class of the instance: both are variables of the
    section.  [log_message] writes a line to [sys.stderr] and nothing to
    the connection; the calls to it are left out. *)

Module BaseHTTPRequestHandler.

Import Py.

Definition protocol_version : string := "HTTP/1.0".
Definition default_request_version : string := "HTTP/0.9".
Definition error_content_type : string := "text/html;charset=utf-8".

(** [DEFAULT_ERROR_MESSAGE % {'code': ..., 'message': ..., 'explain': ...}] *)
Definition error_message_format (code : Z) (message explain : string)
  : string :=
  "<!DOCTYPE HTML>" ++ LF ++
  "<html lang=" ++ DQ ++ "en" ++ DQ ++ ">" ++ LF ++
  "    <head>" ++ LF ++
  "        <meta charset=" ++ DQ ++ "utf-8" ++ DQ ++ ">" ++ LF ++
  "        <title>Error response</title>" ++ LF ++
  "    </head>" ++ LF ++
  "    <body>" ++ LF ++
  "        <h1>Error response</h1>" ++ LF ++
  "        <p>Error code: " ++ str code ++ "</p>" ++ LF ++
  "        <p>Message: " ++ message ++ ".</p>" ++ LF ++
  "        <p>Error code explanation: " ++ str code ++ " - " ++ explain
    ++ ".</p>" ++ LF ++
  "    </body>" ++ LF ++
  "</html>" ++ LF.

(** ["%s %d %s\r\n" % (self.protocol_version, code, message)] and
    ["%s: %s\r\n" % (keyword, value)], encoded to latin-1. *)
Definition status_line (code : HTTPStatus.t) (message : string) : string :=
  protocol_version ++ " " ++ str (HTTPStatus.value code) ++ " " ++ message
  ++ CRLF.

Definition header_line (keyword value : string) : string :=
  keyword ++ ": " ++ value ++ CRLF.

(** The [try] block of [parse_request] that reads the version off the
    last word; [None] is its [ValueError]. *)
Definition parse_version_number (host : Host) (version : string)
  : option (Z * Z) :=
  if negb (startswith "HTTP/" version) then None
  else
    let base_version_number := nth 1 (split1 "/" version) "" in
    let int := int (int_max_str_digits host) in
    match split "." base_version_number with
    | [major; minor] =>
        match int major, int minor with
        | Some a, Some b => Some (a, b)
        | _, _ => None
        end
    | _ => None
    end.

Section Methods.

Variable host : Host.
(** The class attribute [server_version]. *)
Variable server_version : string.
(** [self.end_headers] and [getattr(self, mname)], [None] when
    [hasattr(self, mname)] is false. *)
Variable self_end_headers : M unit.
Variable self_getattr : string -> option (M unit).

Definition version_string : string :=
  server_version ++ " " ++ sys_version host.

Definition date_time_string (timestamp : option Z) : string :=
  let timestamp :=
    match timestamp with None => time host | Some t => t end in
  formatdate host timestamp.

Definition send_response_only (code : HTTPStatus.t)
    (message : option string) : M unit :=
  h <- get ;;
  when (negb (request_version h =? "HTTP/0.9"))
    (let message :=
       match message with
       | None => HTTPStatus.phrase code
       | Some m => m
       end in
     let buffer :=
       match _headers_buffer h with None => [] | Some b => b end in
     set_headers_buffer
       (Some (app buffer [status_line code message]))).

Definition send_header (keyword value : string) : M unit :=
  h <- get ;;
  when (negb (request_version h =? "HTTP/0.9"))
    (let buffer :=
       match _headers_buffer h with None => [] | Some b => b end in
     set_headers_buffer
       (Some (app buffer [header_line keyword value]))) ;;
  when (lower keyword =? "connection")
    (if lower value =? "close" then set_close_connection true
     else when (lower value =? "keep-alive")
            (set_close_connection false)).

Definition flush_headers : M unit :=
  h <- get ;;
  match _headers_buffer h with
  | Some buffer =>
      wfile_write (join "" buffer) ;;
      set_headers_buffer (Some [])
  | None => ret tt
  end.

Definition end_headers : M unit :=
  h <- get ;;
  when (negb (request_version h =? "HTTP/0.9"))
    (match _headers_buffer h with
     | Some buffer =>
         set_headers_buffer (Some (app buffer [CRLF])) ;;
         flush_headers
     | None => raise AttributeError
     end).

Definition send_response (code : HTTPStatus.t) (message : option string)
  : M unit :=
  send_response_only code message ;;
  send_header "Server" version_string ;;
  send_header "Date" (date_time_string None).

Definition send_error (code : HTTPStatus.t)
    (message explain : option string) : M unit :=
  let shortmsg := HTTPStatus.phrase code in
  let longmsg := HTTPStatus.description code in
  let message := match message with None => shortmsg | Some m => m end in
  let explain := match explain with None => longmsg | Some e => e end in
  send_response code (Some message) ;;
  send_header "Connection" "close" ;;
  body <-
    (if (200 <=? HTTPStatus.value code)%Z
        && negb (HTTPStatus.eqb code HTTPStatus.NO_CONTENT
                 || HTTPStatus.eqb code HTTPStatus.RESET_CONTENT
                 || HTTPStatus.eqb code HTTPStatus.NOT_MODIFIED)
     then
       let content :=
         error_message_format (HTTPStatus.value code)
           (html_escape message) (html_escape explain) in
       let body := encode_utf8 content in
       send_header "Content-Type" error_content_type ;;
       send_header "Content-Length" (str (len body)) ;;
       ret (Some body)
     else ret None) ;;
  self_end_headers ;;
  h <- get ;;
  match body with
  | Some body =>
      when (negb (match command h with
                  | Some c => c =? "HEAD"
                  | None => false
                  end)
            && negb (body =? ""))
        (wfile_write body)
  | None => ret tt
  end.

Definition handle_expect_100 : M bool :=
  send_response_only HTTPStatus.CONTINUE None ;;
  self_end_headers ;;
  ret true.

(** The part of [parse_request] under [if len(words) >= 3]; [false]
    stands for its [return False]. *)
Definition parse_request_version (words : list string) : M bool :=
  let version := last words "" in
  match parse_version_number host version with
  | None =>
      send_error HTTPStatus.BAD_REQUEST
        (Some ("Bad request version (" ++ repr version ++ ")")) None ;;
      ret false
  | Some version_number =>
      when (tuple_ge version_number (1, 1)%Z
            && str_ge protocol_version "HTTP/1.1")
        (set_close_connection false) ;;
      if tuple_ge version_number (2, 0)%Z then
        let base_version_number := nth 1 (split1 "/" version) "" in
        send_error HTTPStatus.HTTP_VERSION_NOT_SUPPORTED
          (Some ("Invalid HTTP version (" ++ base_version_number ++ ")"))
          None ;;
        ret false
      else
        set_request_version version ;;
        ret true
  end.

(** The rest of [parse_request], from the reading of the headers on. *)
Definition parse_request_headers (block : parsed_headers) : M bool :=
  match block with
  | LineTooLong err =>
      send_error HTTPStatus.REQUEST_HEADER_FIELDS_TOO_LARGE
        (Some "Line too long") (Some err) ;;
      ret false
  | TooManyHeaders err =>
      send_error HTTPStatus.REQUEST_HEADER_FIELDS_TOO_LARGE
        (Some "Too many headers") (Some err) ;;
      ret false
  | Headers hs =>
      set_headers hs ;;
      let conntype := headers_get hs "Connection" "" in
      (if lower conntype =? "close" then set_close_connection true
       else when ((lower conntype =? "keep-alive")
                  && str_ge protocol_version "HTTP/1.1")
              (set_close_connection false)) ;;
      let expect := headers_get hs "Expect" "" in
      h <- get ;;
      if (lower expect =? "100-continue")
         && str_ge protocol_version "HTTP/1.1"
         && str_ge (request_version h) "HTTP/1.1"
      then
        ok <- handle_expect_100 ;;
        if negb ok then ret false else ret true
      else ret true
  end.

Definition parse_request (block : parsed_headers) : M bool :=
  set_command None ;;
  set_request_version default_request_version ;;
  set_close_connection true ;;
  h <- get ;;
  let requestline := rstrip (is_char_of CRLF) (raw_requestline h) in
  set_requestline requestline ;;
  let words := split_ws requestline in
  if (length words =? 0)%nat then ret false
  else
    ok <- (if (3 <=? length words)%nat then parse_request_version words
           else ret true) ;;
    if negb ok then ret false
    else if negb ((2 <=? length words)%nat && (length words <=? 3)%nat)
    then
      send_error HTTPStatus.BAD_REQUEST
        (Some ("Bad request syntax (" ++ repr requestline ++ ")")) None ;;
      ret false
    else
      let command := nth 0 words "" in
      let path := nth 1 words "" in
      ok <- (if (length words =? 2)%nat then
               set_close_connection true ;;
               if negb (command =? "GET") then
                 send_error HTTPStatus.BAD_REQUEST
                   (Some ("Bad HTTP/0.9 request type ("
                          ++ repr command ++ ")")) None ;;
                 ret false
               else ret true
             else ret true) ;;
      if negb ok then ret false
      else
        set_command (Some command) ;;
        set_path path ;;
        when (startswith "//" path)
          (set_path ("/" ++ lstrip (Ascii.eqb "/") path)) ;;
        parse_request_headers block.

(** [rfile.readline(65537)] hands over the next request line, cut at
    65537 bytes, and [b''] at the end of the stream. Whether the line
    is longer than 65536 bytes does not depend on the cut, and a line
    that is longer is not looked at again. *)
Definition handle_one_request : M unit :=
  h <- get ;;
  match rfile h with
  | [] =>
      set_raw_requestline "" ;;
      set_close_connection true
  | r :: rest =>
      set_rfile rest ;;
      set_raw_requestline (line r) ;;
      if (65536 <? len (line r))%Z then
        set_requestline "" ;;
        set_request_version "" ;;
        set_command (Some "") ;;
        send_error HTTPStatus.REQUEST_URI_TOO_LONG None None
      else if line r =? "" then set_close_connection true
      else
        ok <- parse_request (header_block r) ;;
        if negb ok then ret tt
        else
          h <- get ;;
          let command := match command h with Some c => c | None => "" end in
          let mname := "do_" ++ command in
          match self_getattr mname with
          | None =>
              send_error HTTPStatus.NOT_IMPLEMENTED
                (Some ("Unsupported method (" ++ repr command ++ ")"))
                None
          | Some method => method
          end
  end.

(** [handle]: the loop runs while [close_connection] is false; each
    turn takes a request off the stream or finds it at its end and
    closes, so one turn more than there are requests is enough. *)
Fixpoint while_not_close_connection (turns : nat) : M unit :=
  h <- get ;;
  if close_connection h then ret tt
  else match turns with
       | O => ret tt
       | S turns' =>
           handle_one_request ;; while_not_close_connection turns'
       end.

Definition handle : M unit :=
  set_close_connection true ;;
  handle_one_request ;;
  h <- get ;;
  while_not_close_connection (S (length (rfile h))).

End Methods.

End BaseHTTPRequestHandler.

(* ================================================================== *)
(** * [http.server.SimpleHTTPRequestHandler]

    The base class of [MyHTTPRequestHandler]: [do_GET] and [do_HEAD] over
    the files of the current directory. *)

Module SimpleHTTPRequestHandler.

Import Py.

Definition server_version : string := "SimpleHTTP/0.6".

(** [self.path], for the methods that have a local variable [path]. *)
Definition self_path (h : handler) : string := path h.

Section Methods.

Variable host : Host.
Variable self_end_headers : M unit.

Definition send_response :=
  BaseHTTPRequestHandler.send_response host server_version.
Definition send_error :=
  BaseHTTPRequestHandler.send_error host server_version self_end_headers.
Definition send_header := BaseHTTPRequestHandler.send_header.
Definition date_time_string :=
  BaseHTTPRequestHandler.date_time_string host.

(** [self.directory], set by [__init__] to [os.getcwd()]. *)
Definition directory : string := getcwd host.

(** [urllib.parse.unquote]: a string without a percent sign is
    returned as it is. *)
Definition unquote (s : string) : string :=
  if contains "%" s then unquote_escapes host s else s.

(** The test of the loop of [translate_path]: the component is not a
    simple file or directory name. *)
Definition ignored_word (word : string) : bool :=
  negb (dirname word =? "") || (word =? ".") || (word =? "..").

Definition translate_path (path : string) : string :=
  let path := nth 0 (split1 "?" path) "" in
  let path := nth 0 (split1 "#" path) "" in
  let trailing_slash := endswith "/" (rstrip isspace path) in
  let path := unquote path in
  let path := normpath path in
  let words := split "/" path in
  let words := filter (fun w => negb (w =? "")) words in
  let path :=
    fold_left
      (fun path word =>
         if ignored_word word then path else path_join path word)
      words directory in
  if trailing_slash then path ++ "/" else path.

Definition list_directory (path : string) : M (option string) :=
  match listdir host path with
  | None =>
      send_error HTTPStatus.NOT_FOUND
        (Some "No permission to list directory") None ;;
      ret None
  | Some list =>
      h <- get ;;
      let enc := getfilesystemencoding host in
      match directory_listing host path (self_path h) list with
      | None => raise UnicodeEncodeError
      | Some encoded =>
          send_response HTTPStatus.OK None ;;
          send_header "Content-type" ("text/html; charset=" ++ enc) ;;
          send_header "Content-Length" (str (len encoded)) ;;
          self_end_headers ;;
          ret (Some encoded)
      end
  end.

(** The conditions under which [send_head] answers 304: the request
    has [If-Modified-Since] and no [If-None-Match], the date parses,
    it is in UTC once a date without zone is read as UTC, and the file
    was not modified after it. Times are in whole seconds, as the code
    drops the microseconds. *)
Definition not_modified (hs : list (string * string)) (fs : stat_result)
  : bool :=
  if headers_mem "If-Modified-Since" hs
     && negb (headers_mem "If-None-Match" hs)
  then
    match parsedate_to_datetime host
            (headers_get hs "If-Modified-Since" "") with
    | None => false
    | Some ims =>
        let tz :=
          match dt_tzinfo ims with tz_None => tz_utc | z => z end in
        match tz with
        | tz_utc => (st_mtime fs <=? seconds ims)%Z
        | _ => false
        end
    end
  else false.

(** [send_head] from [ctype = self.guess_type(path)] on. *)
Definition send_head_file (path : string) : M (option string) :=
  let ctype := guess_type host path in
  if endswith "/" path then
    send_error HTTPStatus.NOT_FOUND (Some "File not found") None ;;
    ret None
  else
    match open_rb host path with
    | Refused =>
        send_error HTTPStatus.NOT_FOUND (Some "File not found") None ;;
        ret None
    | Invalid unicode =>
        raise (if unicode then UnicodeEncodeError else ValueError)
    | Opened f =>
        h <- get ;;
        let fs := fstat f in
        if not_modified (headers h) fs then
          send_response HTTPStatus.NOT_MODIFIED None ;;
          self_end_headers ;;
          ret None
        else
          send_response HTTPStatus.OK None ;;
          send_header "Content-type" ctype ;;
          send_header "Content-Length" (str (st_size fs)) ;;
          send_header "Last-Modified"
            (date_time_string (Some (st_mtime fs))) ;;
          self_end_headers ;;
          ret (Some (read f))
    end.

Definition send_head : M (option string) :=
  h <- get ;;
  let path := translate_path (self_path h) in
  if path_isdir host path then
    match urlsplit host (self_path h) with
    | None => raise ValueError
    | Some parts =>
        if negb (endswith "/" (sr_path parts)) then
          send_response HTTPStatus.MOVED_PERMANENTLY None ;;
          let new_parts :=
            {| scheme := scheme parts; netloc := netloc parts;
               sr_path := sr_path parts ++ "/";
               query := query parts; fragment := fragment parts |} in
          let new_url := urlunsplit host new_parts in
          send_header "Location" new_url ;;
          send_header "Content-Length" "0" ;;
          self_end_headers ;;
          ret None
        else if path_isfile host (path_join path "index.html") then
          send_head_file (path_join path "index.html")
        else if path_isfile host (path_join path "index.htm") then
          send_head_file (path_join path "index.htm")
        else list_directory path
    end
  else send_head_file path.

(** [copyfile]: [shutil.copyfileobj] writes what it reads, block by
    block. *)
Definition copyfile (source : string) : M unit := wfile_write source.

Definition do_GET : M unit :=
  f <- send_head ;;
  match f with
  | Some f => copyfile f
  | None => ret tt
  end.

Definition do_HEAD : M unit :=
  f <- send_head ;;
  ret tt.

(** The methods [do_*] of the class. *)
Definition getattr (mname : string) : option (M unit) :=
  if mname =? "do_GET" then Some do_GET
  else if mname =? "do_HEAD" then Some do_HEAD
  else None.

End Methods.

End SimpleHTTPRequestHandler.

(* ================================================================== *)
(** * [https-server.py] *)

Definition PORT : Z := 8443.
Definition CERT_FILE : string := "certs/server.crt".
Definition KEY_FILE : string := "certs/server.key".

(** ** [class MyHTTPRequestHandler(http.server.SimpleHTTPRequestHandler)]

    The class defines [end_headers] and nothing else; every other method
    is the inherited one, with [self.end_headers] bound to the method
    below. *)

Module MyHTTPRequestHandler.

Definition send_header := BaseHTTPRequestHandler.send_header.

Definition end_headers : M unit :=
  send_header "Access-Control-Allow-Origin" "*" ;;
  send_header "Access-Control-Allow-Methods" "GET, POST, OPTIONS" ;;
  send_header "Access-Control-Allow-Headers" "Content-Type" ;;
  BaseHTTPRequestHandler.end_headers.

Section Inherited.

Variable host : Host.

Definition server_version := SimpleHTTPRequestHandler.server_version.

Definition getattr : string -> option (M unit) :=
  SimpleHTTPRequestHandler.getattr host end_headers.

Definition send_error :=
  BaseHTTPRequestHandler.send_error host server_version end_headers.

Definition do_GET := SimpleHTTPRequestHandler.do_GET host end_headers.
Definition do_HEAD := SimpleHTTPRequestHandler.do_HEAD host end_headers.
Definition send_head := SimpleHTTPRequestHandler.send_head host end_headers.
Definition translate_path := SimpleHTTPRequestHandler.translate_path host.

Definition parse_request :=
  BaseHTTPRequestHandler.parse_request host server_version end_headers.

Definition handle_one_request : M unit :=
  BaseHTTPRequestHandler.handle_one_request
    host server_version end_headers getattr.

Definition handle : M unit :=
  BaseHTTPRequestHandler.handle host server_version end_headers getattr.

End Inherited.

(** A handler as the server makes one for a connection: nothing written,
    no header buffer. *)
Definition new (requests : list request) : handler :=
  {| rfile := requests; wfile := "";
     raw_requestline := ""; requestline := ""; request_version := "";
     command := None; path := ""; headers := [];
     close_connection := true; _headers_buffer := None |}.

End MyHTTPRequestHandler.

(** ** [run_server] and the accept loop

    The machine the program starts on gives the files, whether the port can
    be bound and the certificate chain loaded, what its standard output can
    encode, and what arrives at the
    listening socket afterwards, in order. An interrupt signal is one of
    these arrivals: Python raises [KeyboardInterrupt] in the main thread,
    which is then inside [serve_forever]. *)

Module Server.

Import Py.

Inductive event : Set :=
| Connection (requests : list request)
| HandshakeFailed
| Interrupt.

Record machine : Type := {
  host : Host;
  (** [HTTPServer(...)] binds and listens, or raises [OSError] *)
  bind_ok : bool;
  (** [load_cert_chain] accepts the two files, or raises: [ssl.SSLError]
      for what is no certificate or key, [PermissionError] or another
      [OSError] for what cannot be read *)
  cert_chain_ok : bool;
  cert_chain_error : exn;
  (** [sys.stdout] can encode the character U+274C, as a UTF-8 stream
      does and an ASCII or Latin-1 stream does not *)
  stdout_unicode : bool;
  events : list event
}.

(** What the process has done: the lines printed, the listening socket
    [httpd.socket] with its address, the TLS context with the chains
    loaded into it, whether the socket was wrapped, and the bytes sent on
    each connection served. *)
Record process : Set := mkProcess {
  stdout : list string;
  httpd_socket : option (string * Z);
  context : option (list (string * string));
  wrapped : bool;
  served : list string
}.

Definition start : process :=
  {| stdout := []; httpd_socket := None; context := None;
     wrapped := false; served := [] |}.

(** [print(s)] for a line [sys.stdout] takes. The lines of the program
    are ASCII but for the first of the diagnostic, which starts with
    U+274C, and for the working directory in the banner, whose name the
    interpreter has read with the encoding of the locale, the one of
    [sys.stdout]. *)
Definition print (s : string) (p : process) : process :=
  mkProcess (app (stdout p) [s]) (httpd_socket p) (context p) (wrapped p)
    (served p).
Definition set_httpd_socket (v : option (string * Z)) (p : process) :=
  mkProcess (stdout p) v (context p) (wrapped p) (served p).
Definition set_context (v : option (list (string * string))) (p : process) :=
  mkProcess (stdout p) (httpd_socket p) v (wrapped p) (served p).
Definition set_wrapped (v : bool) (p : process) :=
  mkProcess (stdout p) (httpd_socket p) (context p) v (served p).
Definition send (bytes : string) (p : process) :=
  mkProcess (stdout p) (httpd_socket p) (context p) (wrapped p)
    (app (served p) [bytes]).

(** How a call ends: it returns, it raises, or it is still waiting for
    the next arrival when those of the machine are used up. *)
Inductive outcome : Set :=
| Returns
| Raises (e : exn)
| Waits.

(** [socketserver.BaseServer._handle_request_noblock]: a failed accept
    or handshake ([OSError]) is dropped; a handler is made for the
    connection and runs [handle]; an [Exception] out of it is reported
    by [handle_error], anything else is raised again. *)
Definition _handle_request_noblock (hst : Host) (e : event) (p : process)
  : outcome * process :=
  match e with
  | Interrupt => (Raises KeyboardInterrupt, p)
  | HandshakeFailed => (Returns, p)
  | Connection requests =>
      match MyHTTPRequestHandler.handle hst
              (MyHTTPRequestHandler.new requests) with
      | Ok _ h => (Returns, send (wfile h) p)
      | Raise e h =>
          if is_Exception e then (Returns, send (wfile h) p)
          else (Raises e, send (wfile h) p)
      end
  end.

(** [socketserver.BaseServer.serve_forever]: nothing in the program
    calls [shutdown], so the loop ends by an exception only. *)
Fixpoint serve_forever (hst : Host) (evs : list event) (p : process)
  : outcome * process :=
  match evs with
  | [] => (Waits, p)
  | e :: evs' =>
      match _handle_request_noblock hst e p with
      | (Returns, p') => serve_forever hst evs' p'
      | r => r
      end
  end.

Definition run_server (m : machine) : outcome * process :=
  let p := start in
  if negb (path_exists (host m) CERT_FILE)
     || negb (path_exists (host m) KEY_FILE)
  then
    (* [print] raises on a character the stream cannot encode, and has
       written nothing then *)
    if negb (stdout_unicode m) then (Raises UnicodeEncodeError, p)
    else
      let p := print "❌ Error: SSL certificates not found!" p in
      let p := print ("   Looking for: " ++ CERT_FILE ++ " and " ++ KEY_FILE) p in
      (Returns, p)
  else
    let server_address := ("", PORT) in
    if negb (bind_ok m) then (Raises OSError, p)
    else
      let p := set_httpd_socket (Some server_address) p in
      let p := set_context (Some []) p in
      if negb (cert_chain_ok m) then (Raises (cert_chain_error m), p)
      else
        let p := set_context (Some [(CERT_FILE, KEY_FILE)]) p in
        let p := set_wrapped true p in
        let p := print ("HTTPS Server running on https://localhost:"
                        ++ str PORT) p in
        let p := print ("Serving files from: " ++ getcwd (host m)) p in
        let p := print "Using SSL certificates:" p in
        let p := print ("   - Certificate: " ++ CERT_FILE) p in
        let p := print ("   - Private Key: " ++ KEY_FILE) p in
        let p := print (LF ++ "Your browser will show a security warning because this is a self-signed certificate.") p in
        let p := print ("   Click 'Advanced' and 'Proceed to localhost' to continue." ++ LF) p in
        let p := print ("Press Ctrl+C to stop the server" ++ LF) p in
        match serve_forever (host m) (events m) p with
        | (Raises KeyboardInterrupt, p) =>
            (Returns, print (LF ++ LF ++ "Server stopped") p)
        | r => r
        end.

(** [if __name__ == '__main__': run_server()]: how the process ends. The
    interpreter exits with status 0 when the script runs to its end and
    with status 1 on an exception nobody caught, but on
    [KeyboardInterrupt], where it ends itself by the signal. *)
Inductive termination : Set :=
| Exit (status : Z)
| KilledBySIGINT
| Running.

Definition main (m : machine) : termination * process :=
  match run_server m with
  | (Returns, p) => (Exit 0, p)
  | (Raises KeyboardInterrupt, p) => (KilledBySIGINT, p)
  | (Raises _, p) => (Exit 1, p)
  | (Waits, p) => (Running, p)
  end.

End Server.

(* ================================================================== *)
(** * Reading a response

    What a client makes of the bytes it receives, and the shape of the
    header block the handler writes, for the statements below. *)

Module Response.

Import Py.

(** The three headers of [MyHTTPRequestHandler.end_headers], in its
    order. *)
Definition cors_headers : list (string * string) :=
  [ ("Access-Control-Allow-Origin", "*");
    ("Access-Control-Allow-Methods", "GET, POST, OPTIONS");
    ("Access-Control-Allow-Headers", "Content-Type") ].

(** A status line, a line per header, the blank line, the body. *)
Definition render (code : HTTPStatus.t) (message : string)
    (hdrs : list (string * string)) (body : string) : string :=
  join ""
    (BaseHTTPRequestHandler.status_line code message
     :: map (fun kv => BaseHTTPRequestHandler.header_line (fst kv) (snd kv))
          hdrs
     ++ [CRLF])%list
  ++ body.

(** The three lines of the override, as they read in a header block. *)
Definition cors_lines : list string :=
  [ "Access-Control-Allow-Origin: *";
    "Access-Control-Allow-Methods: GET, POST, OPTIONS";
    "Access-Control-Allow-Headers: Content-Type" ].

(** What a client reads of a response, as [http.client] does: the lines
    up to the first empty one, each without its line feed and the
    carriage return before it, and what follows the empty line. There
    is no header block when no line is empty. The line being read is
    held last character first. *)
Definition line_of (reversed : string) : string :=
  rev_string
    match reversed with
    | String c r => if Ascii.eqb c (chr 13) then r else reversed
    | EmptyString => reversed
    end "".

Fixpoint read_head (s reversed : string) (lines : list string)
  : option (list string * string) :=
  match s with
  | EmptyString => None
  | String c s' =>
      if Ascii.eqb c (chr 10) then
        if line_of reversed =? "" then Some (rev lines, s')
        else read_head s' "" (line_of reversed :: lines)
      else read_head s' (String c reversed) lines
  end.

Definition head_of (response : string) : option (list string * string) :=
  read_head response "" [].

(** The status code of a response that starts with a status line
    [HTTP/x.y nnn ...]. *)
Definition status_of (response : string) : option Z :=
  if startswith "HTTP/" response
  then int 0 (String.substring 9 3 response)
  else None.

(** The two headers [send_response] puts after the status line. *)
Definition server_date (host : Host) : list (string * string) :=
  [ ("Server",
     BaseHTTPRequestHandler.version_string host
       SimpleHTTPRequestHandler.server_version);
    ("Date", BaseHTTPRequestHandler.date_time_string host None) ].

(** The headers and the page of [send_error]. *)
Definition error_body (code : HTTPStatus.t) (message explain : string)
  : string :=
  encode_utf8
    (BaseHTTPRequestHandler.error_message_format (HTTPStatus.value code)
       (html_escape message) (html_escape explain)).

Definition error_headers (host : Host) (body : string)
  : list (string * string) :=
  (server_date host ++
   [ ("Connection", "close");
     ("Content-Type", BaseHTTPRequestHandler.error_content_type);
     ("Content-Length", str (len body)) ])%list.

End Response.

(** The request line of [r] is of 65536 bytes at most and reads
    [command path version], three words, for a version [HTTP/major.minor]
    the server takes, below 2.0, that is not HTTP/0.9, and the header
    block of the request parses, to [hs]. *)
Definition request_line_is (host : Host) (r : request)
    (command path version : string) (hs : list (string * string)) : Prop :=
  (Py.len (line r) <= 65536)%Z /\
  Py.split_ws (Py.rstrip (Py.is_char_of Py.CRLF) (line r))
    = [command; path; version] /\
  (exists n,
     BaseHTTPRequestHandler.parse_version_number host version = Some n
     /\ Py.tuple_ge n (2, 0)%Z = false) /\
  version <> "HTTP/0.9" /\
  header_block r = Headers hs.

(** The path as [parse_request] leaves it in [self.path]: slashes at the
    start are reduced to one when there are two or more. *)
Definition request_path (path : string) : string :=
  if Py.startswith "//" path
  then "/" ++ Py.lstrip (Ascii.eqb "/") path
  else path.

(** A path made from the root by joining simple names, as [translate_path]
    does, and by adding a slash at the end. *)
Definition simple_name (name : string) : Prop :=
  name <> "" /\ name <> "." /\ name <> ".." /\ Py.contains "/" name = false.

Inductive under (root : string) : string -> Prop :=
| under_root : under root root
| under_join q name :
    under root q -> simple_name name -> under root (Py.path_join q name)
| under_slash q : under root q -> under root (q ++ "/").

(** The reading of the specification: the request path, put after the
    root and normalised, lies outside of the root. *)
Definition spec_resolves_outside (root path : string) : bool :=
  let q := Py.normpath (root ++ "/" ++ path) in
  negb (String.eqb q root || Py.startswith (root ++ "/") q).

(** ** A machine to run the program on *)

Module Example.

Import Py.

Definition file_of (data : string) : file :=
  {| read := data; fstat := {| st_size := len data; st_mtime := 0 |} |}.

Definition files (p : string) : option file :=
  if p =? "/srv/www/index.html" then Some (file_of "hello")
  else if p =? "/srv/www/etc/passwd" then Some (file_of "inside")
  else None.

(** The characters [urlsplit] takes out of an address: tab, line feed
    and carriage return. *)
Definition remove_unsafe (s : string) : string :=
  string_of_list_ascii
    (filter (fun c => negb (is_char_of (TAB ++ CRLF) c))
       (list_ascii_of_string s)).

Definition www : Host := {|
  getcwd := "/srv/www";
  path_exists := fun p => (p =? CERT_FILE) || (p =? KEY_FILE);
  path_isdir := fun p =>
    (p =? "/srv/www") || (p =? "/srv/www/") || (p =? "/srv/www/etc")
    || (p =? "/srv/www/etc/");
  path_isfile := fun p =>
    match files p with Some _ => true | None => false end;
  open_rb := fun p =>
    if contains (chr 0) p then Invalid false
    else match files p with Some f => Opened f | None => Refused end;
  listdir := fun p =>
    if (p =? "/srv/www/etc") || (p =? "/srv/www/etc/") then Some ["passwd"]
    else if (p =? "/srv/www") || (p =? "/srv/www/")
    then Some ["etc"; "index.html"]
    else None;
  time := 0;
  formatdate := fun _ => "Thu, 01 Jan 1970 00:00:00 GMT";
  sys_version := "Python/3.11.2";
  guess_type := fun p =>
    if endswith ".html" p then "text/html" else "application/octet-stream";
  unquote_escapes := fun s => s;
  (* an address without scheme and host: a path, a query after the
     first question mark, a fragment after the first hash; a bracket
     that opens a host after a scheme and is not closed is CPython's
     "Invalid IPv6 URL" *)
  urlsplit := fun s =>
    if has_substring "://[" s && negb (contains "]" s) then None
    else
      let address := nth 0 (split1 "#" s) "" in
      Some {| scheme := ""; netloc := "";
              sr_path := remove_unsafe (nth 0 (split1 "?" address) "");
              query := remove_unsafe (nth 1 (split1 "?" address) "");
              fragment := remove_unsafe (nth 1 (split1 "#" s) "") |};
  urlunsplit := fun parts =>
    sr_path parts
    ++ (if query parts =? "" then "" else "?" ++ query parts)
    ++ (if fragment parts =? "" then "" else "#" ++ fragment parts);
  parsedate_to_datetime := fun _ => None;
  directory_listing := fun _ _ names => Some (join LF names);
  getfilesystemencoding := "utf-8";
  int_max_str_digits := 4300
|}.

(** The same directory, with one of the two files of the certificate
    absent, or both. *)
Definition without (missing : list string) : Host := {|
  getcwd := getcwd www;
  path_exists := fun p =>
    path_exists www p && negb (existsb (String.eqb p) missing);
  path_isdir := path_isdir www;
  path_isfile := path_isfile www;
  open_rb := open_rb www;
  listdir := listdir www;
  time := time www;
  formatdate := formatdate www;
  sys_version := sys_version www;
  guess_type := guess_type www;
  unquote_escapes := unquote_escapes www;
  urlsplit := urlsplit www;
  urlunsplit := urlunsplit www;
  parsedate_to_datetime := parsedate_to_datetime www;
  directory_listing := directory_listing www;
  getfilesystemencoding := getfilesystemencoding www;
  int_max_str_digits := int_max_str_digits www
|}.

Definition request_of (request_line : string) : request :=
  {| line := request_line ++ CRLF; header_block := Headers [] |}.

Definition machine_of (hst : Host) (evs : list Server.event)
  : Server.machine :=
  {| Server.host := hst; Server.bind_ok := true;
     Server.cert_chain_ok := true; Server.cert_chain_error := SSLError;
     Server.stdout_unicode := true; Server.events := evs |}.

(** The same machine when its standard output is an ASCII stream. *)
Definition ascii_machine_of (hst : Host) (evs : list Server.event)
  : Server.machine :=
  {| Server.host := hst; Server.bind_ok := true;
     Server.cert_chain_ok := true; Server.cert_chain_error := SSLError;
     Server.stdout_unicode := false; Server.events := evs |}.

(** The bytes the handler sends in answer to one request line. *)
Definition answer (request_line : string) : string :=
  match MyHTTPRequestHandler.handle_one_request www
          (MyHTTPRequestHandler.new [request_of request_line]) with
  | Ok _ h => wfile h
  | Raise _ h => wfile h
  end.

End Example.

(* ================================================================== *)
(** * States of a handler, for the statements below *)

(** The lines in the buffer, none when there is no buffer yet. *)
Definition buffer_of (h : handler) : list string :=
  match _headers_buffer h with None => [] | Some b => b end.

(** The handler after a line was appended to its buffer. *)
Definition push (l : string) (h : handler) : handler :=
  with_headers_buffer (Some (buffer_of h ++ [l])%list) h.

(** The handler after its buffer was written out. *)
Definition flushed (h : handler) : handler :=
  with_headers_buffer (Some [])
    (with_wfile (wfile h ++ Py.join "" (buffer_of h)) h).

Definition live (h : handler) : Prop :=
  (request_version h =? "HTTP/0.9") = false.

(** The handler after a response: [out] was written to the connection,
    the buffer is empty, and [close_connection] is [close]. *)
Definition answered (out : string) (close : bool) (h : handler) : handler :=
  with_headers_buffer (Some [])
    (with_close_connection close (with_wfile (wfile h ++ out) h)).

(** The tests of [send_error]: whether the status comes with a page, the
    message and explanation when none is given, and whether the command
    is [HEAD]. *)
Definition has_body (code : HTTPStatus.t) : bool :=
  (200 <=? HTTPStatus.value code)%Z
  && negb (HTTPStatus.eqb code HTTPStatus.NO_CONTENT
           || HTTPStatus.eqb code HTTPStatus.RESET_CONTENT
           || HTTPStatus.eqb code HTTPStatus.NOT_MODIFIED).

Definition default_message (code : HTTPStatus.t) (message : option string)
  : string :=
  match message with None => HTTPStatus.phrase code | Some m => m end.

Definition default_explain (code : HTTPStatus.t) (explain : option string)
  : string :=
  match explain with None => HTTPStatus.description code | Some e => e end.

Definition is_HEAD (h : handler) : bool :=
  match command h with Some c => c =? "HEAD" | None => false end.

(** The handler after a response without status line and headers: [out]
    was written to the connection, and [close_connection] is [close]. *)
Definition answered_plain (out : string) (close : bool) (h : handler)
  : handler :=
  with_close_connection close (with_wfile (wfile h ++ out) h).

(** A string without carriage return and line feed, and a header whose
    name and value are such. *)
Definition no_eol (s : string) : bool :=
  negb (Py.contains (Py.chr 13) s) && negb (Py.contains (Py.chr 10) s).

Definition tidy_header (kv : string * string) : bool :=
  no_eol (fst kv) && no_eol (snd kv).

Definition tidy (message : string) (hdrs : list (string * string)) : Prop :=
  no_eol message = true /\ forallb tidy_header hdrs = true.

(** A status line and a header line as a client reads them, without the
    line break at their end. *)
Definition status_text (code : HTTPStatus.t) (message : string) : string :=
  BaseHTTPRequestHandler.protocol_version ++ " "
  ++ Py.str (HTTPStatus.value code) ++ " " ++ message.

Definition header_text (kv : string * string) : string :=
  fst kv ++ ": " ++ snd kv.

(** The address [send_head] redirects to when the request path names a
    directory and does not end with a slash. *)
Definition with_slash (parts : SplitResult) : SplitResult :=
  {| scheme := scheme parts; netloc := netloc parts;
     sr_path := sr_path parts ++ "/";
     query := query parts; fragment := fragment parts |}.

Definition redirect_location (host : Host) (parts : SplitResult) : string :=
  urlunsplit host (with_slash parts).

(** The values the library hands over for header lines have no line
    break in them, as those of CPython have none: the version is a word
    of [sys.version], [formatdate] writes a date in a fixed format, the
    types come from the words of the tables of [mimetypes], [urlsplit]
    takes carriage returns and line feeds out of an address, and the name
    of an encoding is a word. *)
Definition Host_tidy (host : Host) : Prop :=
  no_eol (sys_version host) = true
  /\ (forall t, no_eol (formatdate host t) = true)
  /\ (forall p, no_eol (guess_type host p) = true)
  /\ (forall s parts,
        urlsplit host s = Some parts ->
        no_eol (redirect_location host parts) = true)
  /\ no_eol (getfilesystemencoding host) = true.

(** A response with status line and headers went out: those of
    [send_response], then [base], then the three of the override, none
    with a line break in it when the values of the library have none;
    the connection is marked for closing, or left as it was. *)
Definition shaped (host : Host) (h h' : handler) : Prop :=
  exists code message base body close,
    h' = answered
           (Response.render code message
              (Response.server_date host ++ base ++ Response.cors_headers)
              body)
           (close || close_connection h) h
    /\ (Host_tidy host -> tidy message base).

(** A response without status line and headers went out. *)
Definition plain (h h' : handler) : Prop :=
  exists body close,
    h' = answered_plain body (close || close_connection h) h.

(** The headers [send_head] sends with a file. *)
Definition file_headers (host : Host) (path : string) (f : file)
  : list (string * string) :=
  [ ("Content-type", guess_type host path);
    ("Content-Length", Py.str (st_size (fstat f)));
    ("Last-Modified",
     BaseHTTPRequestHandler.date_time_string host (Some (st_mtime (fstat f)))) ].

(** What a step leaves on the connection: nothing, or a response sent
    under the default request version, or a response with status line and
    headers that end with the three of the override. *)
Definition well_answered (host : Host) (h h' : handler) : Prop :=
  wfile h' = wfile h
  \/ (request_version h' =? "HTTP/0.9") = true
  \/ exists code message base body,
       wfile h' =
       wfile h ++
       Response.render code message
         (Response.server_date host ++ base ++ Response.cors_headers) body
       /\ (Host_tidy host -> tidy message base).

(** The handler a call ends with, whether it returns or raises. *)
Definition state_of {A} (x : result A) : handler :=
  match x with
  | Ok _ h => h
  | Raise _ h => h
  end.

(** A call that returns with [P], or raises an exception of the class
    [Exception] and leaves the handler as it was. *)
Definition ends_in {A} (P : A -> handler -> Prop) (h : handler)
    (x : result A) : Prop :=
  match x with
  | Ok a h' => P a h'
  | Raise e h' => is_Exception e = true /\ h' = h
  end.

(** Nothing was written since [h0], no response is under way, and the
    connection is marked for closing. *)
Definition quiet (h0 h : handler) : Prop :=
  wfile h = wfile h0 /\ buffer_of h = [] /\ close_connection h = true.

(** The handler when [parse_request] has returned [True] on a request
    line [command path version] with headers [hs], first on its
    connection. *)
Definition parsed (r : request) (rest : list request)
    (command path version : string) (hs : list (string * string))
  : handler :=
  {| rfile := rest; wfile := "";
     raw_requestline := line r;
     requestline := Py.rstrip (Py.is_char_of Py.CRLF) (line r);
     request_version := version;
     command := Some command;
     path := request_path path;
     headers := hs;
     close_connection := true;
     _headers_buffer := None |}.

(* ================================================================== *)
(** * The properties claimed of the program *)

(** A response in whose header block, as a client reads it, the three
    lines of the override are. *)
Definition carries_cors (response : string) : Prop :=
  exists lines body,
    Response.head_of response = Some (lines, body)
    /\ incl Response.cors_lines lines.

(** A response whose header block, as a client reads it, ends with the
    three lines of the override, in its order: they come after the
    status line and the other headers, and the empty line comes after
    them. *)
Definition ends_with_cors (response : string) : Prop :=
  exists status_line base body,
    Response.head_of response
    = Some ((status_line :: base ++ Response.cors_lines)%list, body).

(** A response with status [code] and body [body], as a client reads
    it. *)
Definition answers (response : string) (code : HTTPStatus.t) (body : string)
  : Prop :=
  Response.status_of response = Some (HTTPStatus.value code)
  /\ exists lines, Response.head_of response = Some (lines, body).

(** A response of the class 4xx. *)
Definition is_4xx (response : string) : Prop :=
  exists code,
    Response.status_of response = Some code /\ (400 <= code < 500)%Z.

(** The lines printed name a path. *)
Definition names (out : list string) (p : string) : Prop :=
  exists l, In l out /\ Py.has_substring p l = true.

(** The reading of the specification of the diagnostic: of the two paths
    of the certificate, it names those that are missing, and only
    those. *)
Definition spec_reports_missing (hst : Host) (out : list string) : Prop :=
  forall p, In p [CERT_FILE; KEY_FILE] ->
            (names out p <-> path_exists hst p = false).

(** The start-up has failed for a missing file. *)
Definition certificate_missing (hst : Host) : Prop :=
  path_exists hst CERT_FILE = false \/ path_exists hst KEY_FILE = false.

(** The two lines [run_server] prints then. *)
Definition diagnostic : list string :=
  [ "❌ Error: SSL certificates not found!";
    "   Looking for: certs/server.crt and certs/server.key" ].

(** The lines [run_server] prints before it serves. *)
Definition banner (hst : Host) : list string :=
  [ "HTTPS Server running on https://localhost:8443";
    "Serving files from: " ++ getcwd hst;
    "Using SSL certificates:";
    "   - Certificate: certs/server.crt";
    "   - Private Key: certs/server.key";
    Py.LF ++ "Your browser will show a security warning because this is a self-signed certificate.";
    "   Click 'Advanced' and 'Proceed to localhost' to continue." ++ Py.LF;
    "Press Ctrl+C to stop the server" ++ Py.LF ].

(** The machine starts the server: both files are there, the port is
    bound and the chain is loaded. *)
Definition starts (m : Server.machine) : Prop :=
  path_exists (Server.host m) CERT_FILE = true
  /\ path_exists (Server.host m) KEY_FILE = true
  /\ Server.bind_ok m = true
  /\ Server.cert_chain_ok m = true.

(** The number of connections among the arrivals. *)
Definition connections (evs : list Server.event) : nat :=
  length (filter (fun e => match e with
                           | Server.Connection _ => true
                           | _ => false
                           end) evs).

(** The process after [sent] went out on further connections. *)
Definition sending (sent : list string) (p : Server.process)
  : Server.process :=
  Server.mkProcess (Server.stdout p) (Server.httpd_socket p)
    (Server.context p) (Server.wrapped p) (Server.served p ++ sent).

(** A computation that returns [b] whenever it returns. *)
Definition returns_only {B} (m : M B) (b : B) : Prop :=
  forall h b' h', m h = Ok b' h' -> b' = b.

(** Where the bytes [send_head] hands to [do_GET] come from: a file
    opened at [q], or the listing of the directory [q]. *)
Definition read_at (host : Host) (request_path q data : string) : Prop :=
  (exists f, open_rb host q = Opened f /\ data = read f)
  \/ (exists entries,
        listdir host q = Some entries
        /\ directory_listing host q request_path entries = Some data).

(** The handler when [parse_request] has returned [True] on the request
    line [command path version] with headers [hs]. *)
Definition parsed_from (h : handler) (command path version : string)
    (hs : list (string * string)) : handler :=
  mkHandler (rfile h) (wfile h) (raw_requestline h)
    (Py.rstrip (Py.is_char_of Py.CRLF) (raw_requestline h))
    version (Some command) (request_path path) hs true (_headers_buffer h).

(* ================================================================== *)
(** * The connections of a run, and what a method leaves alone *)

(** The bytes sent on a connection on which [requests] arrive: those the
    handler made for it has written when [handle] is over. *)
Definition response_to (hst : Host) (requests : list request) : string :=
  match MyHTTPRequestHandler.handle hst (MyHTTPRequestHandler.new requests)
  with
  | Ok _ h => wfile h
  | Raise _ h => wfile h
  end.

(** What is sent on the connections among the arrivals, in their order. *)
Fixpoint responses (hst : Host) (evs : list Server.event) : list string :=
  match evs with
  | [] => []
  | Server.Connection requests :: evs' =>
      response_to hst requests :: responses hst evs'
  | _ :: evs' => responses hst evs'
  end.

(** The arrivals that are not failed handshakes. *)
Definition handshaken (evs : list Server.event) : list Server.event :=
  filter (fun e => match e with
                   | Server.HandshakeFailed => false
                   | _ => true
                   end) evs.

(** The notice [run_server] prints when it is interrupted. *)
Definition notice : string := Py.LF ++ Py.LF ++ "Server stopped".

(** The process when the server is set up and the banner printed. *)
Definition serving (hst : Host) (sent : list string) : Server.process :=
  {| Server.stdout := banner hst;
     Server.httpd_socket := Some ("", PORT);
     Server.context := Some [(CERT_FILE, KEY_FILE)];
     Server.wrapped := true;
     Server.served := sent |}.

(** The bytes the override of [end_headers] adds to a header block: its
    three header lines and the blank line. *)
Definition cors_block : string :=
  "Access-Control-Allow-Origin: *" ++ Py.CRLF ++
  "Access-Control-Allow-Methods: GET, POST, OPTIONS" ++ Py.CRLF ++
  "Access-Control-Allow-Headers: Content-Type" ++ Py.CRLF ++ Py.CRLF.

(** The headers [list_directory] sends with a listing. *)
Definition listing_headers (host : Host) (listing : string)
  : list (string * string) :=
  [ ("Content-type", "text/html; charset=" ++ getfilesystemencoding host);
    ("Content-Length", Py.str (Py.len listing)) ].

(** ** More machines to run the program on *)

Module Variant.

(** A host with another way of listing directories, of reading dates and
  of writing the page of a listing. *)
Definition change (host : Host)
  (listdir' : string -> option (list string))
  (parsedate' : string -> option datetime)
  (listing' : string -> string -> list string -> option string) : Host := {|
getcwd := getcwd host;
path_exists := path_exists host;
path_isdir := path_isdir host;
path_isfile := path_isfile host;
open_rb := open_rb host;
listdir := listdir';
time := time host;
formatdate := formatdate host;
sys_version := sys_version host;
guess_type := guess_type host;
unquote_escapes := unquote_escapes host;
urlsplit := urlsplit host;
urlunsplit := urlunsplit host;
parsedate_to_datetime := parsedate';
directory_listing := listing';
getfilesystemencoding := getfilesystemencoding host;
int_max_str_digits := int_max_str_digits host
|}.




(** A request with headers. *)
Definition request_with (request_line : string)
  (hs : list (string * string)) : request :=
{| line := request_line ++ Py.CRLF; header_block := Headers hs |}.



End Variant.

(** The handler of a connection when [handle_one_request] has read the
    request line of [r], and when [parse_request] has set, before it looks
    at the words of the line, the attributes of a request without version
    and without command. *)
Definition fresh (r : request) (rest : list request) : handler :=
  with_raw_requestline (line r)
    (with_rfile rest (MyHTTPRequestHandler.new (r :: rest))).

Definition request_line_of (h : handler) : string :=
  Py.rstrip (Py.is_char_of Py.CRLF) (raw_requestline h).

Definition reset (h : handler) : handler :=
  with_requestline (request_line_of h)
    (with_close_connection true
       (with_request_version BaseHTTPRequestHandler.default_request_version
          (with_command None h))).

(** The words of the request line of [r]. *)
Definition words_of (r : request) : list string :=
  Py.split_ws (Py.rstrip (Py.is_char_of Py.CRLF) (line r)).

(** A string made by doubling [s] [n] times, and a request whose line is
    longer than the 65536 bytes [handle_one_request] takes. *)
Fixpoint doubled (n : nat) (s : string) : string :=
  match n with
  | O => s
  | S n' => doubled n' (s ++ s)
  end.

Definition long_request : request :=
  {| line := "GET /" ++ doubled 16 "a" ++ " HTTP/1.1" ++ Py.CRLF;
     header_block := Headers [] |}.

(** A computation that neither reads nor changes the requests still to
    come on the connection: it does the same whatever they are. *)
Definition on_state {A} (f : handler -> handler) (x : result A) : result A :=
  match x with
  | Ok a h => Ok a (f h)
  | Raise e h => Raise e (f h)
  end.

Definition blind {A} (m : M A) : Prop :=
  forall v h, m (with_rfile v h) = on_state (with_rfile v) (m h).

(** Two handlers that are at the same point of the same request, but that
    one is for [HEAD] and the other is not. *)
Definition twins (hg hh : handler) : Prop :=
  (request_version hg =? "HTTP/0.9") = false
  /\ (request_version hh =? "HTTP/0.9") = false
  /\ buffer_of hg = [] /\ buffer_of hh = []
  /\ path hg = path hh
  /\ headers hg = headers hh
  /\ close_connection hg = close_connection hh
  /\ is_HEAD hg = false /\ is_HEAD hh = true.

(** What [send_head] does on twins: the same status line and headers go
    out and the same file is handed over; a body that goes out with the
    headers goes to the one that is not for [HEAD]. Or the same exception
    is raised before anything is written. *)
Definition twin_heads (xg xh : result (option string)) (hg hh : handler)
  : Prop :=
  (exists code message hdrs body f close,
     xg = Ok f (answered (Response.render code message hdrs body) close hg)
     /\ xh = Ok f (answered (Response.render code message hdrs "") close hh))
  \/ (exists e, xg = Raise e hg /\ xh = Raise e hh).

(** Two handlers at the same point of two requests that differ by their
    headers only, and not by what the headers say of the date of the
    copy the client has. *)
Definition mates (host : Host) (h1 h2 : handler) : Prop :=
  (request_version h1 =? "HTTP/0.9") = false
  /\ (request_version h2 =? "HTTP/0.9") = false
  /\ buffer_of h1 = [] /\ buffer_of h2 = []
  /\ path h1 = path h2
  /\ close_connection h1 = close_connection h2
  /\ is_HEAD h1 = is_HEAD h2
  /\ forall fs,
       SimpleHTTPRequestHandler.not_modified host (headers h1) fs
       = SimpleHTTPRequestHandler.not_modified host (headers h2) fs.

(** The same bytes go out and the same file is handed over, or the same
    exception is raised before anything is written. *)
Definition same_heads (x1 x2 : result (option string)) (h1 h2 : handler)
  : Prop :=
  (exists out f close,
     x1 = Ok f (answered out close h1) /\ x2 = Ok f (answered out close h2))
  \/ (exists e, x1 = Raise e h1 /\ x2 = Raise e h2).

(* ================================================================== *)
(** * Strings and the monad *)

Unset Implicit Arguments.

Lemma append_assoc (a b c : string) : (a ++ b) ++ c = a ++ (b ++ c).
Proof. induction a; simpl; congruence. Qed.

Lemma append_nil_r (a : string) : a ++ "" = a.
Proof. induction a; simpl; congruence. Qed.

Lemma join_cons (x : string) (l : list string) :
  Py.join "" (x :: l) = x ++ Py.join "" l.
Proof. destruct l; simpl; [now rewrite append_nil_r | reflexivity]. Qed.

Lemma join_app (l1 l2 : list string) :
  Py.join "" (l1 ++ l2)%list = Py.join "" l1 ++ Py.join "" l2.
Proof.
  induction l1 as [|x l1 IH].
  - reflexivity.
  - change ((x :: l1) ++ l2)%list with (x :: (l1 ++ l2))%list.
    rewrite !join_cons, IH, append_assoc. reflexivity.
Qed.

Lemma run_bind {A B} (m : M A) (k : A -> M B) (h : handler) :
  bind m k h =
  match m h with Ok a h' => k a h' | Raise e h' => Raise e h' end.
Proof. reflexivity. Qed.

Lemma run_bind_ok {A B} (m : M A) (k : A -> M B) (h h' : handler) (a : A) :
  m h = Ok a h' -> bind m k h = k a h'.
Proof. intros E. unfold bind. now rewrite E. Qed.

Lemma bind_assoc {A B C} (m : M A) (f : A -> M B) (g : B -> M C) h :
  bind (bind m f) g h = bind m (fun x => bind (f x) g) h.
Proof. unfold bind. destruct (m h); reflexivity. Qed.

Lemma bind_ret {A B} (a : A) (k : A -> M B) h : bind (ret a) k h = k a h.
Proof. reflexivity. Qed.

Lemma bind_get {B} (k : handler -> M B) h : bind get k h = k h h.
Proof. reflexivity. Qed.

(* ================================================================== *)
(** * The header buffer *)

Section Buffer.

Import BaseHTTPRequestHandler.

Lemma send_response_only_live code message h :
  live h ->
  send_response_only code message h =
  Ok tt (push (status_line code
                 match message with
                 | None => HTTPStatus.phrase code
                 | Some m => m
                 end) h).
Proof.
  intros L. unfold send_response_only, get, bind. rewrite L. reflexivity.
Qed.

Lemma send_response_only_dead code message h :
  (request_version h =? "HTTP/0.9") = true ->
  send_response_only code message h = Ok tt h.
Proof.
  intros L. unfold send_response_only, get, bind. rewrite L. reflexivity.
Qed.

Lemma send_header_live keyword value h :
  live h ->
  (Py.lower keyword =? "connection") = false ->
  send_header keyword value h = Ok tt (push (header_line keyword value) h).
Proof.
  intros L K. unfold send_header, get, bind. rewrite L, K. reflexivity.
Qed.

Lemma send_header_dead keyword value h :
  (request_version h =? "HTTP/0.9") = true ->
  (Py.lower keyword =? "connection") = false ->
  send_header keyword value h = Ok tt h.
Proof.
  intros L K. unfold send_header, get, bind. rewrite L, K. reflexivity.
Qed.

Lemma send_header_close_live h :
  live h ->
  send_header "Connection" "close" h =
  Ok tt (with_close_connection true
           (push (header_line "Connection" "close") h)).
Proof.
  intros L. unfold send_header, get, bind. rewrite L. reflexivity.
Qed.

Lemma send_header_close_dead h :
  (request_version h =? "HTTP/0.9") = true ->
  send_header "Connection" "close" h = Ok tt (with_close_connection true h).
Proof.
  intros L. unfold send_header, get, bind. rewrite L. reflexivity.
Qed.

Lemma end_headers_live h :
  live h ->
  _headers_buffer h <> None ->
  end_headers h = Ok tt (flushed (push Py.CRLF h)).
Proof.
  intros L B. unfold end_headers, get, bind. rewrite L.
  destruct h as [rf wf raw rl rv cmd pth hs cc [b|]]; [|now elim B].
  reflexivity.
Qed.

Lemma end_headers_dead h :
  (request_version h =? "HTTP/0.9") = true ->
  end_headers h = Ok tt h.
Proof.
  intros L. unfold end_headers, get, bind. rewrite L. reflexivity.
Qed.

End Buffer.

(** Assignments, as equations to rewrite with. *)
Lemma bind_set_rfile {B} v (k : unit -> M B) h :
  bind (set_rfile v) k h = k tt (with_rfile v h).
Proof. reflexivity. Qed.

Lemma bind_set_wfile {B} v (k : unit -> M B) h :
  bind (set_wfile v) k h = k tt (with_wfile v h).
Proof. reflexivity. Qed.

Lemma bind_set_raw_requestline {B} v (k : unit -> M B) h :
  bind (set_raw_requestline v) k h = k tt (with_raw_requestline v h).
Proof. reflexivity. Qed.

Lemma bind_set_requestline {B} v (k : unit -> M B) h :
  bind (set_requestline v) k h = k tt (with_requestline v h).
Proof. reflexivity. Qed.

Lemma bind_set_request_version {B} v (k : unit -> M B) h :
  bind (set_request_version v) k h = k tt (with_request_version v h).
Proof. reflexivity. Qed.

Lemma bind_set_command {B} v (k : unit -> M B) h :
  bind (set_command v) k h = k tt (with_command v h).
Proof. reflexivity. Qed.

Lemma bind_set_path {B} v (k : unit -> M B) h :
  bind (set_path v) k h = k tt (with_path v h).
Proof. reflexivity. Qed.

Lemma bind_set_headers {B} v (k : unit -> M B) h :
  bind (set_headers v) k h = k tt (with_headers v h).
Proof. reflexivity. Qed.

Lemma bind_set_close_connection {B} v (k : unit -> M B) h :
  bind (set_close_connection v) k h = k tt (with_close_connection v h).
Proof. reflexivity. Qed.

Lemma bind_set_headers_buffer {B} v (k : unit -> M B) h :
  bind (set_headers_buffer v) k h = k tt (with_headers_buffer v h).
Proof. reflexivity. Qed.

Ltac assign :=
  repeat first
    [ rewrite bind_set_rfile
    | rewrite bind_set_wfile
    | rewrite bind_set_raw_requestline
    | rewrite bind_set_requestline
    | rewrite bind_set_request_version
    | rewrite bind_set_command
    | rewrite bind_set_path
    | rewrite bind_set_headers
    | rewrite bind_set_close_connection
    | rewrite bind_set_headers_buffer ].

(** The inherited methods under their own names. *)
Lemma my_send_error_eq host :
  BaseHTTPRequestHandler.send_error host MyHTTPRequestHandler.server_version
    MyHTTPRequestHandler.end_headers
  = MyHTTPRequestHandler.send_error host.
Proof. reflexivity. Qed.

Lemma my_parse_request_eq host :
  BaseHTTPRequestHandler.parse_request host
    MyHTTPRequestHandler.server_version MyHTTPRequestHandler.end_headers
  = MyHTTPRequestHandler.parse_request host.
Proof. reflexivity. Qed.

Lemma my_do_GET_eq host :
  SimpleHTTPRequestHandler.do_GET host MyHTTPRequestHandler.end_headers
  = MyHTTPRequestHandler.do_GET host.
Proof. reflexivity. Qed.

Lemma my_do_HEAD_eq host :
  SimpleHTTPRequestHandler.do_HEAD host MyHTTPRequestHandler.end_headers
  = MyHTTPRequestHandler.do_HEAD host.
Proof. reflexivity. Qed.

Lemma my_send_head_eq host :
  SimpleHTTPRequestHandler.send_head host MyHTTPRequestHandler.end_headers
  = MyHTTPRequestHandler.send_head host.
Proof. reflexivity. Qed.

(* ================================================================== *)
(** * The override: [MyHTTPRequestHandler.end_headers] *)

Create HintDb handler.

Lemma live_push l h : live h -> live (push l h).
Proof. exact (fun H => H). Qed.

Lemma live_with_close_connection b h :
  live h -> live (with_close_connection b h).
Proof. exact (fun H => H). Qed.

Lemma buffer_push l h : _headers_buffer (push l h) <> None.
Proof. discriminate. Qed.

Lemma buffer_with_close_connection b h :
  _headers_buffer h <> None ->
  _headers_buffer (with_close_connection b h) <> None.
Proof. exact (fun H => H). Qed.

#[export] Hint Resolve live_push live_with_close_connection buffer_push
  buffer_with_close_connection : handler.

Ltac side := solve [ reflexivity | auto with handler ].

Lemma my_end_headers_live h :
  live h ->
  MyHTTPRequestHandler.end_headers h =
  Ok tt
    (flushed
       (push Py.CRLF
          (push (BaseHTTPRequestHandler.header_line
                   "Access-Control-Allow-Headers" "Content-Type")
             (push (BaseHTTPRequestHandler.header_line
                      "Access-Control-Allow-Methods" "GET, POST, OPTIONS")
                (push (BaseHTTPRequestHandler.header_line
                         "Access-Control-Allow-Origin" "*") h))))).
Proof.
  intros L. unfold MyHTTPRequestHandler.end_headers,
    MyHTTPRequestHandler.send_header.
  rewrite run_bind, send_header_live by side.
  rewrite run_bind, send_header_live by side.
  rewrite run_bind, send_header_live by side.
  rewrite end_headers_live by side.
  reflexivity.
Qed.

Lemma my_end_headers_dead h :
  (request_version h =? "HTTP/0.9") = true ->
  MyHTTPRequestHandler.end_headers h = Ok tt h.
Proof.
  intros L. unfold MyHTTPRequestHandler.end_headers,
    MyHTTPRequestHandler.send_header.
  rewrite run_bind, send_header_dead by side.
  rewrite run_bind, send_header_dead by side.
  rewrite run_bind, send_header_dead by side.
  now apply end_headers_dead.
Qed.

(* ================================================================== *)
(** * Responses of the inherited methods *)

Arguments BaseHTTPRequestHandler.status_line : simpl never.
Arguments BaseHTTPRequestHandler.header_line : simpl never.
Arguments Py.join : simpl never.

Lemma buffer_of_push l h : buffer_of (push l h) = (buffer_of h ++ [l])%list.
Proof. reflexivity. Qed.

Lemma wfile_push l h : wfile (push l h) = wfile h.
Proof. reflexivity. Qed.

Lemma wfile_flushed h :
  wfile (flushed h) = wfile h ++ Py.join "" (buffer_of h).
Proof. reflexivity. Qed.

Section Responses.

Import Response.
Variable host : Host.

Let send_response :=
  BaseHTTPRequestHandler.send_response host
    SimpleHTTPRequestHandler.server_version.

Lemma send_response_live code message h :
  live h ->
  send_response code message h =
  Ok tt
    (push (BaseHTTPRequestHandler.header_line "Date"
             (BaseHTTPRequestHandler.date_time_string host None))
       (push (BaseHTTPRequestHandler.header_line "Server"
                (BaseHTTPRequestHandler.version_string host
                   SimpleHTTPRequestHandler.server_version))
          (push (BaseHTTPRequestHandler.status_line code
                   match message with
                   | None => HTTPStatus.phrase code
                   | Some m => m
                   end) h))).
Proof.
  intros L. unfold send_response, BaseHTTPRequestHandler.send_response.
  rewrite run_bind, send_response_only_live by side.
  rewrite run_bind, send_header_live by side.
  rewrite send_header_live by side.
  reflexivity.
Qed.

Lemma send_response_dead code message h :
  (request_version h =? "HTTP/0.9") = true ->
  send_response code message h = Ok tt h.
Proof.
  intros L. unfold send_response, BaseHTTPRequestHandler.send_response.
  rewrite run_bind, send_response_only_dead by assumption.
  rewrite run_bind, send_header_dead by side.
  now rewrite send_header_dead by side.
Qed.

(** The shape of what [answered] adds to the connection when the buffer
    held a response started by [send_response] and the override closes
    it. *)
Lemma wfile_flushed_cors code message (hdrs : list (string * string)) h :
  buffer_of h =
    (BaseHTTPRequestHandler.status_line code message ::
     map (fun kv => BaseHTTPRequestHandler.header_line (fst kv) (snd kv))
       hdrs)%list ->
  wfile
    (flushed
       (push Py.CRLF
          (push (BaseHTTPRequestHandler.header_line
                   "Access-Control-Allow-Headers" "Content-Type")
             (push (BaseHTTPRequestHandler.header_line
                      "Access-Control-Allow-Methods" "GET, POST, OPTIONS")
                (push (BaseHTTPRequestHandler.header_line
                         "Access-Control-Allow-Origin" "*") h)))))
  = wfile h ++ render code message (hdrs ++ cors_headers) "".
Proof.
  intros B.
  rewrite wfile_flushed, !buffer_of_push, !wfile_push, B.
  unfold render. rewrite append_nil_r, map_app, <- !app_assoc.
  reflexivity.
Qed.

End Responses.

Lemma handler_ext (a b : handler) :
  rfile a = rfile b -> wfile a = wfile b ->
  raw_requestline a = raw_requestline b -> requestline a = requestline b ->
  request_version a = request_version b -> command a = command b ->
  path a = path b -> headers a = headers b ->
  close_connection a = close_connection b ->
  _headers_buffer a = _headers_buffer b ->
  a = b.
Proof. destruct a, b; cbn; intros; subst; reflexivity. Qed.

Section Errors.

Import Response.
Variable host : Host.

Let send_error := MyHTTPRequestHandler.send_error host.

(** [send_error] while the status line and headers are sent: the
    response is the status line with the message, the headers of the
    error page, the three headers of the override, and the page unless
    the command is [HEAD]. *)
Lemma send_error_live code message explain h :
  live h ->
  buffer_of h = [] ->
  has_body code = true ->
  send_error code message explain h =
  Ok tt
    (answered
       (let message := default_message code message in
        let body := error_body code message (default_explain code explain) in
        render code message (error_headers host body ++ cors_headers)
          (if is_HEAD h then "" else body))
       true h).
Proof.
  intros L B C.
  unfold send_error, MyHTTPRequestHandler.send_error,
    BaseHTTPRequestHandler.send_error.
  fold (has_body code). rewrite C.
  fold (default_message code message) (default_explain code explain).
  fold (error_body code (default_message code message)
          (default_explain code explain)).
  set (body := error_body _ _ _).
  rewrite run_bind.
  change (BaseHTTPRequestHandler.send_response host
            MyHTTPRequestHandler.server_version)
    with (BaseHTTPRequestHandler.send_response host
            SimpleHTTPRequestHandler.server_version).
  rewrite send_response_live by side.
  rewrite run_bind, send_header_close_live by side.
  rewrite bind_assoc, run_bind, send_header_live by side.
  rewrite bind_assoc, run_bind, send_header_live by side.
  rewrite bind_ret, run_bind, my_end_headers_live by side.
  rewrite bind_get.
  match goal with |- context [flushed ?x] => set (h1 := flushed x) end.
  assert (W : wfile h1 =
              wfile h ++ render code (default_message code message)
                           (error_headers host body ++ cors_headers) "").
  { unfold h1.
    rewrite wfile_flushed, !buffer_of_push, !wfile_push.
    change (buffer_of (with_close_connection true ?x)) with (buffer_of x).
    change (wfile (with_close_connection true ?x)) with (wfile x).
    rewrite !buffer_of_push, !wfile_push, B.
    unfold render. rewrite append_nil_r. reflexivity. }
  assert (Hcmd : command h1 = command h) by reflexivity.
  fold (is_HEAD h1). replace (is_HEAD h1) with (is_HEAD h) by reflexivity.
  destruct (is_HEAD h) eqn:HD; cbn [negb andb when ret].
  - apply (f_equal (Ok tt)), handler_ext; try reflexivity.
    cbn [wfile answered with_headers_buffer with_close_connection with_wfile].
    exact W.
  - destruct (String.eqb_spec body "") as [E|E]; cbn [negb when ret].
    + apply (f_equal (Ok tt)), handler_ext; try reflexivity.
      cbn [wfile answered with_headers_buffer with_close_connection
             with_wfile].
      rewrite W, E. reflexivity.
    + unfold wfile_write, get, bind, set_wfile.
      apply (f_equal (Ok tt)), handler_ext; try reflexivity.
      cbn [wfile answered with_headers_buffer with_close_connection
             with_wfile].
      rewrite W. unfold render. rewrite !append_assoc. reflexivity.
Qed.

End Errors.

Section ErrorsPlain.

Import Response.
Variable host : Host.

(** [send_error] under the default request version: no status line, no
    header, the page alone. *)
Lemma send_error_dead code message explain h :
  (request_version h =? "HTTP/0.9") = true ->
  has_body code = true ->
  MyHTTPRequestHandler.send_error host code message explain h =
  Ok tt
    (answered_plain
       (if is_HEAD h then ""
        else error_body code (default_message code message)
               (default_explain code explain))
       true h).
Proof.
  intros L C.
  unfold MyHTTPRequestHandler.send_error, BaseHTTPRequestHandler.send_error.
  fold (has_body code). rewrite C.
  fold (default_message code message) (default_explain code explain).
  fold (error_body code (default_message code message)
          (default_explain code explain)).
  set (body := error_body _ _ _).
  rewrite run_bind.
  change (BaseHTTPRequestHandler.send_response host
            MyHTTPRequestHandler.server_version)
    with (BaseHTTPRequestHandler.send_response host
            SimpleHTTPRequestHandler.server_version).
  rewrite send_response_dead by assumption.
  rewrite run_bind, send_header_close_dead by assumption.
  rewrite bind_assoc, run_bind, send_header_dead by side.
  rewrite bind_assoc, run_bind, send_header_dead by side.
  rewrite bind_ret, run_bind, my_end_headers_dead by side.
  rewrite bind_get.
  fold (is_HEAD (with_close_connection true h)).
  change (is_HEAD (with_close_connection true h)) with (is_HEAD h).
  destruct (is_HEAD h); cbn [negb andb when ret].
  - apply (f_equal (Ok tt)), handler_ext; try reflexivity.
    unfold answered_plain.
    cbn [wfile with_wfile with_close_connection].
    now rewrite append_nil_r.
  - destruct (String.eqb_spec body "") as [E|E]; cbn [negb when ret].
    + apply (f_equal (Ok tt)), handler_ext; try reflexivity.
      unfold answered_plain.
      cbn [wfile with_wfile with_close_connection].
      now rewrite E, append_nil_r.
    + unfold wfile_write, get, bind, set_wfile.
      apply (f_equal (Ok tt)), handler_ext; reflexivity.
Qed.

End ErrorsPlain.

(* ================================================================== *)
(** * Lines without line breaks, and what a client reads *)

Lemma contains_app c a b :
  Py.contains c (a ++ b) = Py.contains c a || Py.contains c b.
Proof.
  induction a as [|d a IH]; [reflexivity|].
  cbn [String.append Py.contains]. rewrite IH. apply orb_assoc.
Qed.

Lemma no_eol_app a b : no_eol (a ++ b) = no_eol a && no_eol b.
Proof.
  unfold no_eol. rewrite !contains_app.
  repeat match goal with
         | |- context [Py.contains ?c ?s] => destruct (Py.contains c s)
         end; reflexivity.
Qed.

Lemma no_eol_cons c s :
  no_eol (String c s)
  = negb (Ascii.eqb (Py.chr 13) c) && negb (Ascii.eqb (Py.chr 10) c)
    && no_eol s.
Proof.
  unfold no_eol. cbn [Py.contains].
  destruct (Ascii.eqb (Py.chr 13) c), (Ascii.eqb (Py.chr 10) c),
    (Py.contains (Py.chr 13) s), (Py.contains (Py.chr 10) s); reflexivity.
Qed.

Lemma no_eol_uint u : no_eol (NilEmpty.string_of_uint u) = true.
Proof.
  induction u; cbn [NilEmpty.string_of_uint]; [reflexivity | ..];
    rewrite no_eol_cons, IHu; reflexivity.
Qed.

Lemma no_eol_str z : no_eol (Py.str z) = true.
Proof.
  unfold Py.str, NilZero.string_of_int.
  assert (U : forall u, no_eol (NilZero.string_of_uint u) = true).
  { intros u. unfold NilZero.string_of_uint.
    destruct u; try reflexivity; apply no_eol_uint. }
  destruct (Z.to_int z) as [u|u]; [apply U|].
  rewrite no_eol_cons, U. reflexivity.
Qed.

Lemma no_eol_repr_char q c :
  q = "'"%char \/ q = Py.chr 34 -> no_eol (Py.repr_char q c) = true.
Proof.
  intros [-> | ->]; destruct c as [[] [] [] [] [] [] [] []];
    vm_compute; reflexivity.
Qed.

Lemma no_eol_repr_body q s :
  q = "'"%char \/ q = Py.chr 34 -> no_eol (Py.repr_body q s) = true.
Proof.
  intros Q. induction s as [|c s IH]; [reflexivity|].
  cbn [Py.repr_body]. now rewrite no_eol_app, no_eol_repr_char, IH.
Qed.

Lemma no_eol_repr s : no_eol (Py.repr s) = true.
Proof.
  unfold Py.repr.
  destruct (Py.contains "'" s && negb (Py.contains (Py.chr 34) s)).
  - rewrite no_eol_cons, no_eol_app, no_eol_repr_body by now right.
    reflexivity.
  - rewrite no_eol_cons, no_eol_app, no_eol_repr_body by now left.
    reflexivity.
Qed.

Lemma no_eol_phrase code : no_eol (HTTPStatus.phrase code) = true.
Proof. destruct code; reflexivity. Qed.

(** The messages of the error responses that can go out with a status
    line. *)
Lemma no_eol_quoted a s : no_eol a = true -> no_eol (a ++ Py.repr s ++ ")") = true.
Proof. intros A. now rewrite !no_eol_app, A, no_eol_repr. Qed.

Lemma rev_string_acc s acc : Py.rev_string s acc = Py.rev_string s "" ++ acc.
Proof.
  revert acc. induction s as [|c s IH]; intros acc; [reflexivity|].
  cbn [Py.rev_string].
  rewrite (IH (String c acc)), (IH (String c "")), append_assoc.
  reflexivity.
Qed.

Lemma rev_string_append a b :
  Py.rev_string (a ++ b) "" = Py.rev_string b "" ++ Py.rev_string a "".
Proof.
  induction a as [|c a IH]; [now rewrite append_nil_r|].
  cbn [String.append Py.rev_string].
  rewrite (rev_string_acc (a ++ b) (String c "")), IH.
  rewrite (rev_string_acc a (String c "")), append_assoc.
  reflexivity.
Qed.

Lemma rev_string_involutive s : Py.rev_string (Py.rev_string s "") "" = s.
Proof.
  induction s as [|c s IH]; [reflexivity|].
  cbn [Py.rev_string]. rewrite (rev_string_acc s (String c "")).
  rewrite rev_string_append, IH. reflexivity.
Qed.

Section Reading.

Import Response.

Lemma read_head_chars l rest acc lines :
  Py.contains (Py.chr 10) l = false ->
  read_head (l ++ rest) acc lines = read_head rest (Py.rev_string l acc) lines.
Proof.
  revert acc. induction l as [|c l IH]; intros acc N; [reflexivity|].
  cbn [Py.contains] in N. apply orb_false_iff in N as [N1 N2].
  cbn [String.append read_head Py.rev_string].
  rewrite Ascii.eqb_sym, N1. now apply IH.
Qed.

Lemma read_head_line l rest lines :
  no_eol l = true ->
  read_head (l ++ Py.CRLF ++ rest) "" lines =
  if l =? "" then Some (rev lines, rest)
  else read_head rest "" (l :: lines).
Proof.
  intros N. unfold no_eol in N. apply andb_true_iff in N as [_ N].
  apply negb_true_iff in N.
  rewrite read_head_chars by exact N.
  change (Py.CRLF ++ rest)
    with (String (Py.chr 13) (String (Py.chr 10) rest)).
  cbn [read_head].
  change (Ascii.eqb (Py.chr 13) (Py.chr 10)) with false.
  change (Ascii.eqb (Py.chr 10) (Py.chr 10)) with true.
  cbv beta iota.
  assert (E : line_of (String (Py.chr 13) (Py.rev_string l "")) = l).
  { unfold line_of.
    change (Ascii.eqb (Py.chr 13) (Py.chr 13)) with true.
    cbv beta iota. apply rev_string_involutive. }
  rewrite E. reflexivity.
Qed.

Lemma header_text_nonempty kv : (header_text kv =? "") = false.
Proof.
  unfold header_text. destruct (fst kv); reflexivity.
Qed.

Lemma no_eol_header_text kv :
  tidy_header kv = true -> no_eol (header_text kv) = true.
Proof.
  unfold tidy_header, header_text. intros T.
  apply andb_true_iff in T as [K V].
  now rewrite !no_eol_app, K, V.
Qed.

Lemma read_head_headers hdrs body lines :
  forallb tidy_header hdrs = true ->
  read_head
    (Py.join ""
       (map (fun kv => BaseHTTPRequestHandler.header_line (fst kv) (snd kv))
          hdrs ++ [Py.CRLF])%list ++ body) "" lines
  = Some ((rev lines ++ map header_text hdrs)%list, body).
Proof.
  revert lines. induction hdrs as [|kv hdrs IH]; intros lines T.
  - cbn [map app]. rewrite join_cons.
    change (Py.join "" []) with "". rewrite append_nil_r.
    change (read_head (Py.CRLF ++ body) "" lines)
      with (read_head ("" ++ Py.CRLF ++ body) "" lines).
    rewrite (read_head_line "" body lines eq_refl).
    cbn [String.eqb map]. now rewrite app_nil_r.
  - cbn [forallb] in T. apply andb_true_iff in T as [T1 T2].
    cbn [map app]. rewrite join_cons.
    unfold BaseHTTPRequestHandler.header_line at 1.
    replace ((fst kv ++ ": " ++ snd kv ++ Py.CRLF) ++
             Py.join ""
               (map (fun kv0 =>
                       BaseHTTPRequestHandler.header_line (fst kv0) (snd kv0))
                  hdrs ++ [Py.CRLF])%list)
      with (header_text kv ++ Py.CRLF ++
            Py.join ""
              (map (fun kv0 =>
                      BaseHTTPRequestHandler.header_line (fst kv0) (snd kv0))
                 hdrs ++ [Py.CRLF])%list)
      by (unfold header_text; now rewrite !append_assoc).
    rewrite !append_assoc.
    rewrite read_head_line by now apply no_eol_header_text.
    rewrite header_text_nonempty, IH by exact T2.
    cbn [rev map]. now rewrite <- app_assoc.
Qed.

Lemma status_text_nonempty code message :
  (status_text code message =? "") = false.
Proof. reflexivity. Qed.

Lemma no_eol_status_text code message :
  no_eol message = true -> no_eol (status_text code message) = true.
Proof.
  intros M. unfold status_text.
  now rewrite !no_eol_app, no_eol_str, M.
Qed.

(** What a client reads of a response whose message and headers have no
    line break: its status line, a line for each header, and the body. *)
Lemma head_of_render code message hdrs body :
  no_eol message = true ->
  forallb tidy_header hdrs = true ->
  head_of (render code message hdrs body)
  = Some ((status_text code message :: map header_text hdrs)%list, body).
Proof.
  intros M T. unfold head_of, render.
  rewrite join_cons.
  unfold BaseHTTPRequestHandler.status_line.
  replace ((BaseHTTPRequestHandler.protocol_version ++ " " ++
            Py.str (HTTPStatus.value code) ++ " " ++ message ++ Py.CRLF) ++
           Py.join ""
             (map (fun kv =>
                     BaseHTTPRequestHandler.header_line (fst kv) (snd kv))
                hdrs ++ [Py.CRLF])%list)
    with (status_text code message ++ Py.CRLF ++
          Py.join ""
            (map (fun kv =>
                    BaseHTTPRequestHandler.header_line (fst kv) (snd kv))
               hdrs ++ [Py.CRLF])%list)
    by (unfold status_text; now rewrite !append_assoc).
  rewrite !append_assoc.
  rewrite read_head_line by now apply no_eol_status_text.
  rewrite status_text_nonempty.
  now rewrite read_head_headers.
Qed.

Lemma tidy_cors : forallb tidy_header cors_headers = true.
Proof. reflexivity. Qed.

Lemma cors_lines_eq : map header_text cors_headers = cors_lines.
Proof. reflexivity. Qed.

Lemma tidy_server_date host :
  Host_tidy host -> forallb tidy_header (server_date host) = true.
Proof.
  intros (V & D & _). unfold server_date, tidy_header.
  cbn [forallb fst snd].
  unfold BaseHTTPRequestHandler.version_string,
    BaseHTTPRequestHandler.date_time_string.
  now rewrite !no_eol_app, V, D.
Qed.

Lemma tidy_error_headers body :
  forallb tidy_header
    [ ("Connection", "close");
      ("Content-Type", BaseHTTPRequestHandler.error_content_type);
      ("Content-Length", Py.str (Py.len body)) ] = true.
Proof.
  unfold tidy_header. cbn [forallb fst snd].
  now rewrite no_eol_str.
Qed.

(** The header block of a response with the headers of [send_response],
    then [base], then the three of the override. *)
Lemma head_of_shaped host code message base body :
  Host_tidy host -> tidy message base ->
  head_of
    (render code message (server_date host ++ base ++ cors_headers) body)
  = Some ((status_text code message
           :: map header_text (server_date host ++ base) ++ cors_lines)%list,
          body).
Proof.
  intros H (M & T).
  rewrite head_of_render; trivial.
  - now rewrite app_assoc, map_app, cors_lines_eq.
  - now rewrite !forallb_app, tidy_server_date, T, tidy_cors.
Qed.

End Reading.

(* ================================================================== *)
(** * [send_head], [do_GET] and [do_HEAD] *)

(** The connection after the buffer was written out, when the buffer was
    empty before the response. *)
Ltac close_response B :=
  apply handler_ext; try reflexivity;
  unfold answered;
  cbn [wfile with_wfile with_close_connection with_headers_buffer];
  rewrite wfile_flushed, !buffer_of_push, !wfile_push, B;
  unfold Response.render; rewrite append_nil_r; reflexivity.

Section Files.

Import Response.
Variable host : Host.

Let send_head_file :=
  SimpleHTTPRequestHandler.send_head_file host
    MyHTTPRequestHandler.end_headers.
Let list_directory :=
  SimpleHTTPRequestHandler.list_directory host
    MyHTTPRequestHandler.end_headers.
Let send_head := MyHTTPRequestHandler.send_head host.
Let not_found : HTTPStatus.t := HTTPStatus.NOT_FOUND.

Lemma file_not_found_live message h :
  live h -> buffer_of h = [] ->
  (SimpleHTTPRequestHandler.send_error host
     MyHTTPRequestHandler.end_headers not_found (Some message) None ;;
   ret (@None string)) h =
  Ok None
    (answered
       (let body :=
          error_body not_found message (HTTPStatus.description not_found) in
        render not_found message (error_headers host body ++ cors_headers)
          (if is_HEAD h then "" else body))
       true h).
Proof.
  intros L B. rewrite run_bind.
  change (SimpleHTTPRequestHandler.send_error host
            MyHTTPRequestHandler.end_headers)
    with (MyHTTPRequestHandler.send_error host).
  rewrite send_error_live by side. reflexivity.
Qed.

(** A file that opens and was modified since: status 200 and the
    headers of the file; the file is handed to the caller. *)
Lemma send_head_file_ok path f h :
  live h -> buffer_of h = [] ->
  Py.endswith "/" path = false ->
  open_rb host path = Opened f ->
  SimpleHTTPRequestHandler.not_modified host (headers h) (fstat f) = false ->
  send_head_file path h =
  Ok (Some (read f))
    (answered
       (render HTTPStatus.OK "OK"
          (server_date host ++ file_headers host path f ++ cors_headers) "")
       (close_connection h) h).
Proof.
  intros L B S O N.
  unfold send_head_file, SimpleHTTPRequestHandler.send_head_file.
  rewrite S, O, bind_get, N.
  rewrite run_bind.
  change (SimpleHTTPRequestHandler.send_response host)
    with (BaseHTTPRequestHandler.send_response host
            SimpleHTTPRequestHandler.server_version).
  rewrite send_response_live by side.
  unfold SimpleHTTPRequestHandler.send_header.
  rewrite run_bind, send_header_live by side.
  rewrite run_bind, send_header_live by side.
  rewrite run_bind, send_header_live by side.
  rewrite run_bind, my_end_headers_live by side.
  unfold ret. apply f_equal. close_response B.
Qed.

(** A file that opens and was not modified since the date of the
    request: status 304, no file. *)
Lemma send_head_file_not_modified path f h :
  live h -> buffer_of h = [] ->
  Py.endswith "/" path = false ->
  open_rb host path = Opened f ->
  SimpleHTTPRequestHandler.not_modified host (headers h) (fstat f) = true ->
  send_head_file path h =
  Ok None
    (answered
       (render HTTPStatus.NOT_MODIFIED "Not Modified"
          (server_date host ++ [] ++ cors_headers) "")
       (close_connection h) h).
Proof.
  intros L B S O N.
  unfold send_head_file, SimpleHTTPRequestHandler.send_head_file.
  rewrite S, O, bind_get, N.
  rewrite run_bind.
  change (SimpleHTTPRequestHandler.send_response host)
    with (BaseHTTPRequestHandler.send_response host
            SimpleHTTPRequestHandler.server_version).
  rewrite send_response_live by side.
  rewrite run_bind, my_end_headers_live by side.
  unfold ret. apply f_equal. close_response B.
Qed.

Lemma send_head_file_missing path h :
  live h -> buffer_of h = [] ->
  Py.endswith "/" path = true \/ open_rb host path = Refused ->
  send_head_file path h =
  Ok None
    (answered
       (let body :=
          error_body not_found "File not found"
            (HTTPStatus.description not_found) in
        render not_found "File not found"
          (error_headers host body ++ cors_headers)
          (if is_HEAD h then "" else body))
       true h).
Proof.
  intros L B C.
  unfold send_head_file, SimpleHTTPRequestHandler.send_head_file.
  destruct (Py.endswith "/" path) eqn:S.
  - now apply file_not_found_live.
  - destruct C as [C|C]; [discriminate|]. rewrite C.
    now apply file_not_found_live.
Qed.

(** A path [open] does not take: its exception leaves the method before
    anything is sent. *)
Lemma send_head_file_invalid path unicode h :
  Py.endswith "/" path = false ->
  open_rb host path = Invalid unicode ->
  send_head_file path h =
  Raise (if unicode then UnicodeEncodeError else ValueError) h.
Proof.
  intros S O.
  unfold send_head_file, SimpleHTTPRequestHandler.send_head_file.
  rewrite S, O. reflexivity.
Qed.

End Files.

Lemma answered_plain_id h : h = answered_plain "" (close_connection h) h.
Proof.
  apply handler_ext; try reflexivity.
  unfold answered_plain. cbn [wfile with_wfile with_close_connection].
  now rewrite append_nil_r.
Qed.

Lemma shaped_error host code message body out h :
  no_eol message = true ->
  shaped host h
    (answered
       (Response.render code message
          (Response.error_headers host body ++ Response.cors_headers) out)
       true h).
Proof.
  intros M. unfold shaped, Response.error_headers. rewrite <- app_assoc.
  eexists _, _, _, _, true. split; [reflexivity|].
  intros _. split; [exact M | apply tidy_error_headers].
Qed.

Lemma tidy_file_headers host path f :
  Host_tidy host -> forallb tidy_header (file_headers host path f) = true.
Proof.
  intros (_ & D & G & _). unfold file_headers, tidy_header.
  cbn [forallb fst snd].
  unfold BaseHTTPRequestHandler.date_time_string.
  now rewrite G, D, no_eol_str.
Qed.

Lemma tidy_listing_headers host listing :
  Host_tidy host ->
  forallb tidy_header (listing_headers host listing) = true.
Proof.
  intros (_ & _ & _ & _ & E). unfold listing_headers, tidy_header.
  cbn [forallb fst snd].
  now rewrite no_eol_app, E, no_eol_str.
Qed.

Lemma tidy_location host s parts :
  Host_tidy host -> urlsplit host s = Some parts ->
  forallb tidy_header
    [("Location", redirect_location host parts); ("Content-Length", "0")]
  = true.
Proof.
  intros (_ & _ & _ & U & _) E. unfold tidy_header.
  cbn [forallb fst snd]. now rewrite (U s parts E).
Qed.

Section FilesTotal.

Import Response.
Variable host : Host.

Let send_head_file :=
  SimpleHTTPRequestHandler.send_head_file host
    MyHTTPRequestHandler.end_headers.
Let list_directory :=
  SimpleHTTPRequestHandler.list_directory host
    MyHTTPRequestHandler.end_headers.
Let send_head := MyHTTPRequestHandler.send_head host.
Let do_GET := MyHTTPRequestHandler.do_GET host.
Let do_HEAD := MyHTTPRequestHandler.do_HEAD host.

(** While the status line and headers are sent, [send_head] and its
    parts return after a response with headers, or raise before
    anything is sent. *)
Lemma send_head_file_live path h :
  live h -> buffer_of h = [] ->
  ends_in (fun _ h' => shaped host h h') h (send_head_file path h).
Proof.
  intros L B. unfold send_head_file.
  destruct (Py.endswith "/" path) eqn:S.
  { rewrite send_head_file_missing by auto. now apply shaped_error. }
  destruct (open_rb host path) as [f| |unicode] eqn:O.
  - destruct (SimpleHTTPRequestHandler.not_modified host (headers h)
                (fstat f)) eqn:N.
    + erewrite send_head_file_not_modified by eauto.
      eexists _, _, _, _, false. split; [reflexivity|]. now split.
    + erewrite send_head_file_ok by eauto.
      eexists _, _, _, _, false. split; [reflexivity|].
      intros T. split; [reflexivity | now apply tidy_file_headers].
  - rewrite send_head_file_missing by auto. now apply shaped_error.
  - rewrite (send_head_file_invalid host path unicode h S O).
    split; [now destruct unicode | reflexivity].
Qed.

Lemma file_not_found_dead message h :
  (request_version h =? "HTTP/0.9") = true ->
  exists h',
    (SimpleHTTPRequestHandler.send_error host
       MyHTTPRequestHandler.end_headers HTTPStatus.NOT_FOUND
       (Some message) None ;;
     ret (@None string)) h = Ok None h' /\ plain h h'.
Proof.
  intros L. rewrite run_bind.
  change (SimpleHTTPRequestHandler.send_error host
            MyHTTPRequestHandler.end_headers)
    with (MyHTTPRequestHandler.send_error host).
  rewrite send_error_dead by side.
  eexists. split; [reflexivity|]. now eexists _, true.
Qed.

(** Under the default request version they return after a response
    without status line and headers, or raise before anything is
    sent. *)
Lemma send_head_file_dead path h :
  (request_version h =? "HTTP/0.9") = true ->
  ends_in (fun _ h' => plain h h') h (send_head_file path h).
Proof.
  intros L.
  unfold send_head_file, SimpleHTTPRequestHandler.send_head_file.
  destruct (Py.endswith "/" path).
  { destruct (file_not_found_dead "File not found" h L) as (h' & E & P).
    rewrite E. exact P. }
  destruct (open_rb host path) as [f| |unicode].
  2:{ destruct (file_not_found_dead "File not found" h L) as (h' & E & P).
      rewrite E. exact P. }
  2:{ split; [now destruct unicode | reflexivity]. }
  rewrite bind_get.
  change (SimpleHTTPRequestHandler.send_response host)
    with (BaseHTTPRequestHandler.send_response host
            SimpleHTTPRequestHandler.server_version).
  unfold SimpleHTTPRequestHandler.send_header.
  destruct (SimpleHTTPRequestHandler.not_modified host (headers h) (fstat f)).
  - rewrite run_bind, send_response_dead by assumption.
    rewrite run_bind, my_end_headers_dead by assumption.
    eexists _, false. apply answered_plain_id.
  - rewrite run_bind, send_response_dead by assumption.
    rewrite run_bind, send_header_dead by side.
    rewrite run_bind, send_header_dead by side.
    rewrite run_bind, send_header_dead by side.
    rewrite run_bind, my_end_headers_dead by assumption.
    eexists _, false. apply answered_plain_id.
Qed.

(** A listing that is there and can be encoded: status 200, its two
    headers, and the page is handed to the caller. *)
Lemma list_directory_ok path names listing h :
  live h -> buffer_of h = [] ->
  listdir host path = Some names ->
  directory_listing host path (SimpleHTTPRequestHandler.self_path h) names
  = Some listing ->
  list_directory path h =
  Ok (Some listing)
    (answered
       (render HTTPStatus.OK "OK"
          (server_date host ++ listing_headers host listing ++ cors_headers)
          "")
       (close_connection h) h).
Proof.
  intros L B D E.
  unfold list_directory, SimpleHTTPRequestHandler.list_directory.
  rewrite D, bind_get, E, run_bind.
  change (SimpleHTTPRequestHandler.send_response host)
    with (BaseHTTPRequestHandler.send_response host
            SimpleHTTPRequestHandler.server_version).
  unfold SimpleHTTPRequestHandler.send_header.
  rewrite send_response_live by side.
  rewrite run_bind, send_header_live by side.
  rewrite run_bind, send_header_live by side.
  rewrite run_bind, my_end_headers_live by side.
  unfold ret. apply f_equal. close_response B.
Qed.

Lemma list_directory_live path h :
  live h -> buffer_of h = [] ->
  ends_in (fun _ h' => shaped host h h') h (list_directory path h).
Proof.
  intros L B.
  destruct (listdir host path) as [names|] eqn:D.
  - destruct (directory_listing host path
                (SimpleHTTPRequestHandler.self_path h) names)
      as [listing|] eqn:E.
    + rewrite (list_directory_ok path names listing h L B D E).
      eexists _, _, _, _, false. split; [reflexivity|].
      intros T. split; [reflexivity | now apply tidy_listing_headers].
    + unfold list_directory, SimpleHTTPRequestHandler.list_directory.
      rewrite D, bind_get, E. split; reflexivity.
  - unfold list_directory, SimpleHTTPRequestHandler.list_directory.
    rewrite D, file_not_found_live by assumption.
    now apply shaped_error.
Qed.

Lemma list_directory_dead path h :
  (request_version h =? "HTTP/0.9") = true ->
  ends_in (fun _ h' => plain h h') h (list_directory path h).
Proof.
  intros L.
  unfold list_directory, SimpleHTTPRequestHandler.list_directory.
  destruct (listdir host path) as [names|].
  - rewrite bind_get.
    destruct (directory_listing host path _ names) as [listing|].
    2:{ split; reflexivity. }
    rewrite run_bind.
    change (SimpleHTTPRequestHandler.send_response host)
      with (BaseHTTPRequestHandler.send_response host
              SimpleHTTPRequestHandler.server_version).
    unfold SimpleHTTPRequestHandler.send_header.
    rewrite send_response_dead by assumption.
    rewrite run_bind, send_header_dead by side.
    rewrite run_bind, send_header_dead by side.
    rewrite run_bind, my_end_headers_dead by assumption.
    eexists _, false. apply answered_plain_id.
  - destruct (file_not_found_dead "No permission to list directory" h L)
      as (h' & E & P).
    rewrite E. exact P.
Qed.

(** The redirection of a directory named without a slash at its end. *)
Lemma send_head_redirect parts h :
  live h -> buffer_of h = [] ->
  path_isdir host
    (MyHTTPRequestHandler.translate_path host
       (SimpleHTTPRequestHandler.self_path h)) = true ->
  urlsplit host (SimpleHTTPRequestHandler.self_path h) = Some parts ->
  Py.endswith "/" (sr_path parts) = false ->
  send_head h =
  Ok None
    (answered
       (render HTTPStatus.MOVED_PERMANENTLY "Moved Permanently"
          (server_date host ++
           [("Location", redirect_location host parts);
            ("Content-Length", "0")] ++ cors_headers) "")
       (close_connection h) h).
Proof.
  intros L B D U S.
  unfold send_head, MyHTTPRequestHandler.send_head,
    SimpleHTTPRequestHandler.send_head.
  rewrite bind_get.
  unfold MyHTTPRequestHandler.translate_path in D. rewrite D, U, S.
  cbn [negb]. rewrite run_bind.
  change (SimpleHTTPRequestHandler.send_response host)
    with (BaseHTTPRequestHandler.send_response host
            SimpleHTTPRequestHandler.server_version).
  unfold SimpleHTTPRequestHandler.send_header.
  rewrite send_response_live by side.
  rewrite run_bind, send_header_live by side.
  rewrite run_bind, send_header_live by side.
  rewrite run_bind, my_end_headers_live by side.
  unfold ret. apply f_equal. close_response B.
Qed.

Lemma send_head_live h :
  live h -> buffer_of h = [] ->
  ends_in (fun _ h' => shaped host h h') h (send_head h).
Proof.
  intros L B.
  destruct (path_isdir host
              (MyHTTPRequestHandler.translate_path host
                 (SimpleHTTPRequestHandler.self_path h))) eqn:D.
  2:{ unfold send_head, MyHTTPRequestHandler.send_head,
        SimpleHTTPRequestHandler.send_head.
      rewrite bind_get.
      unfold MyHTTPRequestHandler.translate_path in D. rewrite D.
      now apply send_head_file_live. }
  destruct (urlsplit host (SimpleHTTPRequestHandler.self_path h))
    as [parts|] eqn:U.
  2:{ unfold send_head, MyHTTPRequestHandler.send_head,
        SimpleHTTPRequestHandler.send_head.
      rewrite bind_get.
      unfold MyHTTPRequestHandler.translate_path in D. rewrite D, U.
      split; reflexivity. }
  destruct (Py.endswith "/" (sr_path parts)) eqn:S.
  2:{ rewrite (send_head_redirect parts h L B D U S).
      eexists _, _, _, _, false. split; [reflexivity|].
      intros T.
      split; [reflexivity | now apply (tidy_location host _ parts T U)]. }
  unfold send_head, MyHTTPRequestHandler.send_head,
    SimpleHTTPRequestHandler.send_head.
  rewrite bind_get.
  unfold MyHTTPRequestHandler.translate_path in D. rewrite D, U, S.
  cbn [negb].
  destruct (path_isfile host _); [now apply send_head_file_live|].
  destruct (path_isfile host _); [now apply send_head_file_live|].
  now apply list_directory_live.
Qed.

Lemma send_head_dead h :
  (request_version h =? "HTTP/0.9") = true ->
  ends_in (fun _ h' => plain h h') h (send_head h).
Proof.
  intros L.
  unfold send_head, MyHTTPRequestHandler.send_head,
    SimpleHTTPRequestHandler.send_head.
  rewrite bind_get.
  destruct (path_isdir host _); [|now apply send_head_file_dead].
  destruct (urlsplit host _) as [parts|]; [|split; reflexivity].
  destruct (negb _).
  - rewrite run_bind.
    change (SimpleHTTPRequestHandler.send_response host)
      with (BaseHTTPRequestHandler.send_response host
              SimpleHTTPRequestHandler.server_version).
    unfold SimpleHTTPRequestHandler.send_header.
    rewrite send_response_dead by assumption.
    rewrite run_bind, send_header_dead by side.
    rewrite run_bind, send_header_dead by side.
    rewrite run_bind, my_end_headers_dead by assumption.
    eexists _, false. apply answered_plain_id.
  - destruct (path_isfile host _); [now apply send_head_file_dead|].
    destruct (path_isfile host _); [now apply send_head_file_dead|].
    now apply list_directory_dead.
Qed.

End FilesTotal.

Lemma answered_write out close data h :
  with_wfile (wfile (answered out close h) ++ data) (answered out close h)
  = answered (out ++ data) close h.
Proof.
  apply handler_ext; try reflexivity.
  unfold answered.
  cbn [wfile with_wfile with_close_connection with_headers_buffer].
  apply append_assoc.
Qed.

Lemma answered_plain_write out close data h :
  with_wfile (wfile (answered_plain out close h) ++ data)
    (answered_plain out close h)
  = answered_plain (out ++ data) close h.
Proof.
  apply handler_ext; try reflexivity.
  unfold answered_plain.
  cbn [wfile with_wfile with_close_connection].
  apply append_assoc.
Qed.

Lemma render_app code message hdrs body data :
  Response.render code message hdrs body ++ data
  = Response.render code message hdrs (body ++ data).
Proof. unfold Response.render. apply append_assoc. Qed.

Section Methods.

Variable host : Host.

Let do_GET := MyHTTPRequestHandler.do_GET host.
Let do_HEAD := MyHTTPRequestHandler.do_HEAD host.

Lemma do_GET_live h :
  live h -> buffer_of h = [] ->
  ends_in (fun _ h' => shaped host h h') h (do_GET h).
Proof.
  intros L B.
  pose proof (send_head_live host h L B) as S.
  unfold do_GET, MyHTTPRequestHandler.do_GET,
    SimpleHTTPRequestHandler.do_GET.
  rewrite run_bind.
  change (SimpleHTTPRequestHandler.send_head host
            MyHTTPRequestHandler.end_headers h)
    with (MyHTTPRequestHandler.send_head host h).
  destruct (MyHTTPRequestHandler.send_head host h) as [f h1|e h1];
    [|exact S].
  cbn [ends_in] in S. destruct f as [data|]; [|exact S].
  unfold SimpleHTTPRequestHandler.copyfile, wfile_write.
  rewrite bind_get. unfold set_wfile. cbn [ends_in].
  destruct S as (code & message & base & body & close & -> & T').
  rewrite answered_write, render_app.
  now eexists _, _, _, _, close.
Qed.

Lemma do_GET_dead h :
  (request_version h =? "HTTP/0.9") = true ->
  ends_in (fun _ h' => plain h h') h (do_GET h).
Proof.
  intros L.
  pose proof (send_head_dead host h L) as S.
  unfold do_GET, MyHTTPRequestHandler.do_GET,
    SimpleHTTPRequestHandler.do_GET.
  rewrite run_bind.
  change (SimpleHTTPRequestHandler.send_head host
            MyHTTPRequestHandler.end_headers h)
    with (MyHTTPRequestHandler.send_head host h).
  destruct (MyHTTPRequestHandler.send_head host h) as [f h1|e h1];
    [|exact S].
  cbn [ends_in] in S. destruct f as [data|]; [|exact S].
  unfold SimpleHTTPRequestHandler.copyfile, wfile_write.
  rewrite bind_get. unfold set_wfile. cbn [ends_in].
  destruct S as (body & close & ->).
  rewrite answered_plain_write.
  now eexists _, close.
Qed.

Lemma do_HEAD_live h :
  live h -> buffer_of h = [] ->
  ends_in (fun _ h' => shaped host h h') h (do_HEAD h).
Proof.
  intros L B.
  pose proof (send_head_live host h L B) as S.
  unfold do_HEAD, MyHTTPRequestHandler.do_HEAD,
    SimpleHTTPRequestHandler.do_HEAD.
  rewrite run_bind.
  change (SimpleHTTPRequestHandler.send_head host
            MyHTTPRequestHandler.end_headers h)
    with (MyHTTPRequestHandler.send_head host h).
  destruct (MyHTTPRequestHandler.send_head host h) as [f h1|e h1];
    exact S.
Qed.

Lemma do_HEAD_dead h :
  (request_version h =? "HTTP/0.9") = true ->
  ends_in (fun _ h' => plain h h') h (do_HEAD h).
Proof.
  intros L.
  pose proof (send_head_dead host h L) as S.
  unfold do_HEAD, MyHTTPRequestHandler.do_HEAD,
    SimpleHTTPRequestHandler.do_HEAD.
  rewrite run_bind.
  change (SimpleHTTPRequestHandler.send_head host
            MyHTTPRequestHandler.end_headers h)
    with (MyHTTPRequestHandler.send_head host h).
  destruct (MyHTTPRequestHandler.send_head host h) as [f h1|e h1];
    exact S.
Qed.

End Methods.

(* ================================================================== *)
(** * [parse_request] and [handle_one_request] *)

Lemma protocol_below_1_1 :
  Py.str_ge BaseHTTPRequestHandler.protocol_version "HTTP/1.1" = false.
Proof. reflexivity. Qed.

Lemma wfile_answered out close h :
  wfile (answered out close h) = wfile h ++ out.
Proof. reflexivity. Qed.

Lemma wfile_answered_plain out close h :
  wfile (answered_plain out close h) = wfile h ++ out.
Proof. reflexivity. Qed.

Lemma well_answered_shaped host h0 h h' :
  wfile h = wfile h0 -> shaped host h h' -> well_answered host h0 h'.
Proof.
  intros W (code & message & base & body & close & -> & T).
  right. right. rewrite wfile_answered, W. now eexists _, _, _, _.
Qed.

Lemma well_answered_plain host h0 h h' :
  (request_version h =? "HTTP/0.9") = true ->
  plain h h' -> well_answered host h0 h'.
Proof. intros D (body & close & ->). right. now left. Qed.

Lemma close_shaped host h h' :
  shaped host h h' -> close_connection h = true -> close_connection h' = true.
Proof.
  intros (code & message & base & body & close & -> & _) C.
  cbn. rewrite C. apply orb_true_r.
Qed.

Lemma close_plain h h' :
  plain h h' -> close_connection h = true -> close_connection h' = true.
Proof.
  intros (body & close & ->) C. cbn. rewrite C. apply orb_true_r.
Qed.

Ltac setters :=
  cbn [bind ret when negb andb set_rfile set_wfile set_raw_requestline
         set_requestline set_request_version set_command set_path
         set_headers set_close_connection set_headers_buffer].

Section Parse.

Import Response.
Variable host : Host.

Let send_error := MyHTTPRequestHandler.send_error host.

(** [send_error], whatever the request version: the response is well
    formed, and nothing but the connection and [close_connection]
    changes. *)
Lemma send_error_answered code message explain h0 h :
  has_body code = true ->
  no_eol (default_message code message) = true ->
  buffer_of h = [] ->
  wfile h = wfile h0 ->
  exists h',
    send_error code message explain h = Ok tt h'
    /\ well_answered host h0 h'
    /\ request_version h' = request_version h
    /\ close_connection h' = true.
Proof.
  intros C M B W. unfold send_error.
  destruct (request_version h =? "HTTP/0.9") eqn:V.
  - rewrite send_error_dead by assumption.
    eexists. split; [reflexivity|]. split; [|split; reflexivity].
    right. left. exact V.
  - rewrite send_error_live by assumption.
    eexists. split; [reflexivity|]. split; [|split; reflexivity].
    eapply well_answered_shaped; [exact W|]. now apply shaped_error.
Qed.

End Parse.

Section ParseRequest.

Import Response.
Variable host : Host.

Let send_error := MyHTTPRequestHandler.send_error host.
Let parse_request := MyHTTPRequestHandler.parse_request host.

Lemma error_return code message explain h0 h :
  has_body code = true ->
  no_eol (default_message code message) = true ->
  quiet h0 h ->
  exists h',
    (BaseHTTPRequestHandler.send_error host
       MyHTTPRequestHandler.server_version MyHTTPRequestHandler.end_headers
       code message explain ;; ret false) h = Ok false h'
    /\ well_answered host h0 h'
    /\ request_version h' = request_version h
    /\ close_connection h' = true.
Proof.
  intros C M (W & B & _).
  destruct (send_error_answered host code message explain h0 h C M B W)
    as (h' & E & A & V & Cl).
  exists h'. rewrite run_bind.
  change (BaseHTTPRequestHandler.send_error host
            MyHTTPRequestHandler.server_version
            MyHTTPRequestHandler.end_headers)
    with (MyHTTPRequestHandler.send_error host).
  rewrite E. split; [reflexivity|]. split; [exact A|]. split; [exact V | exact Cl].
Qed.

(** An error response under the default request version. *)
Lemma error_return_dead code message explain h0 h :
  has_body code = true ->
  (request_version h =? "HTTP/0.9") = true ->
  exists h',
    (BaseHTTPRequestHandler.send_error host
       MyHTTPRequestHandler.server_version MyHTTPRequestHandler.end_headers
       code message explain ;; ret false) h = Ok false h'
    /\ well_answered host h0 h'
    /\ request_version h' = request_version h
    /\ close_connection h' = true.
Proof.
  intros C D. rewrite run_bind.
  change (BaseHTTPRequestHandler.send_error host
            MyHTTPRequestHandler.server_version
            MyHTTPRequestHandler.end_headers)
    with (MyHTTPRequestHandler.send_error host).
  rewrite send_error_dead by assumption.
  eexists. split; [reflexivity|]. split; [|split; reflexivity].
  right. left. exact D.
Qed.

Lemma parse_request_version_spec words h0 h :
  (request_version h =? "HTTP/0.9") = true ->
  quiet h0 h ->
  exists ok h',
    BaseHTTPRequestHandler.parse_request_version host
      MyHTTPRequestHandler.server_version MyHTTPRequestHandler.end_headers
      words h = Ok ok h'
    /\ close_connection h' = true
    /\ if ok then quiet h0 h' else
         well_answered host h0 h' /\ request_version h' = request_version h.
Proof.
  intros D Q. unfold BaseHTTPRequestHandler.parse_request_version.
  destruct (BaseHTTPRequestHandler.parse_version_number _ _) as [vn|].
  2:{ destruct (error_return_dead HTTPStatus.BAD_REQUEST
                  (Some ("Bad request version ("
                         ++ Py.repr (last words "") ++ ")")) None h0 h
                  eq_refl D) as (h' & E & A & V & C).
      exists false, h'. repeat split; assumption. }
  rewrite protocol_below_1_1, andb_false_r. setters.
  destruct (Py.tuple_ge vn (2, 0)%Z).
  - destruct (error_return_dead HTTPStatus.HTTP_VERSION_NOT_SUPPORTED
                (Some ("Invalid HTTP version ("
                       ++ nth 1 (Py.split1 "/" (last words "")) "" ++ ")"))
                None h0 h eq_refl D) as (h' & E & A & V & C).
    exists false, h'. repeat split; assumption.
  - eexists true, _. split; [reflexivity|].
    destruct Q as (W & B & C). repeat split; assumption.
Qed.

Lemma parse_request_headers_spec block h0 h :
  quiet h0 h ->
  exists ok h',
    BaseHTTPRequestHandler.parse_request_headers host
      MyHTTPRequestHandler.server_version MyHTTPRequestHandler.end_headers
      block h = Ok ok h'
    /\ close_connection h' = true
    /\ if ok then quiet h0 h' /\ command h' = command h
       else well_answered host h0 h'.
Proof.
  intros Q. unfold BaseHTTPRequestHandler.parse_request_headers.
  destruct block as [hs|err|err].
  - setters. rewrite protocol_below_1_1.
    destruct Q as (W & B & C).
    destruct (Py.lower (headers_get hs "Connection" "") =? "close").
    + setters. rewrite bind_get.
      rewrite (andb_false_r (_ =? "100-continue")). setters.
      eexists true, _. split; [reflexivity|]. split; [reflexivity|].
      repeat split; assumption.
    + rewrite (andb_false_r (_ =? "keep-alive")). setters.
      rewrite bind_get.
      rewrite (andb_false_r (_ =? "100-continue")). setters.
      eexists true, _. split; [reflexivity|]. split; [assumption|].
      repeat split; assumption.
  - destruct (error_return HTTPStatus.REQUEST_HEADER_FIELDS_TOO_LARGE
                (Some "Line too long") (Some err) h0 h eq_refl eq_refl Q)
      as (h' & E & A & V & C).
    exists false, h'. repeat split; assumption.
  - destruct (error_return HTTPStatus.REQUEST_HEADER_FIELDS_TOO_LARGE
                (Some "Too many headers") (Some err) h0 h eq_refl eq_refl Q)
      as (h' & E & A & V & C).
    exists false, h'. repeat split; assumption.
Qed.

(** [parse_request] returns: with [False] after an error response or
    nothing at all, with [True] with nothing written and the command
    set. *)
Lemma parse_request_spec block h :
  buffer_of h = [] ->
  exists ok h',
    parse_request block h = Ok ok h'
    /\ close_connection h' = true
    /\ if ok then quiet h h' /\ command h' <> None
       else well_answered host h h'.
Proof.
  intros B.
  unfold parse_request, MyHTTPRequestHandler.parse_request,
    BaseHTTPRequestHandler.parse_request.
  setters. rewrite bind_get. setters.
  set (requestline := Py.rstrip _ _).
  set (words := Py.split_ws requestline).
  match goal with |- context [_ ?x = Ok _ _] => set (h1 := x) end.
  assert (Q1 : quiet h h1) by (repeat split; assumption).
  destruct (length words =? 0)%nat.
  { exists false, h1. split; [reflexivity|]. split; [reflexivity|].
    now left. }
  assert (V : exists ok h2,
             (if (3 <=? length words)%nat
              then BaseHTTPRequestHandler.parse_request_version host
                     MyHTTPRequestHandler.server_version
                     MyHTTPRequestHandler.end_headers words
              else ret true) h1 = Ok ok h2
             /\ close_connection h2 = true
             /\ if ok then quiet h h2 else well_answered host h h2).
  { destruct (3 <=? length words)%nat.
    - destruct (parse_request_version_spec words h h1 eq_refl Q1)
        as (ok & h2 & E & C & P).
      exists ok, h2. destruct ok; intuition.
    - now exists true, h1. }
  destruct V as (ok & h2 & E & C2 & P2).
  rewrite run_bind, E. destruct ok; cbn [negb].
  2:{ now exists false, h2. }
  destruct (negb _).
  { destruct (error_return HTTPStatus.BAD_REQUEST
                (Some ("Bad request syntax (" ++ Py.repr requestline ++ ")"))
                None h h2 eq_refl (no_eol_quoted "Bad request syntax (" requestline eq_refl) P2)
      as (h' & E' & A & _ & C).
    exists false, h'. repeat split; assumption. }
  assert (G : exists ok h3,
             (if (length words =? 2)%nat
              then
                set_close_connection true ;;
                (if negb (nth 0 words "" =? "GET")
                 then
                   BaseHTTPRequestHandler.send_error host
                     MyHTTPRequestHandler.server_version
                     MyHTTPRequestHandler.end_headers
                     HTTPStatus.BAD_REQUEST
                     (Some ("Bad HTTP/0.9 request type ("
                            ++ Py.repr (nth 0 words "") ++ ")")) None ;;
                   ret false
                 else ret true)
              else ret true) h2 = Ok ok h3
             /\ close_connection h3 = true
             /\ if ok then quiet h h3 else well_answered host h h3).
  { destruct (length words =? 2)%nat; [|now exists true, h2].
    setters.
    assert (Q : quiet h (with_close_connection true h2)).
    { destruct P2 as (? & ? & ?). repeat split; assumption. }
    destruct (negb _).
    - destruct (error_return HTTPStatus.BAD_REQUEST
                  (Some ("Bad HTTP/0.9 request type ("
                         ++ Py.repr (nth 0 words "") ++ ")"))
                  None h _ eq_refl (no_eol_quoted "Bad HTTP/0.9 request type (" (nth 0 words "") eq_refl) Q)
        as (h' & E' & A & _ & C).
      exists false, h'. repeat split; assumption.
    - now eexists true, _. }
  destruct G as (ok & h3 & E3 & C3 & P3).
  rewrite run_bind, E3. destruct ok; cbn [negb].
  2:{ now exists false, h3. }
  setters.
  destruct P3 as (W3 & B3 & _).
  destruct (Py.startswith "//" _); setters;
    match goal with |- context [_ ?x = Ok _ _] => set (h4 := x) end;
    (assert (Q4 : quiet h h4) by (repeat split; assumption));
    destruct (parse_request_headers_spec block h h4 Q4)
      as (ok & h5 & E5 & C5 & P5);
    exists ok, h5; (split; [exact E5|]); (split; [exact C5|]);
    (destruct ok; [|exact P5]);
    destruct P5 as (Q5 & Cmd); (split; [exact Q5|]);
    rewrite Cmd; discriminate.
Qed.

End ParseRequest.
Section Handle.

Import Response.
Variable host : Host.

Let handle_one_request := MyHTTPRequestHandler.handle_one_request host.
Let handle := MyHTTPRequestHandler.handle host.

Lemma ends_in_answered {A} h0 h (x : result A) :
  wfile h = wfile h0 -> close_connection h = true ->
  ((request_version h =? "HTTP/0.9") = true ->
   ends_in (fun _ h' => plain h h') h x) ->
  (live h -> ends_in (fun _ h' => shaped host h h') h x) ->
  ends_in
    (fun _ h' => close_connection h' = true /\ well_answered host h0 h')
    h x.
Proof.
  intros W C D L.
  destruct (request_version h =? "HTTP/0.9") eqn:V.
  - specialize (D eq_refl). destruct x as [a h'|e h']; [|exact D].
    split; [now apply (close_plain h) |
            now apply (well_answered_plain host h0 h)].
  - specialize (L V). destruct x as [a h'|e h']; [|exact L].
    split; [now apply (close_shaped host h) |
            now apply (well_answered_shaped host h0 h)].
Qed.

(** The method a parsed request is dispatched to, whatever it is,
    answers, or raises before anything is sent. *)
Lemma dispatch_spec (c : string) h0 h :
  quiet h0 h ->
  ends_in
    (fun _ h' => close_connection h' = true /\ well_answered host h0 h')
    h
    (match MyHTTPRequestHandler.getattr host ("do_" ++ c) with
     | Some method => method
     | None =>
         BaseHTTPRequestHandler.send_error host
           MyHTTPRequestHandler.server_version
           MyHTTPRequestHandler.end_headers HTTPStatus.NOT_IMPLEMENTED
           (Some ("Unsupported method (" ++ Py.repr c ++ ")")) None
     end h).
Proof.
  intros (W & B & C).
  unfold MyHTTPRequestHandler.getattr, SimpleHTTPRequestHandler.getattr.
  destruct (_ =? "do_GET"); [|destruct (_ =? "do_HEAD")].
  - rewrite my_do_GET_eq. apply ends_in_answered; trivial.
    + apply do_GET_dead.
    + intros L. now apply do_GET_live.
  - rewrite my_do_HEAD_eq. apply ends_in_answered; trivial.
    + apply do_HEAD_dead.
    + intros L. now apply do_HEAD_live.
  - destruct (send_error_answered host HTTPStatus.NOT_IMPLEMENTED
                (Some ("Unsupported method (" ++ Py.repr c ++ ")")) None
                h0 h eq_refl (no_eol_quoted "Unsupported method (" c eq_refl)
                B W) as (h' & E & A & _ & Cl).
    rewrite my_send_error_eq, E. split; [exact Cl | exact A].
Qed.

(** [handle_one_request], whatever arrives: it returns, the connection
    is then marked for closing, and what was written is a well-formed
    response or nothing; or an exception of the class [Exception]
    leaves it, and nothing was written. *)
Lemma handle_one_request_spec h :
  buffer_of h = [] ->
  match handle_one_request h with
  | Ok _ h' => close_connection h' = true /\ well_answered host h h'
  | Raise e h' => is_Exception e = true /\ quiet h h'
  end.
Proof.
  intros B.
  unfold handle_one_request, MyHTTPRequestHandler.handle_one_request,
    BaseHTTPRequestHandler.handle_one_request.
  rewrite bind_get. destruct (rfile h) as [|r rest].
  { setters. split; [reflexivity|]. now left. }
  assign. destruct (65536 <? Py.len (line r))%Z.
  { assign.
    match goal with |- context [BaseHTTPRequestHandler.send_error _ _ _ _ _ _ ?x] => set (h1 := x) end.
    destruct (send_error_answered host HTTPStatus.REQUEST_URI_TOO_LONG
                None None h h1 eq_refl eq_refl B eq_refl)
      as (h' & E & A & _ & Cl).
    rewrite my_send_error_eq, E. split; [exact Cl | exact A]. }
  destruct (line r =? "").
  { setters. split; [reflexivity|]. now left. }
  match goal with |- context [bind _ _ ?x] => set (h1 := x) end.
  destruct (parse_request_spec host (header_block r) h1 B)
    as (ok & h2 & E & C & P).
  rewrite run_bind, my_parse_request_eq, E. destruct ok; cbn [negb].
  2:{ split; [exact C | exact P]. }
  rewrite bind_get. destruct P as (Q & Cmd).
  destruct (command h2) as [c|]; [|now elim Cmd].
  pose proof (dispatch_spec c h h2 Q) as D.
  fold (MyHTTPRequestHandler.getattr host).
  destruct (match MyHTTPRequestHandler.getattr host ("do_" ++ c) with
            | Some method => method
            | None => _
            end h2) as [u h'|e h'].
  - exact D.
  - destruct D as (X & ->). split; [exact X | exact Q].
Qed.

(** [handle] is one turn of [handle_one_request]: the loop does not
    turn, as the connection is marked for closing when the call
    returns. *)
Lemma handle_spec h :
  buffer_of h = [] ->
  handle h = handle_one_request (with_close_connection true h).
Proof.
  intros B.
  unfold handle, MyHTTPRequestHandler.handle, BaseHTTPRequestHandler.handle.
  setters.
  pose proof (handle_one_request_spec (with_close_connection true h) B)
    as S.
  rewrite run_bind.
  fold (MyHTTPRequestHandler.getattr host).
  fold (MyHTTPRequestHandler.handle_one_request host).
  fold handle_one_request.
  destruct (handle_one_request (with_close_connection true h))
    as [[] h'|e h']; [|reflexivity].
  destruct S as (C & _).
  rewrite bind_get.
  cbn [BaseHTTPRequestHandler.while_not_close_connection].
  rewrite bind_get, C. reflexivity.
Qed.

(** [handle] returns, or an exception of the class [Exception] leaves
    it. *)
Lemma handle_ends h :
  buffer_of h = [] ->
  match handle h with
  | Ok _ h' => close_connection h' = true
  | Raise e _ => is_Exception e = true
  end.
Proof.
  intros B. rewrite (handle_spec h B).
  pose proof (handle_one_request_spec (with_close_connection true h) B)
    as S.
  destruct (handle_one_request (with_close_connection true h));
    now destruct S.
Qed.

End Handle.

Section Parsed.

Variable host : Host.

Lemma parse_request_version_ok words h n :
  BaseHTTPRequestHandler.parse_version_number host (last words "") = Some n ->
  Py.tuple_ge n (2, 0)%Z = false ->
  BaseHTTPRequestHandler.parse_request_version host
    MyHTTPRequestHandler.server_version MyHTTPRequestHandler.end_headers
    words h
  = Ok true (with_request_version (last words "") h).
Proof.
  intros Vn Below. unfold BaseHTTPRequestHandler.parse_request_version.
  rewrite Vn, protocol_below_1_1, andb_false_r, Below. reflexivity.
Qed.

Lemma parse_request_headers_ok hs h :
  BaseHTTPRequestHandler.parse_request_headers host
    MyHTTPRequestHandler.server_version MyHTTPRequestHandler.end_headers
    (Headers hs) h
  = Ok true
      (if Py.lower (headers_get hs "Connection" "") =? "close"
       then with_close_connection true (with_headers hs h)
       else with_headers hs h).
Proof.
  unfold BaseHTTPRequestHandler.parse_request_headers.
  assign. rewrite protocol_below_1_1.
  destruct (Py.lower (headers_get hs "Connection" "") =? "close").
  - assign. rewrite bind_get.
    rewrite (andb_false_r (_ =? "100-continue")). reflexivity.
  - rewrite (andb_false_r (_ =? "keep-alive")). cbn [when].
    rewrite bind_ret, bind_get.
    rewrite (andb_false_r (_ =? "100-continue")). reflexivity.
Qed.

(** [parse_request] on a request line of three words with a version the
    server takes: it returns [True], with the attributes set from the
    line and nothing written. *)
Lemma parse_request_ok h command path version hs n :
  Py.split_ws (Py.rstrip (Py.is_char_of Py.CRLF) (raw_requestline h))
    = [command; path; version] ->
  BaseHTTPRequestHandler.parse_version_number host version = Some n ->
  Py.tuple_ge n (2, 0)%Z = false ->
  MyHTTPRequestHandler.parse_request host (Headers hs) h
  = Ok true (parsed_from h command path version hs).
Proof.
  intros Words Vn Below.
  unfold MyHTTPRequestHandler.parse_request,
    BaseHTTPRequestHandler.parse_request.
  assign. rewrite bind_get. cbv zeta.
  cbn [raw_requestline with_close_connection with_request_version
         with_command].
  rewrite Words. assign.
  cbn [length Nat.eqb Nat.leb negb andb nth].
  rewrite run_bind,
    (parse_request_version_ok [command; path; version] _ n Vn Below).
  cbn [negb]. rewrite bind_ret. cbn [negb]. assign.
  rewrite run_bind.
  assert (P : forall h0 : handler,
             when (Py.startswith "//" path)
               (set_path ("/" ++ Py.lstrip (Ascii.eqb "/") path))
               (with_path path h0)
             = Ok tt (with_path (request_path path) h0)).
  { intros h0. unfold request_path.
    destruct (Py.startswith "//" path); reflexivity. }
  rewrite P, parse_request_headers_ok.
  apply (f_equal (Ok true)).
  destruct (Py.lower (headers_get hs "Connection" "") =? "close");
    apply handler_ext; reflexivity.
Qed.

(** A request line of three words with a version the server takes is
    dispatched on its command. *)
Lemma handle_one_request_parsed r rest command path version hs :
  request_line_is host r command path version hs ->
  MyHTTPRequestHandler.handle_one_request host
    (MyHTTPRequestHandler.new (r :: rest))
  = match MyHTTPRequestHandler.getattr host ("do_" ++ command) with
    | Some method => method
    | None =>
        MyHTTPRequestHandler.send_error host HTTPStatus.NOT_IMPLEMENTED
          (Some ("Unsupported method (" ++ Py.repr command ++ ")")) None
    end (parsed r rest command path version hs).
Proof.
  intros (Len & Words & (n & Vn & Below) & _ & Hs).
  unfold MyHTTPRequestHandler.handle_one_request,
    BaseHTTPRequestHandler.handle_one_request.
  rewrite bind_get.
  cbn [rfile MyHTTPRequestHandler.new]. assign.
  replace (65536 <? Py.len (line r))%Z with false
    by (symmetry; apply Z.ltb_ge; exact Len).
  assert (NE : (line r =? "") = false).
  { apply String.eqb_neq. intros E. rewrite E in Words. discriminate. }
  rewrite NE, Hs, run_bind, my_parse_request_eq.
  rewrite (parse_request_ok
             (with_raw_requestline (line r)
                (with_rfile rest (MyHTTPRequestHandler.new (r :: rest))))
             command path version hs n Words Vn Below).
  cbn [negb]. rewrite bind_get, my_send_error_eq.
  change (parsed_from _ command path version hs)
    with (parsed r rest command path version hs).
  reflexivity.
Qed.

End Parsed.

(* ================================================================== *)
(** * [run_server] *)

Section RunServer.

Import Server.

Lemma run_server_missing m :
  certificate_missing (host m) ->
  stdout_unicode m = true ->
  run_server m =
  (Returns,
   {| stdout := diagnostic; httpd_socket := None; context := None;
      wrapped := false; served := [] |}).
Proof.
  intros Miss U. unfold run_server.
  assert (E : negb (path_exists (host m) CERT_FILE)
              || negb (path_exists (host m) KEY_FILE) = true).
  { destruct Miss as [-> | ->]; [reflexivity | apply orb_true_r]. }
  rewrite E, U. reflexivity.
Qed.

(** When the standard output cannot encode the first character of the
    diagnostic, [print] raises and nothing is printed. *)
Lemma run_server_missing_ascii m :
  certificate_missing (host m) ->
  stdout_unicode m = false ->
  run_server m = (Raises UnicodeEncodeError, start).
Proof.
  intros Miss U. unfold run_server.
  assert (E : negb (path_exists (host m) CERT_FILE)
              || negb (path_exists (host m) KEY_FILE) = true).
  { destruct Miss as [-> | ->]; [reflexivity | apply orb_true_r]. }
  rewrite E, U. reflexivity.
Qed.

(** A connection or a failed handshake is dealt with and the loop goes
    on. *)
Lemma handle_request_returns hst e p :
  e <> Interrupt ->
  exists sent,
    _handle_request_noblock hst e p = (Returns, sending sent p)
    /\ length sent = connections [e].
Proof.
  intros NI. destruct e as [requests| |]; [| |now elim NI].
  - unfold _handle_request_noblock.
    pose proof (handle_ends hst (MyHTTPRequestHandler.new requests) eq_refl)
      as E.
    destruct (MyHTTPRequestHandler.handle hst _) as [u h'|e h'].
    + now exists [wfile h'].
    + rewrite E. now exists [wfile h'].
  - exists []. split; [|reflexivity].
    unfold sending. rewrite app_nil_r. now destruct p.
Qed.

(** The accept loop up to an interrupt: what arrived before is dealt
    with, what arrives after is not looked at. *)
Lemma serve_forever_interrupt hst before after p :
  ~ In Interrupt before ->
  exists sent,
    serve_forever hst (before ++ Interrupt :: after) p
    = (Raises KeyboardInterrupt, sending sent p)
    /\ length sent = connections before.
Proof.
  revert p. induction before as [|e before IH]; intros p NI.
  - exists []. split; [|reflexivity].
    unfold sending. rewrite app_nil_r. now destruct p.
  - assert (NE : e <> Interrupt) by (intros ->; apply NI; now left).
    destruct (handle_request_returns hst e p NE) as (s1 & E1 & L1).
    destruct (IH (sending s1 p)) as (s2 & E & L2).
    { intros I. apply NI. now right. }
    exists (s1 ++ s2)%list. cbn [app serve_forever]. rewrite E1, E.
    split.
    + unfold sending. cbn [stdout httpd_socket context wrapped served].
      now rewrite app_assoc.
    + rewrite length_app, L1, L2. unfold connections. cbn [filter].
      destruct e; reflexivity.
Qed.

(** [run_server] on a machine that starts the server and is
    interrupted: the banner and the notice are printed, the call
    returns, and the connections served are those that came before the
    interrupt. *)
Lemma run_server_interrupt m before after :
  starts m ->
  events m = (before ++ Interrupt :: after)%list ->
  ~ In Interrupt before ->
  exists sent,
    run_server m =
    (Returns,
     {| stdout :=
          app (banner (host m)) [Py.LF ++ Py.LF ++ "Server stopped"];
        httpd_socket := Some ("", PORT);
        context := Some [(CERT_FILE, KEY_FILE)];
        wrapped := true;
        served := sent |})
    /\ length sent = connections before.
Proof.
  intros (C & K & Bd & Ch) Ev NI. unfold run_server.
  rewrite C, K, Bd, Ch, Ev. cbn [negb orb].
  match goal with
  | |- context [serve_forever _ _ ?q] => set (p0 := q)
  end.
  destruct (serve_forever_interrupt (host m) before after p0 NI)
    as (sent & E & L).
  rewrite E. exists sent. split; [reflexivity|exact L].
Qed.

End RunServer.

(* ================================================================== *)
(** * [translate_path] stays under the serving root *)

Lemma prefix_app (a b : string) : String.prefix a (a ++ b) = true.
Proof.
  induction a as [|c a IH]; [now destruct b|].
  cbn [String.append String.prefix].
  destruct (ascii_dec c c) as [_|N]; [exact IH | now elim N].
Qed.

Lemma split_no_sep (sep : ascii) (s : string) :
  Forall (fun w => Py.contains sep w = false) (Py.split sep s).
Proof.
  induction s as [|c s IH]; cbn [Py.split].
  - repeat constructor.
  - destruct (Ascii.eqb c sep) eqn:E.
    + constructor; [reflexivity | exact IH].
    + destruct (Py.split sep s) as [|w ws].
      * repeat constructor. cbn [Py.contains].
        rewrite Ascii.eqb_sym, E. reflexivity.
      * inversion IH as [|? ? Hw Hws]; subst. constructor; [|exact Hws].
        cbn [Py.contains]. rewrite Ascii.eqb_sym, E. exact Hw.
Qed.

Lemma simple_name_join (q name : string) :
  simple_name name ->
  Py.path_join q name = q ++ name \/ Py.path_join q name = q ++ "/" ++ name.
Proof.
  intros (NE & _ & _ & NS). unfold Py.path_join.
  destruct name as [|c name]; [now elim NE|].
  cbn [Py.contains] in NS. apply orb_false_elim in NS as (NS & _).
  unfold Py.startswith. cbn [String.prefix].
  destruct (ascii_dec "/" c) as [E|_].
  { subst c. rewrite Ascii.eqb_refl in NS. discriminate. }
  destruct (_ || _); [now left | now right].
Qed.

Lemma under_prefix (root q : string) :
  under root q -> exists tail, q = root ++ tail.
Proof.
  induction 1 as [|q name _ (t & ->) S|q _ (t & ->)].
  - exists "". now rewrite append_nil_r.
  - destruct (simple_name_join (root ++ t) name S) as [-> | ->];
      rewrite append_assoc; eauto.
  - rewrite append_assoc. eauto.
Qed.

Section TranslatePath.

Variable host : Host.

Let root := getcwd host.

Lemma translate_path_fold (words : list string) (q : string) :
  Forall (fun w => Py.contains "/" w = false) words ->
  under root q ->
  under root
    (fold_left
       (fun path word =>
          if SimpleHTTPRequestHandler.ignored_word word then path
          else Py.path_join path word)
       (filter (fun w => negb (w =? "")) words) q).
Proof.
  intros F. revert q. induction F as [|w words Hw _ IH]; intros q U.
  - exact U.
  - cbn [filter]. destruct (String.eqb_spec w "") as [E|NE]; cbn [negb].
    + now apply IH.
    + cbn [fold_left]. apply IH.
      unfold SimpleHTTPRequestHandler.ignored_word.
      destruct (String.eqb_spec w ".") as [|N1]; cbn [orb];
        [now rewrite orb_true_r|].
      destruct (String.eqb_spec w "..") as [|N2]; cbn [orb];
        [now rewrite orb_true_r|].
      rewrite orb_false_r.
      destruct (negb _); [exact U|].
      apply under_join; [exact U|]. repeat split; assumption.
Qed.

(** Whatever the request path, the path handed to the file system is
    the root followed by simple names. *)
Lemma translate_path_under (p : string) :
  under root (SimpleHTTPRequestHandler.translate_path host p).
Proof.
  unfold SimpleHTTPRequestHandler.translate_path.
  match goal with
  | |- under _ (if ?b then ?x ++ "/" else _) =>
      assert (U : under root x);
      [|destruct b; [now apply under_slash | exact U]]
  end.
  apply translate_path_fold; [apply split_no_sep | apply under_root].
Qed.

End TranslatePath.

(* ================================================================== *)
(** * What [send_head] hands over *)

Lemma returns_only_ret {B} (b : B) : returns_only (ret b) b.
Proof. intros h b' h' E. now inversion E. Qed.

Lemma returns_only_bind {A B} (m : M A) (k : A -> M B) (b : B) :
  (forall a, returns_only (k a) b) -> returns_only (bind m k) b.
Proof.
  intros K h b' h' E. unfold bind in E.
  destruct (m h) as [a h1|e h1]; [now apply (K a h1 b' h') | discriminate].
Qed.

Ltac returns :=
  repeat (apply returns_only_bind; intros); apply returns_only_ret.

Section Origin.

Variable host : Host.

Let root := getcwd host.

Lemma send_head_file_origin q h data h1 :
  SimpleHTTPRequestHandler.send_head_file host
    MyHTTPRequestHandler.end_headers q h = Ok (Some data) h1 ->
  exists f, open_rb host q = Opened f /\ data = read f.
Proof.
  unfold SimpleHTTPRequestHandler.send_head_file. intros E.
  destruct (Py.endswith "/" q).
  { assert (R : Some data = None) by (revert E; returns). discriminate. }
  destruct (open_rb host q) as [f| |unicode].
  2:{ assert (R : Some data = None) by (revert E; returns). discriminate. }
  2:{ discriminate. }
  exists f. split; [reflexivity|].
  rewrite bind_get in E.
  destruct (SimpleHTTPRequestHandler.not_modified host (headers h) (fstat f)).
  - assert (R : Some data = None) by (revert E; returns). discriminate.
  - assert (R : Some data = Some (read f)) by (revert E; returns).
    now inversion R.
Qed.

Lemma send_head_origin h data h1 :
  MyHTTPRequestHandler.send_head host h = Ok (Some data) h1 ->
  let p := MyHTTPRequestHandler.translate_path host (path h) in
  exists q,
    (q = p \/ q = Py.path_join p "index.html"
     \/ q = Py.path_join p "index.htm")
    /\ under root q /\ read_at host (path h) q data.
Proof.
  unfold MyHTTPRequestHandler.send_head, SimpleHTTPRequestHandler.send_head.
  rewrite bind_get. intros E.
  pose proof (translate_path_under host (SimpleHTTPRequestHandler.self_path h))
    as U.
  unfold MyHTTPRequestHandler.translate_path.
  change (path h) with (SimpleHTTPRequestHandler.self_path h) at 1 2 3.
  set (p := SimpleHTTPRequestHandler.translate_path host _) in *.
  cbv zeta.
  assert (I : forall name, simple_name name ->
              under root (Py.path_join p name))
    by (intros; now apply under_join).
  destruct (path_isdir host p).
  2:{ exists p. split; [now left|]. split; [exact U|]. left.
      now apply (send_head_file_origin p h data h1). }
  destruct (urlsplit host _) as [parts|]; [|discriminate].
  destruct (negb _).
  { assert (R : Some data = None) by (revert E; returns). discriminate. }
  destruct (path_isfile host _).
  { eexists. split; [right; left; reflexivity|].
    split; [apply (I "index.html")|].
    - repeat split; discriminate.
    - left. now apply (send_head_file_origin _ h data h1). }
  destruct (path_isfile host _).
  { eexists. split; [right; right; reflexivity|].
    split; [apply (I "index.htm")|].
    - repeat split; discriminate.
    - left. now apply (send_head_file_origin _ h data h1). }
  exists p. split; [now left|]. split; [exact U|]. right.
  unfold SimpleHTTPRequestHandler.list_directory in E.
  destruct (listdir host p) as [entries|].
  - exists entries. split; [reflexivity|]. rewrite bind_get in E.
    destruct (directory_listing host p _ entries) as [listing|] eqn:D;
      [|discriminate].
    assert (R : Some data = Some listing) by (revert E; returns).
    now inversion R.
  - assert (R : Some data = None) by (revert E; returns). discriminate.
Qed.

End Origin.

(* ================================================================== *)
(** * Reading responses *)

Lemma render_head code message hdrs body :
  exists s, Response.render code message hdrs body = String "H" s.
Proof. unfold Response.render. rewrite join_cons. eexists. reflexivity. Qed.

Lemma status_of_render code message hdrs body :
  Response.status_of (Response.render code message hdrs body)
  = Some (HTTPStatus.value code).
Proof. unfold Response.render. rewrite join_cons. destruct code; reflexivity. Qed.

Lemma endswith_app x p : Py.endswith p (x ++ p) = true.
Proof. unfold Py.endswith. rewrite rev_string_append. apply prefix_app. Qed.

Lemma endswith_render code message hdrs body :
  Py.endswith body (Response.render code message hdrs body) = true.
Proof. unfold Response.render. apply endswith_app. Qed.


(** A response with the headers of [send_response], then [base], then
    the three of the override, as a client reads it. *)
Lemma carries_cors_shaped host code message base body :
  Host_tidy host -> tidy message base ->
  carries_cors
    (Response.render code message
       (Response.server_date host ++ base ++ Response.cors_headers) body).
Proof.
  intros H T. eexists _, body. split; [now apply head_of_shaped|].
  apply incl_tl, incl_appr, incl_refl.
Qed.

Lemma ends_with_cors_shaped host code message base body :
  Host_tidy host -> tidy message base ->
  ends_with_cors
    (Response.render code message
       (Response.server_date host ++ base ++ Response.cors_headers) body).
Proof.
  intros H T. eexists _, _, body. now apply head_of_shaped.
Qed.

Lemma answers_render code message hdrs body :
  no_eol message = true -> forallb tidy_header hdrs = true ->
  answers (Response.render code message hdrs body) code body.
Proof.
  intros M T. split; [apply status_of_render|].
  eexists. now apply head_of_render.
Qed.


(** The hosts of the examples hand over values without line breaks. *)
Lemma no_eol_remove_unsafe s : no_eol (Example.remove_unsafe s) = true.
Proof.
  unfold Example.remove_unsafe.
  induction s as [|c s IH]; [reflexivity|].
  cbn [list_ascii_of_string filter].
  destruct (negb (Py.is_char_of (Py.TAB ++ Py.CRLF) c)) eqn:E;
    [|exact IH].
  cbn [string_of_list_ascii]. rewrite no_eol_cons, IH.
  unfold Py.is_char_of in E. cbn [Py.contains Py.TAB Py.CRLF Py.CR Py.LF
                                    String.append] in E.
  apply negb_true_iff in E.
  apply orb_false_iff in E as (_ & E).
  apply orb_false_iff in E as (E1 & E).
  apply orb_false_iff in E as (E2 & _).
  rewrite Ascii.eqb_sym, E1, Ascii.eqb_sym, E2. reflexivity.
Qed.

Lemma www_tidy : Host_tidy Example.www.
Proof.
  split; [reflexivity|]. split; [reflexivity|]. split.
  { intros p. cbn [guess_type Example.www].
    now destruct (Py.endswith ".html" p). }
  split; [|reflexivity].
  intros s parts E. cbn [urlsplit Example.www] in E.
  destruct (Py.has_substring "://[" s && negb (Py.contains "]" s));
    [discriminate|].
  injection E as <-.
  unfold redirect_location, with_slash.
  cbn [urlunsplit Example.www sr_path query fragment].
  rewrite !no_eol_app, no_eol_remove_unsafe.
  repeat match goal with
         | |- context [if ?b then _ else _] => destruct b
         end;
    rewrite ?no_eol_app, ?no_eol_remove_unsafe; reflexivity.
Qed.

Lemma change_tidy host listdir' parsedate' listing' :
  Host_tidy host ->
  Host_tidy (Variant.change host listdir' parsedate' listing').
Proof. exact (fun H => H). Qed.

Lemma without_tidy missing : Host_tidy (Example.without missing).
Proof. exact www_tidy. Qed.

(* ================================================================== *)
(** * The claims *)

Section Claims.

Import Response.

(** C1, as stated, fails: the request line [GET /index.html], without a
    version, leaves the handler at request version HTTP/0.9, and the
    response is the file alone, with no status line and no header. *)
Lemma C1_counterexample :
  Example.answer "GET /index.html" = "hello"
  /\ ~ carries_cors (Example.answer "GET /index.html").
Proof.
  assert (E : Example.answer "GET /index.html" = "hello")
    by (vm_compute; reflexivity).
  split; [exact E|]. rewrite E.
  intros (lines & body & R & _). vm_compute in R. discriminate.
Qed.

(** C1, amended: on whatever arrives, [handle_one_request] returns or
    an exception of the class [Exception] leaves it. When it returns,
    every response it has sent while the request version of the handler
    is not HTTP/0.9 has, as a client reads it, a header block, and the
    three CORS headers with their names and values are lines of that
    block, before the empty line that ends it. When an exception leaves
    it, nothing was sent. The values the library hands over for header
    lines are taken to have no line break in them. *)
Theorem C1_cors_headers_sent host h :
  Host_tidy host ->
  buffer_of h = [] ->
  match MyHTTPRequestHandler.handle_one_request host h with
  | Ok _ h' =>
      request_version h' <> "HTTP/0.9" ->
      wfile h' <> wfile h ->
      exists response,
        wfile h' = wfile h ++ response /\ carries_cors response
  | Raise e h' => is_Exception e = true /\ wfile h' = wfile h
  end.
Proof.
  intros T B. pose proof (handle_one_request_spec host h B) as S.
  destruct (MyHTTPRequestHandler.handle_one_request host h) as [u h'|e h'].
  - destruct S as (_ & A). intros V W.
    destruct A as [A | [A | (code & message & base & body & A & Ti)]].
    + now elim W.
    + apply String.eqb_eq in A. now elim V.
    + eexists. split; [exact A|]. apply carries_cors_shaped; auto.
  - destruct S as (X & Q & _). now split.
Qed.

Lemma C1_witness :
  carries_cors (Example.answer "GET /index.html HTTP/1.1").
Proof.
  pose proof (C1_cors_headers_sent Example.www
                (MyHTTPRequestHandler.new
                   [Example.request_of "GET /index.html HTTP/1.1"])
                www_tidy eq_refl) as K.
  unfold Example.answer.
  destruct (MyHTTPRequestHandler.handle_one_request Example.www _)
    as [u h'|e h'] eqn:E; vm_compute in E; [|discriminate].
  injection E as <- <-.
  destruct K as (response & W & C); [discriminate | discriminate |].
  cbn [wfile MyHTTPRequestHandler.new String.append] in W.
  rewrite W. exact C.
Defined.

End Claims.

Section ClaimsHeaders.

Import Response.

(** C2, as stated, fails: the response to [GET /index.html HTTP/2.0] is
    the page of the error 505 alone; it is sent before the version of
    the request is recorded, so under request version HTTP/0.9, and no
    header block is written for the three headers to be appended to. *)
Lemma C2_counterexample :
  Example.answer "GET /index.html HTTP/2.0"
  = error_body HTTPStatus.HTTP_VERSION_NOT_SUPPORTED
      "Invalid HTTP version (2.0)" "Cannot fulfill request"
  /\ ~ ends_with_cors (Example.answer "GET /index.html HTTP/2.0").
Proof.
  split; [vm_compute; reflexivity|].
  intros (status_line & base & body & R).
  vm_compute in R. discriminate.
Qed.

(** C2, amended: on whatever arrives, [handle_one_request] returns or
    an exception of the class [Exception] leaves it. When it returns,
    in every response it has sent while the request version of the
    handler is not HTTP/0.9 the header block, as a client reads it,
    is the status line, then the headers of the inherited methods,
    then the three CORS headers in the order Origin, Methods, Headers,
    and the empty line that ends the block comes after them. When an
    exception leaves it, nothing was sent. The values the library
    hands over for header lines are taken to have no line break in
    them. *)
Theorem C2_cors_headers_last host h :
  Host_tidy host ->
  buffer_of h = [] ->
  match MyHTTPRequestHandler.handle_one_request host h with
  | Ok _ h' =>
      request_version h' <> "HTTP/0.9" ->
      wfile h' <> wfile h ->
      exists response,
        wfile h' = wfile h ++ response /\ ends_with_cors response
  | Raise e h' => is_Exception e = true /\ wfile h' = wfile h
  end.
Proof.
  intros T B. pose proof (handle_one_request_spec host h B) as S.
  destruct (MyHTTPRequestHandler.handle_one_request host h) as [u h'|e h'].
  - destruct S as (_ & A). intros V W.
    destruct A as [A | [A | (code & message & base & body & A & Ti)]].
    + now elim W.
    + apply String.eqb_eq in A. now elim V.
    + eexists. split; [exact A|]. apply ends_with_cors_shaped; auto.
  - destruct S as (X & Q & _). now split.
Qed.

Lemma C2_witness :
  ends_with_cors (Example.answer "GET /missing HTTP/1.0").
Proof.
  pose proof (C2_cors_headers_last Example.www
                (MyHTTPRequestHandler.new
                   [Example.request_of "GET /missing HTTP/1.0"])
                www_tidy eq_refl) as K.
  unfold Example.answer.
  destruct (MyHTTPRequestHandler.handle_one_request Example.www _)
    as [u h'|e h'] eqn:E; vm_compute in E; [|discriminate].
  injection E as <- <-.
  destruct K as (response & W & C); [discriminate | discriminate |].
  cbn [wfile MyHTTPRequestHandler.new String.append] in W.
  rewrite W. exact C.
Defined.

End ClaimsHeaders.

Section ClaimsStartup.

Import Server.

(** C3, as stated, fails: with the certificate in place and the key
    missing, the diagnostic names the certificate as well; it does not
    tell which of the two paths is missing. *)
Lemma C3_counterexample :
  certificate_missing (Example.without [KEY_FILE])
  /\ ~ spec_reports_missing (Example.without [KEY_FILE])
         (stdout (snd (run_server
                         (Example.machine_of
                            (Example.without [KEY_FILE]) [])))).
Proof.
  split; [now right|].
  intros R. destruct (R CERT_FILE) as [R1 _]; [now left|].
  assert (N : path_exists (Example.without [KEY_FILE]) CERT_FILE = false).
  { apply R1.
    exists "   Looking for: certs/server.crt and certs/server.key".
    split; [right; now left | reflexivity]. }
  discriminate.
Qed.

(** C3, amended: when the certificate file or the key file is
    missing, no socket is made, no TLS context, nothing is wrapped and
    nothing served, and the process ends. When the standard output can
    encode the first character of the diagnostic, [run_server] prints
    its two lines, the same whichever file is missing, and returns, and
    the process exits with status 0; when it cannot, [print] raises
    [UnicodeEncodeError], nothing is printed and the process exits
    with status 1. *)
Theorem C3_missing_certificate_no_startup m :
  certificate_missing (host m) ->
  httpd_socket (snd (run_server m)) = None
  /\ context (snd (run_server m)) = None
  /\ wrapped (snd (run_server m)) = false
  /\ served (snd (run_server m)) = []
  /\ (if stdout_unicode m
      then fst (run_server m) = Returns
           /\ stdout (snd (run_server m)) = diagnostic
           /\ fst (main m) = Exit 0
      else fst (run_server m) = Raises UnicodeEncodeError
           /\ stdout (snd (run_server m)) = []
           /\ fst (main m) = Exit 1).
Proof.
  intros Miss. unfold main. destruct (stdout_unicode m) eqn:U.
  - rewrite (run_server_missing m Miss U). repeat split.
  - rewrite (run_server_missing_ascii m Miss U). repeat split.
Qed.

Lemma C3_witness :
  certificate_missing (Example.without [CERT_FILE])
  /\ run_server (Example.machine_of (Example.without [CERT_FILE])
                   [Connection [Example.request_of "GET / HTTP/1.1"]])
     = (Returns,
        {| stdout := diagnostic; httpd_socket := None; context := None;
           wrapped := false; served := [] |}).
Proof.
  assert (Miss : certificate_missing (Example.without [CERT_FILE]))
    by (left; reflexivity).
  split; [exact Miss|].
  pose proof (C3_missing_certificate_no_startup
                (Example.machine_of (Example.without [CERT_FILE])
                   [Connection [Example.request_of "GET / HTTP/1.1"]])
                Miss) as (S & C & W & V & R & O & _).
  cbn [stdout_unicode Example.machine_of] in R, O.
  destruct (run_server _) as [r [o s c w v]].
  cbn [fst snd stdout httpd_socket context wrapped served] in *.
  now subst.
Defined.

(** C7: when the server has started and an interrupt arrives, the
    accept loop stops, no connection that comes later is served, the
    notice is printed after the banner, and the process exits with
    status 0: the exception is caught. *)
Theorem C7_interrupt_stops_server m before after :
  starts m ->
  events m = (before ++ Interrupt :: after)%list ->
  ~ In Interrupt before ->
  exists sent,
    main m =
    (Exit 0,
     {| stdout :=
          app (banner (host m)) [Py.LF ++ Py.LF ++ "Server stopped"];
        httpd_socket := Some ("", PORT);
        context := Some [(CERT_FILE, KEY_FILE)];
        wrapped := true;
        served := sent |})
    /\ length sent = connections before.
Proof.
  intros S Ev NI.
  destruct (run_server_interrupt m before after S Ev NI) as (sent & E & L).
  exists sent. split; [|exact L]. unfold main. now rewrite E.
Qed.

Lemma C7_witness :
  exists sent,
    main (Example.machine_of Example.www
            [Connection [Example.request_of "GET /index.html HTTP/1.1"];
             HandshakeFailed; Interrupt;
             Connection [Example.request_of "GET / HTTP/1.1"]])
    = (Exit 0,
       {| stdout :=
            app (banner Example.www) [Py.LF ++ Py.LF ++ "Server stopped"];
          httpd_socket := Some ("", PORT);
          context := Some [(CERT_FILE, KEY_FILE)];
          wrapped := true;
          served := sent |})
    /\ length sent = 1.
Proof.
  apply (C7_interrupt_stops_server
           (Example.machine_of Example.www
              [Connection [Example.request_of "GET /index.html HTTP/1.1"];
               HandshakeFailed; Interrupt;
               Connection [Example.request_of "GET / HTTP/1.1"]])
           [Connection [Example.request_of "GET /index.html HTTP/1.1"];
            HandshakeFailed]
           [Connection [Example.request_of "GET / HTTP/1.1"]]).
  - repeat split; reflexivity.
  - reflexivity.
  - intros [I | [I | []]]; discriminate.
Defined.

(** C8, as stated, fails: with the key missing and a standard output
    that cannot encode the first character of the diagnostic, [print]
    raises on the first line and nothing is printed: no path is
    named. *)
Lemma C8_counterexample :
  certificate_missing (Example.without [KEY_FILE])
  /\ run_server (Example.ascii_machine_of (Example.without [KEY_FILE]) [])
     = (Raises UnicodeEncodeError, start)
  /\ ~ names
        (stdout (snd (run_server
                        (Example.ascii_machine_of
                           (Example.without [KEY_FILE]) []))))
        "certs/server.key".
Proof.
  split; [now right|]. split; [reflexivity|].
  intros (l & [] & _).
Qed.

(** C8, amended: whenever the check of the certificate fails and the
    standard output can encode the first character of the diagnostic,
    the lines printed are the two of the diagnostic, and the second
    names both configured paths, whichever file is missing; when the
    standard output cannot encode it, [print] raises
    [UnicodeEncodeError] and nothing is printed. *)
Theorem C8_diagnostic_names_both_paths m :
  certificate_missing (host m) ->
  if stdout_unicode m
  then stdout (snd (run_server m)) = diagnostic
       /\ names (stdout (snd (run_server m))) "certs/server.crt"
       /\ names (stdout (snd (run_server m))) "certs/server.key"
  else run_server m = (Raises UnicodeEncodeError, start)
       /\ stdout (snd (run_server m)) = [].
Proof.
  intros Miss. destruct (stdout_unicode m) eqn:U.
  - rewrite (run_server_missing m Miss U). cbn [snd stdout].
    split; [reflexivity|].
    split;
      (exists "   Looking for: certs/server.crt and certs/server.key";
       split; [right; now left | reflexivity]).
  - rewrite (run_server_missing_ascii m Miss U). now split.
Qed.

Lemma C8_witness :
  certificate_missing (Example.without [CERT_FILE; KEY_FILE])
  /\ stdout (snd (run_server
                    (Example.machine_of
                       (Example.without [CERT_FILE; KEY_FILE]) [])))
     = diagnostic.
Proof.
  assert (Miss : certificate_missing
                   (Example.without [CERT_FILE; KEY_FILE]))
    by (left; reflexivity).
  split; [exact Miss|].
  exact (proj1 (C8_diagnostic_names_both_paths
                  (Example.machine_of
                     (Example.without [CERT_FILE; KEY_FILE]) []) Miss)).
Defined.

(** C9, as stated, fails: with the key missing and a standard output
    that cannot encode the first character of the diagnostic,
    [run_server] does not return: [UnicodeEncodeError] leaves it, and
    the process exits with status 1, not that of a server stopped by an
    interrupt. *)
Lemma C9_counterexample :
  certificate_missing (Example.without [KEY_FILE])
  /\ fst (run_server
            (Example.ascii_machine_of (Example.without [KEY_FILE]) []))
     = Raises UnicodeEncodeError
  /\ fst (main (Example.ascii_machine_of (Example.without [KEY_FILE]) []))
     = Exit 1
  /\ fst (main (Example.ascii_machine_of Example.www [Interrupt]))
     = Exit 0.
Proof.
  split; [now right|]. repeat split.
Qed.

(** C9, amended: when a file of the certificate is missing and the
    standard output can encode the first character of the diagnostic,
    [run_server] returns without an exception and the process exits
    with status 0, the status of a server stopped by an interrupt; when
    the standard output cannot encode it, [UnicodeEncodeError] leaves
    [run_server] and the process exits with status 1. *)
Theorem C9_missing_certificate_exit_status m :
  certificate_missing (host m) ->
  if stdout_unicode m
  then fst (run_server m) = Returns
       /\ fst (main m) = Exit 0
       /\ forall m' before after,
            starts m' ->
            events m' = (before ++ Interrupt :: after)%list ->
            ~ In Interrupt before ->
            fst (main m') = fst (main m)
  else fst (run_server m) = Raises UnicodeEncodeError
       /\ fst (main m) = Exit 1.
Proof.
  intros Miss. destruct (stdout_unicode m) eqn:U.
  - pose proof (run_server_missing m Miss U) as E.
    assert (X : fst (main m) = Exit 0) by (unfold main; now rewrite E).
    split; [now rewrite E|]. split; [exact X|].
    intros m' before after S Ev NI.
    destruct (run_server_interrupt m' before after S Ev NI)
      as (sent & E' & _).
    rewrite X. unfold main. now rewrite E'.
  - unfold main. rewrite (run_server_missing_ascii m Miss U). now split.
Qed.

Lemma C9_witness :
  certificate_missing (Example.without [KEY_FILE])
  /\ fst (main (Example.machine_of (Example.without [KEY_FILE]) []))
     = Exit 0
  /\ fst (main (Example.machine_of Example.www [Interrupt]))
     = fst (main (Example.machine_of (Example.without [KEY_FILE]) [])).
Proof.
  assert (Miss : certificate_missing (Example.without [KEY_FILE]))
    by (right; reflexivity).
  destruct (C9_missing_certificate_exit_status
              (Example.machine_of (Example.without [KEY_FILE]) []) Miss)
    as (_ & X & Same).
  split; [exact Miss|]. split; [exact X|].
  apply (Same (Example.machine_of Example.www [Interrupt]) [] []).
  - repeat split; reflexivity.
  - reflexivity.
  - intros [].
Defined.

End ClaimsStartup.
Section ClaimsFiles.

Import Response.







(** C6, as stated, fails: put after the root and normalised, the path
    of [GET /../../etc/passwd HTTP/1.0] lies outside of the root; the
    server drops the two components [..], finds the file [etc/passwd]
    of the root and sends it with status 200. *)
Lemma C6_counterexample :
  spec_resolves_outside (getcwd Example.www) "/../../etc/passwd" = true
  /\ MyHTTPRequestHandler.translate_path Example.www "/../../etc/passwd"
     = "/srv/www/etc/passwd"
  /\ answers (Example.answer "GET /../../etc/passwd HTTP/1.0")
       HTTPStatus.OK "inside"
  /\ ~ is_4xx (Example.answer "GET /../../etc/passwd HTTP/1.0").
Proof.
  split; [vm_compute; reflexivity|]. split; [vm_compute; reflexivity|].
  assert (S : status_of (Example.answer "GET /../../etc/passwd HTTP/1.0")
              = Some 200%Z) by (vm_compute; reflexivity).
  split.
  - split; [exact S|]. eexists. vm_compute. reflexivity.
  - intros (code & S' & Lo & Hi).
    rewrite S in S'. injection S' as <-. lia.
Qed.

(** C6, amended: whatever the request path, the bytes [do_GET] sends
    after the headers are those [send_head] hands over, and these are
    the contents of a file, or the listing of a directory, at the path
    [translate_path] makes of the request path, or at [index.html] or
    [index.htm] in it: a path made of the root and of simple names,
    none of them [..], which starts with the root. When an exception
    leaves [send_head], it leaves [do_GET] and nothing was sent. *)
Theorem C6_served_from_under_root host h :
  buffer_of h = [] ->
  let p := MyHTTPRequestHandler.translate_path host (path h) in
  match MyHTTPRequestHandler.send_head host h with
  | Ok f h1 =>
      MyHTTPRequestHandler.do_GET host h
      = Ok tt match f with
              | Some data => with_wfile (wfile h1 ++ data) h1
              | None => h1
              end
      /\ forall data,
           f = Some data ->
           exists q,
             (q = p \/ q = Py.path_join p "index.html"
              \/ q = Py.path_join p "index.htm")
             /\ under (getcwd host) q
             /\ (exists tail, q = getcwd host ++ tail)
             /\ read_at host (path h) q data
  | Raise e h1 =>
      MyHTTPRequestHandler.do_GET host h = Raise e h
      /\ h1 = h /\ is_Exception e = true
  end.
Proof.
  intros B p.
  assert (T : ends_in (fun _ _ => True) h
                (MyHTTPRequestHandler.send_head host h)).
  { destruct (request_version h =? "HTTP/0.9") eqn:V.
    - pose proof (send_head_dead host h V) as S.
      destruct (MyHTTPRequestHandler.send_head host h); [exact I|exact S].
    - pose proof (send_head_live host h V B) as S.
      destruct (MyHTTPRequestHandler.send_head host h); [exact I|exact S]. }
  assert (G : MyHTTPRequestHandler.do_GET host h =
              match MyHTTPRequestHandler.send_head host h with
              | Ok (Some data) h1 => Ok tt (with_wfile (wfile h1 ++ data) h1)
              | Ok None h1 => Ok tt h1
              | Raise e h1 => Raise e h1
              end).
  { unfold MyHTTPRequestHandler.do_GET, SimpleHTTPRequestHandler.do_GET.
    rewrite run_bind.
    change (SimpleHTTPRequestHandler.send_head host
              MyHTTPRequestHandler.end_headers h)
      with (MyHTTPRequestHandler.send_head host h).
    destruct (MyHTTPRequestHandler.send_head host h) as [[data|] h1|e h1];
      reflexivity. }
  destruct (MyHTTPRequestHandler.send_head host h) as [f h1|e h1] eqn:E.
  - split; [rewrite G; now destruct f|].
    intros data ->.
    destruct (send_head_origin host h data h1 E) as (q & Q & U & R).
    exists q. split; [exact Q|]. split; [exact U|]. split; [|exact R].
    now apply under_prefix.
  - destruct T as (X & ->). now rewrite G.
Qed.

Lemma C6_witness :
  exists q,
    under "/srv/www" q
    /\ (exists tail, q = "/srv/www" ++ tail)
    /\ read_at Example.www "/../../etc/passwd" q "inside".
Proof.
  pose proof (C6_served_from_under_root Example.www
                (parsed (Example.request_of "GET /../../etc/passwd HTTP/1.0")
                   [] "GET" "/../../etc/passwd" "HTTP/1.0" []) eq_refl)
    as K.
  cbv zeta in K.
  destruct (MyHTTPRequestHandler.send_head Example.www _)
    as [f h1|e h1] eqn:E; vm_compute in E; [|discriminate].
  injection E as <- <-.
  destruct K as (_ & O).
  destruct (O "inside" eq_refl) as (q & _ & U & P & R).
  exists q. repeat split; assumption.
Defined.




End ClaimsFiles.

(* ================================================================== *)
(** * The accept loop, connection by connection *)

Section Loop.

Import Server.

Lemma sending_nil p : sending [] p = p.
Proof. unfold sending. rewrite app_nil_r. now destruct p. Qed.

Lemma sending_sending s1 s2 p :
sending s2 (sending s1 p) = sending (s1 ++ s2) p.
Proof.
unfold sending. cbn [stdout httpd_socket context wrapped served].
now rewrite app_assoc.
Qed.

Lemma handle_request_exact hst e p :
e <> Interrupt ->
_handle_request_noblock hst e p = (Returns, sending (responses hst [e]) p).
Proof.
intros NI. destruct e as [requests| |]; [| |now elim NI].
- unfold _handle_request_noblock. cbn [responses]. unfold response_to.
  pose proof (handle_ends hst (MyHTTPRequestHandler.new requests) eq_refl)
    as E.
  destruct (MyHTTPRequestHandler.handle hst _) as [u h'|e h'];
    [reflexivity|].
  now rewrite E.
- cbn [_handle_request_noblock responses]. now rewrite sending_nil.
Qed.

Lemma responses_app hst evs1 evs2 :
responses hst (evs1 ++ evs2) = (responses hst evs1 ++ responses hst evs2)%list.
Proof.
induction evs1 as [|e evs1 IH]; [reflexivity|].
destruct e; cbn [app responses]; now rewrite IH.
Qed.

Lemma serve_forever_step hst e evs p :
e <> Interrupt ->
serve_forever hst (e :: evs) p
= serve_forever hst evs (sending (responses hst [e]) p).
Proof.
intros NI. cbn [serve_forever].
now rewrite (handle_request_exact hst e p NI).
Qed.

Lemma serve_forever_until hst before after p :
~ In Interrupt before ->
serve_forever hst (before ++ Interrupt :: after) p
= (Raises KeyboardInterrupt, sending (responses hst before) p).
Proof.
revert p. induction before as [|e before IH]; intros p NI.
- cbn [app serve_forever _handle_request_noblock responses].
  now rewrite sending_nil.
- assert (NE : e <> Interrupt) by (intros ->; apply NI; now left).
  cbn [app]. rewrite (serve_forever_step hst e _ p NE), IH.
  + rewrite sending_sending.
    change (e :: before) with ([e] ++ before)%list.
    now rewrite responses_app.
  + intros I. apply NI. now right.
Qed.

Lemma serve_forever_waits hst evs p :
~ In Interrupt evs ->
serve_forever hst evs p = (Waits, sending (responses hst evs) p).
Proof.
revert p. induction evs as [|e evs IH]; intros p NI.
- cbn [serve_forever responses]. now rewrite sending_nil.
- assert (NE : e <> Interrupt) by (intros ->; apply NI; now left).
  rewrite (serve_forever_step hst e evs p NE), IH.
  + rewrite sending_sending.
    change (e :: evs) with ([e] ++ evs)%list.
    now rewrite responses_app.
  + intros I. apply NI. now right.
Qed.

Lemma run_server_started m :
starts m ->
run_server m =
match serve_forever (host m) (events m) (serving (host m) []) with
| (Raises KeyboardInterrupt, p) => (Returns, print notice p)
| r => r
end.
Proof.
intros (C & K & Bd & Ch). unfold run_server.
rewrite C, K, Bd, Ch. reflexivity.
Qed.

Lemma first_interrupt (evs : list event) :
In Interrupt evs ->
exists before after,
  evs = (before ++ Interrupt :: after)%list /\ ~ In Interrupt before.
Proof.
induction evs as [|e evs IH]; [intros []|].
intros I. destruct e as [requests| |].
- destruct I as [I|I]; [discriminate|].
  destruct (IH I) as (before & after & -> & N).
  exists (Connection requests :: before), after. split; [reflexivity|].
  intros [X|X]; [discriminate | now apply N].
- destruct I as [I|I]; [discriminate|].
  destruct (IH I) as (before & after & -> & N).
  exists (HandshakeFailed :: before), after. split; [reflexivity|].
  intros [X|X]; [discriminate | now apply N].
- exists [], evs. split; [reflexivity | intros []].
Qed.

Lemma interrupt_or_not (evs : list event) :
In Interrupt evs \/ ~ In Interrupt evs.
Proof.
induction evs as [|e evs [IH|IH]].
- right. intros [].
- left. now right.
- destruct e; [right | right | left; now left];
    (intros [X|X]; [discriminate | now apply IH]).
Qed.

Lemma run_server_unbound m :
path_exists (host m) CERT_FILE = true ->
path_exists (host m) KEY_FILE = true ->
bind_ok m = false ->
run_server m = (Raises OSError, start)
/\ fst (main m) = Exit 1.
Proof.
intros C K Bd.
assert (E : run_server m = (Raises OSError, start)).
{ unfold run_server. rewrite C, K, Bd. reflexivity. }
split; [exact E|]. unfold main. now rewrite E.
Qed.

Lemma run_server_unchained m :
path_exists (host m) CERT_FILE = true ->
path_exists (host m) KEY_FILE = true ->
bind_ok m = true ->
cert_chain_ok m = false ->
run_server m =
  (Raises (cert_chain_error m),
   set_context (Some []) (set_httpd_socket (Some ("", PORT)) start))
/\ (is_Exception (cert_chain_error m) = true -> fst (main m) = Exit 1)
/\ (cert_chain_error m = KeyboardInterrupt ->
    fst (main m) = KilledBySIGINT).
Proof.
intros C K Bd Ch.
assert (E : run_server m =
            (Raises (cert_chain_error m),
             set_context (Some [])
               (set_httpd_socket (Some ("", PORT)) start))).
{ unfold run_server. rewrite C, K, Bd, Ch. reflexivity. }
split; [exact E|]. unfold main. rewrite E.
split; intros X; [now destruct (cert_chain_error m) | now rewrite X].
Qed.

(** X1: when both files of the certificate exist and the port cannot be
  bound, [HTTPServer(...)] raises: [run_server] ends by [OSError] before
  it has printed a line, made a TLS context or served anything, and the
  process exits with status 1. *)
Theorem X1_bind_failure m :
path_exists (host m) CERT_FILE = true ->
path_exists (host m) KEY_FILE = true ->
bind_ok m = false ->
run_server m = (Raises OSError, start)
/\ main m = (Exit 1, start).
Proof.
intros C K Bd.
assert (E : run_server m = (Raises OSError, start)).
{ unfold run_server. rewrite C, K, Bd. reflexivity. }
split; [exact E|]. unfold main. now rewrite E.
Qed.

Lemma X1_witness :
main {| host := Example.www; bind_ok := false; cert_chain_ok := true;
        cert_chain_error := SSLError; stdout_unicode := true;
        events := [Connection [Example.request_of "GET / HTTP/1.1"]] |}
= (Exit 1, start).
Proof.
apply (X1_bind_failure
         {| host := Example.www; bind_ok := false; cert_chain_ok := true;
            cert_chain_error := SSLError; stdout_unicode := true;
            events := [Connection [Example.request_of "GET / HTTP/1.1"]] |});
  reflexivity.
Defined.

(** X2: when the files exist and the port is bound but the chain does not
  load, the exception of [load_cert_chain] leaves [run_server]:
  [ssl.SSLError] for what is no certificate or key, [PermissionError] or
  another [OSError] for a file that cannot be read. The listening
  socket is then open on port 8443, the TLS context has no certificate
  and the socket is not wrapped; the banner is not printed, nothing is
  served, and the process exits with status 1. *)
Theorem X2_cert_chain_failure m :
path_exists (host m) CERT_FILE = true ->
path_exists (host m) KEY_FILE = true ->
bind_ok m = true ->
cert_chain_ok m = false ->
is_Exception (cert_chain_error m) = true ->
run_server m =
  (Raises (cert_chain_error m),
   {| stdout := []; httpd_socket := Some ("", 8443%Z);
      context := Some []; wrapped := false; served := [] |})
/\ fst (main m) = Exit 1.
Proof.
intros C K Bd Ch X.
assert (E : run_server m =
            (Raises (cert_chain_error m),
             {| stdout := []; httpd_socket := Some ("", 8443%Z);
                context := Some []; wrapped := false; served := [] |})).
{ unfold run_server. rewrite C, K, Bd, Ch. reflexivity. }
split; [exact E|]. unfold main. rewrite E.
now destruct (cert_chain_error m).
Qed.

Lemma X2_witness :
run_server {| host := Example.www; bind_ok := true; cert_chain_ok := false;
              cert_chain_error := PermissionError; stdout_unicode := true;
              events := [Interrupt] |}
= (Raises PermissionError,
   {| stdout := []; httpd_socket := Some ("", 8443%Z);
      context := Some []; wrapped := false; served := [] |})
/\ fst (main {| host := Example.www; bind_ok := true;
                cert_chain_ok := false;
                cert_chain_error := PermissionError;
                stdout_unicode := true; events := [Interrupt] |})
   = Exit 1.
Proof.
apply (X2_cert_chain_failure
         {| host := Example.www; bind_ok := true; cert_chain_ok := false;
            cert_chain_error := PermissionError; stdout_unicode := true;
            events := [Interrupt] |});
  reflexivity.
Defined.

(** X3: a server that has started does not stop by itself: as long as no
  interrupt arrives, whatever the connections bring and however many
  handshakes fail, [serve_forever] is still waiting; every connection
  has been answered, the notice is not printed and the process runs. *)
Theorem X3_runs_until_interrupted m :
starts m ->
~ In Interrupt (events m) ->
run_server m = (Waits, serving (host m) (responses (host m) (events m)))
/\ fst (main m) = Running.
Proof.
intros S NI.
assert (E : run_server m =
            (Waits, serving (host m) (responses (host m) (events m)))).
{ rewrite (run_server_started m S), (serve_forever_waits _ _ _ NI).
  reflexivity. }
split; [exact E|]. unfold main. now rewrite E.
Qed.

Lemma X3_witness :
fst (main (Example.machine_of Example.www
             [Connection [Example.request_of "BREW /pot HTCPCP/1.0"];
              HandshakeFailed; Connection []]))
= Running.
Proof.
apply (X3_runs_until_interrupted
         (Example.machine_of Example.www
            [Connection [Example.request_of "BREW /pot HTCPCP/1.0"];
             HandshakeFailed; Connection []])).
- repeat split; reflexivity.
- intros [I | [I | [I | []]]]; discriminate.
Defined.

(** X4: the bytes served up to an interrupt are, connection by
  connection and in the order of arrival, what a handler made anew for
  the connection writes on its requests; a failed handshake leaves
  nothing, and what arrives after the interrupt is not answered. *)
Theorem X4_served_before_interrupt m before after :
starts m ->
events m = (before ++ Interrupt :: after)%list ->
~ In Interrupt before ->
served (snd (run_server m)) = responses (host m) before
/\ stdout (snd (run_server m)) = app (banner (host m)) [notice].
Proof.
intros S Ev NI.
rewrite (run_server_started m S), Ev, (serve_forever_until _ _ _ _ NI).
split; reflexivity.
Qed.

Lemma X4_witness :
served (snd (run_server
               (Example.machine_of Example.www
                  [Connection [Example.request_of "GET /index.html"];
                   HandshakeFailed; Interrupt;
                   Connection [Example.request_of "GET /index.html"]])))
= ["hello"].
Proof.
apply (X4_served_before_interrupt
         (Example.machine_of Example.www
            [Connection [Example.request_of "GET /index.html"];
             HandshakeFailed; Interrupt;
             Connection [Example.request_of "GET /index.html"]])
         [Connection [Example.request_of "GET /index.html"];
          HandshakeFailed]
         [Connection [Example.request_of "GET /index.html"]]).
- repeat split; reflexivity.
- reflexivity.
- intros [I | [I | []]]; discriminate.
Defined.

(** X5: failed handshakes do not show: the accept loop ends the same way
  and has served the same bytes when they are taken out of the
  arrivals. *)
Theorem X5_failed_handshakes_leave_no_trace hst evs p :
serve_forever hst (handshaken evs) p = serve_forever hst evs p.
Proof.
revert p. induction evs as [|e evs IH]; intros p; [reflexivity|].
destruct e as [requests| |]; cbn [handshaken filter].
- cbn [serve_forever].
  destruct (_handle_request_noblock hst (Connection requests) p)
    as ([| |] & p'); [apply IH | reflexivity | reflexivity].
- cbn [serve_forever _handle_request_noblock]. apply IH.
- reflexivity.
Qed.

(** X6: once the server has started, the notice "Server stopped" is
  among the lines printed exactly when an interrupt is among the
  arrivals. *)
Theorem X6_notice_iff_interrupt m :
starts m ->
(In notice (stdout (snd (run_server m))) <-> In Interrupt (events m)).
Proof.
intros S. rewrite (run_server_started m S). split.
- intros I.
  destruct (interrupt_or_not (events m)) as [Y|N];
    [exact Y|].
  rewrite (serve_forever_waits _ _ _ N) in I.
  cbn [snd stdout sending serving] in I.
  unfold banner, notice in I. cbn [In] in I.
  repeat (destruct I as [I|I]; [discriminate I|]). destruct I.
- intros I. destruct (first_interrupt _ I) as (before & after & Ev & N).
  rewrite Ev, (serve_forever_until _ _ _ _ N).
  cbn [snd stdout print sending serving]. apply in_or_app. right. now left.
Qed.

Lemma X6_witness :
In notice
   (stdout (snd (run_server (Example.machine_of Example.www [Interrupt]))))
<-> In Interrupt [Interrupt].
Proof.
apply (X6_notice_iff_interrupt (Example.machine_of Example.www [Interrupt])).
repeat split; reflexivity.
Defined.

(** X7: no request ends the process. It exits with status 1 exactly when
  the start-up fails with an exception: a file of the certificate is
  missing and the standard output cannot encode the first character of
  the diagnostic; or both files exist and the port cannot be bound, or
  the chain does not load, with an exception of the class [Exception]. *)
Theorem X7_exit_1_iff_startup_failure m :
fst (main m) = Exit 1
<-> (certificate_missing (host m) /\ stdout_unicode m = false)
    \/ (path_exists (host m) CERT_FILE = true
        /\ path_exists (host m) KEY_FILE = true
        /\ (bind_ok m = false
            \/ (bind_ok m = true /\ cert_chain_ok m = false
                /\ is_Exception (cert_chain_error m) = true))).
Proof.
assert (M : certificate_missing (host m) ->
            (fst (main m) = Exit 1 <-> stdout_unicode m = false)).
{ intros Miss. unfold main. destruct (stdout_unicode m) eqn:U.
  - rewrite (run_server_missing m Miss U). split; discriminate.
  - rewrite (run_server_missing_ascii m Miss U). now split. }
destruct (path_exists (host m) CERT_FILE) eqn:C.
2:{ assert (Miss : certificate_missing (host m)) by (left; exact C).
    rewrite (M Miss). split; [now left|].
    intros [(_ & U) | (X & _)]; [exact U | discriminate]. }
destruct (path_exists (host m) KEY_FILE) eqn:K.
2:{ assert (Miss : certificate_missing (host m)) by (right; exact K).
    rewrite (M Miss). split; [now left|].
    intros [(_ & U) | (_ & X & _)]; [exact U | discriminate]. }
assert (NM : ~ certificate_missing (host m)).
{ intros [X|X]; [rewrite C in X | rewrite K in X]; discriminate. }
destruct (bind_ok m) eqn:Bd.
2:{ destruct (run_server_unbound m C K Bd) as (_ & E). rewrite E.
    split; [intros _; right; repeat split; now left | reflexivity]. }
destruct (cert_chain_ok m) eqn:Ch.
2:{ destruct (run_server_unchained m C K Bd Ch) as (_ & E1 & E2).
    destruct (is_Exception (cert_chain_error m)) eqn:X.
    - rewrite (E1 eq_refl).
      split; [intros _; right; repeat split; now right | reflexivity].
    - assert (KI : cert_chain_error m = KeyboardInterrupt)
        by (destruct (cert_chain_error m); try discriminate; reflexivity).
      rewrite (E2 KI). split; [discriminate|].
      intros [(Miss & _) | (_ & _ & [Y | (_ & _ & Y)])];
        [now elim NM | discriminate | discriminate]. }
assert (S : starts m) by (repeat split; assumption).
assert (N : fst (main m) <> Exit 1).
{ unfold main. rewrite (run_server_started m S).
  destruct (interrupt_or_not (events m)) as [I|I].
  - destruct (first_interrupt _ I) as (before & after & Ev & NI).
    rewrite Ev, (serve_forever_until _ _ _ _ NI). discriminate.
  - rewrite (serve_forever_waits _ _ _ I). discriminate. }
split; [intros X; now elim N|].
intros [(Miss & _) | (_ & _ & [X | (_ & X & _)])];
  [now elim NM | discriminate | discriminate].
Qed.

Lemma X7_witness :
fst (main (Example.ascii_machine_of (Example.without [KEY_FILE]) []))
= Exit 1.
Proof.
apply (X7_exit_1_iff_startup_failure
         (Example.ascii_machine_of (Example.without [KEY_FILE]) [])).
left. split; [now right | reflexivity].
Defined.

End Loop.

(* ================================================================== *)
(** * The override of [end_headers], by itself *)

(** X8: on a handler whose request version is not HTTP/0.9, whatever is
    in its buffer and also when it has no buffer yet, [end_headers]
    returns; it has written the buffer, then its three header lines in
    the order Origin, Methods, Headers, then the blank line; the buffer
    is empty and nothing else of the handler has changed, the mark on the
    connection included. *)
Theorem X8_end_headers_block h :
  request_version h <> "HTTP/0.9" ->
  MyHTTPRequestHandler.end_headers h =
  Ok tt
    (with_headers_buffer (Some [])
       (with_wfile (wfile h ++ Py.join "" (buffer_of h) ++ cors_block) h)).
Proof.
  intros V. apply String.eqb_neq in V.
  rewrite (my_end_headers_live h V). apply f_equal.
  apply handler_ext; try reflexivity.
  cbn [wfile with_wfile with_headers_buffer].
  rewrite wfile_flushed, !buffer_of_push, !wfile_push, !join_app.
  unfold cors_block, BaseHTTPRequestHandler.header_line.
  rewrite !join_cons. cbn [Py.join].
  rewrite !append_assoc, !append_nil_r. reflexivity.
Qed.

Lemma X8_witness :
  MyHTTPRequestHandler.end_headers
    (parsed (Example.request_of "GET / HTTP/1.1") [] "GET" "/" "HTTP/1.1" [])
  = Ok tt
      (with_headers_buffer (Some [])
         (with_wfile cors_block
            (parsed (Example.request_of "GET / HTTP/1.1") [] "GET" "/"
               "HTTP/1.1" []))).
Proof.
  apply (X8_end_headers_block
           (parsed (Example.request_of "GET / HTTP/1.1") [] "GET" "/"
              "HTTP/1.1" [])).
  discriminate.
Defined.

(** X9: on a handler whose request version is HTTP/0.9, [end_headers]
    writes nothing and buffers nothing: the handler is left as it was. *)
Theorem X9_end_headers_silent_under_http09 h :
  request_version h = "HTTP/0.9" ->
  MyHTTPRequestHandler.end_headers h = Ok tt h.
Proof.
  intros V. apply my_end_headers_dead. now apply String.eqb_eq.
Qed.

Lemma X9_witness :
  MyHTTPRequestHandler.end_headers
    (parsed (Example.request_of "GET /") [] "GET" "/" "HTTP/0.9" [])
  = Ok tt (parsed (Example.request_of "GET /") [] "GET" "/" "HTTP/0.9" []).
Proof.
  apply (X9_end_headers_silent_under_http09
           (parsed (Example.request_of "GET /") [] "GET" "/" "HTTP/0.9" [])).
  reflexivity.
Defined.

(* ================================================================== *)
(** * The branches of [send_head], one by one *)

Section Branches.

Import Response.
Variable host : Host.

Lemma list_directory_denied q h :
live h -> buffer_of h = [] ->
listdir host q = None ->
SimpleHTTPRequestHandler.list_directory host
  MyHTTPRequestHandler.end_headers q h =
Ok None
  (answered
     (let body :=
        error_body HTTPStatus.NOT_FOUND "No permission to list directory"
          (HTTPStatus.description HTTPStatus.NOT_FOUND) in
      render HTTPStatus.NOT_FOUND "No permission to list directory"
        (error_headers host body ++ cors_headers)
        (if is_HEAD h then "" else body))
     true h).
Proof.
intros L B D.
unfold SimpleHTTPRequestHandler.list_directory. rewrite D.
now apply file_not_found_live.
Qed.

(** [send_head] on a path that is not a directory, and on a directory
  asked for with the slash at the end. *)
Lemma send_head_not_dir h :
path_isdir host (MyHTTPRequestHandler.translate_path host (path h)) = false ->
MyHTTPRequestHandler.send_head host h =
SimpleHTTPRequestHandler.send_head_file host
  MyHTTPRequestHandler.end_headers
  (MyHTTPRequestHandler.translate_path host (path h)) h.
Proof.
intros D.
unfold MyHTTPRequestHandler.send_head, SimpleHTTPRequestHandler.send_head.
rewrite bind_get.
unfold MyHTTPRequestHandler.translate_path in *.
unfold SimpleHTTPRequestHandler.self_path.
now rewrite D.
Qed.

Lemma send_head_dir parts h :
path_isdir host (MyHTTPRequestHandler.translate_path host (path h)) = true ->
urlsplit host (path h) = Some parts ->
Py.endswith "/" (sr_path parts) = true ->
let q := MyHTTPRequestHandler.translate_path host (path h) in
MyHTTPRequestHandler.send_head host h =
if path_isfile host (Py.path_join q "index.html") then
  SimpleHTTPRequestHandler.send_head_file host
    MyHTTPRequestHandler.end_headers (Py.path_join q "index.html") h
else if path_isfile host (Py.path_join q "index.htm") then
  SimpleHTTPRequestHandler.send_head_file host
    MyHTTPRequestHandler.end_headers (Py.path_join q "index.htm") h
else
  SimpleHTTPRequestHandler.list_directory host
    MyHTTPRequestHandler.end_headers q h.
Proof.
intros D U S q. subst q.
unfold MyHTTPRequestHandler.send_head, SimpleHTTPRequestHandler.send_head.
rewrite bind_get.
unfold MyHTTPRequestHandler.translate_path in *.
unfold SimpleHTTPRequestHandler.self_path.
rewrite D, U, S. cbn [negb].
destruct (path_isfile host _); [reflexivity|].
destruct (path_isfile host _); reflexivity.
Qed.



Lemma do_GET_send_head h f h1 :
MyHTTPRequestHandler.send_head host h = Ok f h1 ->
MyHTTPRequestHandler.do_GET host h =
Ok tt match f with
      | Some data => with_wfile (wfile h1 ++ data) h1
      | None => h1
      end.
Proof.
intros E. rewrite <- my_do_GET_eq.
unfold SimpleHTTPRequestHandler.do_GET.
rewrite run_bind, my_send_head_eq, E. now destruct f.
Qed.

Lemma do_HEAD_send_head h f h1 :
MyHTTPRequestHandler.send_head host h = Ok f h1 ->
MyHTTPRequestHandler.do_HEAD host h = Ok tt h1.
Proof.
intros E. rewrite <- my_do_HEAD_eq.
unfold SimpleHTTPRequestHandler.do_HEAD.
now rewrite run_bind, my_send_head_eq, E.
Qed.

Lemma do_GET_raise h e h1 :
MyHTTPRequestHandler.send_head host h = Raise e h1 ->
MyHTTPRequestHandler.do_GET host h = Raise e h1.
Proof.
intros E. rewrite <- my_do_GET_eq.
unfold SimpleHTTPRequestHandler.do_GET.
now rewrite run_bind, my_send_head_eq, E.
Qed.

Lemma do_HEAD_raise h e h1 :
MyHTTPRequestHandler.send_head host h = Raise e h1 ->
MyHTTPRequestHandler.do_HEAD host h = Raise e h1.
Proof.
intros E. rewrite <- my_do_HEAD_eq.
unfold SimpleHTTPRequestHandler.do_HEAD.
now rewrite run_bind, my_send_head_eq, E.
Qed.

(** [send_head] on a directory whose address [urlsplit] does not take,
  and [list_directory] when the page cannot be encoded. *)
Lemma send_head_unsplit h :
path_isdir host (MyHTTPRequestHandler.translate_path host (path h)) = true ->
urlsplit host (path h) = None ->
MyHTTPRequestHandler.send_head host h = Raise ValueError h.
Proof.
intros D U.
unfold MyHTTPRequestHandler.send_head, SimpleHTTPRequestHandler.send_head.
rewrite bind_get.
unfold MyHTTPRequestHandler.translate_path in *.
unfold SimpleHTTPRequestHandler.self_path.
now rewrite D, U.
Qed.

Lemma list_directory_garbled q entries h :
listdir host q = Some entries ->
directory_listing host q (path h) entries = None ->
SimpleHTTPRequestHandler.list_directory host
  MyHTTPRequestHandler.end_headers q h = Raise UnicodeEncodeError h.
Proof.
intros Ls En.
unfold SimpleHTTPRequestHandler.list_directory.
rewrite Ls, bind_get.
unfold SimpleHTTPRequestHandler.self_path.
now rewrite En.
Qed.


End Branches.

(* ================================================================== *)
(** * Directories, dates and methods *)

Section Requests.

Import Response.















End Requests.

(* ================================================================== *)
(** * Request lines the server does not take *)

Section RequestLine.

Import Response.

Lemma status_of_error_body code message explain :
status_of (error_body code message explain) = None.
Proof. reflexivity. Qed.

(** [handle_one_request] up to the call of [parse_request]. *)
Lemma handle_one_request_reads host r rest :
(Py.len (line r) <= 65536)%Z ->
line r <> "" ->
MyHTTPRequestHandler.handle_one_request host
  (MyHTTPRequestHandler.new (r :: rest))
= (ok <- MyHTTPRequestHandler.parse_request host (header_block r) ;;
   if negb ok then ret tt
   else
     h <- get ;;
     let command := match command h with Some c => c | None => "" end in
     match MyHTTPRequestHandler.getattr host ("do_" ++ command) with
     | None =>
         MyHTTPRequestHandler.send_error host HTTPStatus.NOT_IMPLEMENTED
           (Some ("Unsupported method (" ++ Py.repr command ++ ")")) None
     | Some method => method
     end) (fresh r rest).
Proof.
intros Len NE.
unfold MyHTTPRequestHandler.handle_one_request,
  BaseHTTPRequestHandler.handle_one_request.
rewrite bind_get.
cbn [rfile MyHTTPRequestHandler.new]. assign.
replace (65536 <? Py.len (line r))%Z with false
  by (symmetry; apply Z.ltb_ge; exact Len).
apply String.eqb_neq in NE. rewrite NE.
rewrite my_parse_request_eq, my_send_error_eq. reflexivity.
Qed.

(** [parse_request] up to the look at the words. *)
Lemma parse_request_resets host block h :
MyHTTPRequestHandler.parse_request host block h
= (let words := Py.split_ws (request_line_of h) in
   if (length words =? 0)%nat then ret false
   else
     ok <- (if (3 <=? length words)%nat
            then BaseHTTPRequestHandler.parse_request_version host
                   MyHTTPRequestHandler.server_version
                   MyHTTPRequestHandler.end_headers words
            else ret true) ;;
     if negb ok then ret false
     else if negb ((2 <=? length words)%nat && (length words <=? 3)%nat)
     then
       MyHTTPRequestHandler.send_error host HTTPStatus.BAD_REQUEST
         (Some ("Bad request syntax (" ++ Py.repr (request_line_of h) ++ ")"))
         None ;;
       ret false
     else
       let command := nth 0 words "" in
       let url := nth 1 words "" in
       ok <- (if (length words =? 2)%nat then
                set_close_connection true ;;
                if negb (command =? "GET") then
                  MyHTTPRequestHandler.send_error host
                    HTTPStatus.BAD_REQUEST
                    (Some ("Bad HTTP/0.9 request type ("
                           ++ Py.repr command ++ ")")) None ;;
                  ret false
                else ret true
              else ret true) ;;
       if negb ok then ret false
       else
         set_command (Some command) ;;
         set_path url ;;
         when (Py.startswith "//" url)
           (set_path ("/" ++ Py.lstrip (Ascii.eqb "/") url)) ;;
         BaseHTTPRequestHandler.parse_request_headers host
           MyHTTPRequestHandler.server_version
           MyHTTPRequestHandler.end_headers block) (reset h).
Proof.
unfold MyHTTPRequestHandler.parse_request,
  BaseHTTPRequestHandler.parse_request.
assign. rewrite bind_get. cbv zeta.
cbn [raw_requestline with_close_connection with_request_version
       with_command].
assign. rewrite my_send_error_eq. reflexivity.
Qed.

Lemma words_nonempty r :
words_of r <> [] -> line r <> "".
Proof. intros W E. apply W. unfold words_of. now rewrite E. Qed.

(** The state when the words of the line are looked at. *)
Lemma is_HEAD_reset r rest : is_HEAD (reset (fresh r rest)) = false.
Proof. reflexivity. Qed.

Lemma dead_reset r rest :
(request_version (reset (fresh r rest)) =? "HTTP/0.9") = true.
Proof. reflexivity. Qed.

Lemma wfile_reset r rest : wfile (reset (fresh r rest)) = "".
Proof. reflexivity. Qed.

(** An error found before the version of the request is recorded: the
  page of the error is all that is sent. *)
Lemma plain_error host code message r rest :
has_body code = true ->
(MyHTTPRequestHandler.send_error host code (Some message) None ;;
 ret false) (reset (fresh r rest))
= Ok false
    (answered_plain
       (error_body code message (HTTPStatus.description code))
       true (reset (fresh r rest))).
Proof.
intros B.
rewrite run_bind,
  (send_error_dead host code (Some message) None _ (dead_reset r rest) B).
reflexivity.
Qed.

(** X16: a request line of three words or more whose last word is not a
  version [HTTP/major.minor] is answered by the page of the error 400
  "Bad request version" alone, without status line and headers, the
  CORS headers included. *)
Theorem X16_bad_request_version host r rest :
(Py.len (line r) <= 65536)%Z ->
(3 <= length (words_of r))%nat ->
BaseHTTPRequestHandler.parse_version_number host (last (words_of r) "") = None ->
exists h',
  MyHTTPRequestHandler.handle_one_request host
    (MyHTTPRequestHandler.new (r :: rest)) = Ok tt h'
  /\ wfile h' =
     error_body HTTPStatus.BAD_REQUEST
       ("Bad request version (" ++ Py.repr (last (words_of r) "") ++ ")")
       "Bad request syntax or unsupported method"
  /\ status_of (wfile h') = None.
Proof.
intros Len W3 Vn.
assert (NE : line r <> "").
{ apply words_nonempty. intros E. rewrite E in W3. cbn in W3. lia. }
rewrite (handle_one_request_reads host r rest Len NE), run_bind,
  parse_request_resets.
cbv zeta. change (request_line_of (fresh r rest))
  with (Py.rstrip (Py.is_char_of Py.CRLF) (line r)).
fold (words_of r).
replace (length (words_of r) =? 0)%nat with false
  by (symmetry; apply Nat.eqb_neq; lia).
replace (3 <=? length (words_of r))%nat with true
  by (symmetry; apply Nat.leb_le; lia).
rewrite run_bind.
unfold BaseHTTPRequestHandler.parse_request_version.
rewrite Vn, my_send_error_eq.
rewrite (plain_error host HTTPStatus.BAD_REQUEST
           ("Bad request version (" ++ Py.repr (last (words_of r) "") ++ ")")
           r rest eq_refl).
cbn [negb]. unfold ret.
eexists. split; [reflexivity|].
rewrite wfile_answered_plain, wfile_reset. cbn [String.append].
split; [reflexivity | apply status_of_error_body].
Qed.

Lemma X16_witness :
status_of (Example.answer "GET /index.html FTP/1.1") = None.
Proof.
destruct (X16_bad_request_version Example.www
            (Example.request_of "GET /index.html FTP/1.1") [])
  as (h' & E & _ & S).
- vm_compute. discriminate.
- vm_compute. lia.
- reflexivity.
- unfold Example.answer. rewrite E. exact S.
Defined.


Lemma plain_error_at host code message h :
(request_version h =? "HTTP/0.9") = true ->
is_HEAD h = false ->
has_body code = true ->
(MyHTTPRequestHandler.send_error host code (Some message) None ;;
 ret false) h
= Ok false
    (answered_plain
       (error_body code message (HTTPStatus.description code)) true h).
Proof.
intros D NH B.
rewrite run_bind, (send_error_dead host code (Some message) None h D B), NH.
reflexivity.
Qed.



(** X19: a request line of two words whose first is not [GET] is
  answered by the page of the error 400 "Bad HTTP/0.9 request type"
  alone, without status line and headers. *)
Theorem X19_http09_other_command host r rest command url :
(Py.len (line r) <= 65536)%Z ->
words_of r = [command; url] ->
command <> "GET" ->
exists h',
  MyHTTPRequestHandler.handle_one_request host
    (MyHTTPRequestHandler.new (r :: rest)) = Ok tt h'
  /\ wfile h' =
     error_body HTTPStatus.BAD_REQUEST
       ("Bad HTTP/0.9 request type (" ++ Py.repr command ++ ")")
       "Bad request syntax or unsupported method"
  /\ status_of (wfile h') = None.
Proof.
intros Len W G.
assert (NE : line r <> "").
{ apply words_nonempty. now rewrite W. }
rewrite (handle_one_request_reads host r rest Len NE), run_bind,
  parse_request_resets.
cbv zeta. change (request_line_of (fresh r rest))
  with (Py.rstrip (Py.is_char_of Py.CRLF) (line r)).
fold (words_of r). rewrite W.
cbn [length Nat.eqb Nat.leb negb andb nth].
rewrite bind_ret. cbn [negb]. rewrite bind_assoc. assign.
apply String.eqb_neq in G. rewrite G. cbn [negb].
rewrite bind_assoc.
rewrite run_bind,
  (send_error_dead host HTTPStatus.BAD_REQUEST
     (Some ("Bad HTTP/0.9 request type (" ++ Py.repr command ++ ")"))
     None (with_close_connection true (reset (fresh r rest)))
     eq_refl eq_refl).
rewrite bind_ret. cbn [negb]. unfold ret.
eexists. split; [reflexivity|].
rewrite wfile_answered_plain.
split; [reflexivity | apply status_of_error_body].
Qed.

Lemma X19_witness :
Example.answer "HEAD /index.html"
= error_body HTTPStatus.BAD_REQUEST
    "Bad HTTP/0.9 request type ('HEAD')"
    "Bad request syntax or unsupported method".
Proof.
destruct (X19_http09_other_command Example.www
            (Example.request_of "HEAD /index.html") []
            "HEAD" "/index.html")
  as (h' & E & W & _).
- vm_compute. discriminate.
- reflexivity.
- discriminate.
- unfold Example.answer. rewrite E. exact W.
Defined.


(** X21: a request line longer than 65536 bytes is not parsed: it is
  answered 414 Request-URI Too Long, with status line and headers, the
  three CORS headers last, and the page of the error as body. *)
Theorem X21_request_line_too_long host r rest :
(65536 < Py.len (line r))%Z ->
let body :=
  error_body HTTPStatus.REQUEST_URI_TOO_LONG "Request-URI Too Long"
    "URI is too long" in
exists h',
  MyHTTPRequestHandler.handle_one_request host
    (MyHTTPRequestHandler.new (r :: rest)) = Ok tt h'
  /\ wfile h' =
     render HTTPStatus.REQUEST_URI_TOO_LONG "Request-URI Too Long"
       (error_headers host body ++ cors_headers) body
  /\ command h' = Some "".
Proof.
intros Len body.
unfold MyHTTPRequestHandler.handle_one_request,
  BaseHTTPRequestHandler.handle_one_request.
rewrite bind_get.
cbn [rfile MyHTTPRequestHandler.new]. assign.
apply Z.ltb_lt in Len. rewrite Len. assign.
rewrite my_send_error_eq.
match goal with
| |- context [MyHTTPRequestHandler.send_error _ _ _ _ ?x] => set (h1 := x)
end.
rewrite (send_error_live host HTTPStatus.REQUEST_URI_TOO_LONG None None h1
           eq_refl eq_refl eq_refl).
eexists. split; [reflexivity|]. split; reflexivity.
Qed.

Lemma X21_witness :
exists h',
  MyHTTPRequestHandler.handle_one_request Example.www
    (MyHTTPRequestHandler.new [long_request]) = Ok tt h'
  /\ status_of (wfile h') = Some 414%Z.
Proof.
destruct (X21_request_line_too_long Example.www long_request [])
  as (h' & E & W & _).
- vm_compute. reflexivity.
- exists h'. split; [exact E|]. rewrite W. apply status_of_render.
Defined.

(** X22: a connection that delivers a request line without a word, blank
  or empty, gets no byte back, and is marked for closing. *)
Theorem X22_blank_line_unanswered host r rest :
(Py.len (line r) <= 65536)%Z ->
words_of r = [] ->
exists h',
  MyHTTPRequestHandler.handle_one_request host
    (MyHTTPRequestHandler.new (r :: rest)) = Ok tt h'
  /\ wfile h' = ""
  /\ close_connection h' = true.
Proof.
intros Len W.
destruct (String.eqb_spec (line r) "") as [E|NE].
- unfold MyHTTPRequestHandler.handle_one_request,
    BaseHTTPRequestHandler.handle_one_request.
  rewrite bind_get.
  cbn [rfile MyHTTPRequestHandler.new]. assign.
  replace (65536 <? Py.len (line r))%Z with false
    by (symmetry; apply Z.ltb_ge; exact Len).
  rewrite E. cbn [String.eqb].
  eexists. split; [reflexivity|]. split; reflexivity.
- rewrite (handle_one_request_reads host r rest Len NE), run_bind,
    parse_request_resets.
  cbv zeta. change (request_line_of (fresh r rest))
    with (Py.rstrip (Py.is_char_of Py.CRLF) (line r)).
  fold (words_of r). rewrite W.
  cbn [length Nat.eqb negb]. unfold ret.
  eexists. split; [reflexivity|]. split; reflexivity.
Qed.

Lemma X22_witness : Example.answer "  " = "".
Proof.
destruct (X22_blank_line_unanswered Example.www (Example.request_of "  ") [])
  as (h' & E & W & _).
- vm_compute. discriminate.
- reflexivity.
- unfold Example.answer. rewrite E. exact W.
Defined.









End RequestLine.

(* ================================================================== *)
(** * One request on each connection *)

Section Frame.

Lemma blind_ret {A} (a : A) : blind (ret a).
Proof. intros v h. reflexivity. Qed.

Lemma blind_raise {A} e : blind (@raise A e).
Proof. intros v h. reflexivity. Qed.

Lemma blind_bind {A B} (m : M A) (k : A -> M B) :
blind m -> (forall a, blind (k a)) -> blind (bind m k).
Proof.
intros Bm Bk v h. unfold bind. rewrite (Bm v h).
destruct (m h) as [a h1|e h1]; cbn [on_state]; [apply Bk | reflexivity].
Qed.

(** A step that looks at the handler, when what follows does not depend
  on the requests to come. *)
Lemma blind_get_bind {B} (k : handler -> M B) :
(forall v h, k (with_rfile v h) = k h) ->
(forall h, blind (k h)) ->
blind (bind get k).
Proof.
intros Same Bk v h. unfold bind, get. rewrite Same. apply Bk.
Qed.

Lemma blind_when b m : blind m -> blind (when b m).
Proof. intros K. destruct b; [exact K | apply blind_ret]. Qed.

Lemma blind_set_wfile v : blind (set_wfile v).
Proof. intros w h. reflexivity. Qed.
Lemma blind_set_raw_requestline v : blind (set_raw_requestline v).
Proof. intros w h. reflexivity. Qed.
Lemma blind_set_requestline v : blind (set_requestline v).
Proof. intros w h. reflexivity. Qed.
Lemma blind_set_request_version v : blind (set_request_version v).
Proof. intros w h. reflexivity. Qed.
Lemma blind_set_command v : blind (set_command v).
Proof. intros w h. reflexivity. Qed.
Lemma blind_set_path v : blind (set_path v).
Proof. intros w h. reflexivity. Qed.
Lemma blind_set_headers v : blind (set_headers v).
Proof. intros w h. reflexivity. Qed.
Lemma blind_set_close_connection v : blind (set_close_connection v).
Proof. intros w h. reflexivity. Qed.
Lemma blind_set_headers_buffer v : blind (set_headers_buffer v).
Proof. intros w h. reflexivity. Qed.

End Frame.

Create HintDb blind.

#[export] Hint Resolve blind_ret blind_raise blind_set_wfile
  blind_set_raw_requestline blind_set_requestline blind_set_request_version
  blind_set_command blind_set_path blind_set_headers
  blind_set_close_connection blind_set_headers_buffer : blind.

(** A method is blind to the requests to come when its steps are. *)
Ltac blind_step :=
  match goal with
  | |- blind (bind get _) =>
      apply blind_get_bind; [intros; reflexivity | intro]
  | |- blind (bind _ _) => apply blind_bind; [|intro]
  | |- blind (when _ _) => apply blind_when
  | |- blind (match ?x with _ => _ end) => destruct x eqn:?
  | |- blind _ => solve [auto with blind]
  end.

Ltac blind := cbv zeta; repeat blind_step.

Section FrameMethods.

Variable host : Host.

Lemma blind_wfile_write data : blind (wfile_write data).
Proof. unfold wfile_write. blind. Qed.
Hint Resolve blind_wfile_write : blind.

Lemma blind_send_response_only code message :
blind (BaseHTTPRequestHandler.send_response_only code message).
Proof. unfold BaseHTTPRequestHandler.send_response_only. blind. Qed.
Hint Resolve blind_send_response_only : blind.

Lemma blind_send_header keyword value :
blind (BaseHTTPRequestHandler.send_header keyword value).
Proof. unfold BaseHTTPRequestHandler.send_header. blind. Qed.
Hint Resolve blind_send_header : blind.

Lemma blind_flush_headers : blind BaseHTTPRequestHandler.flush_headers.
Proof. unfold BaseHTTPRequestHandler.flush_headers. blind. Qed.
Hint Resolve blind_flush_headers : blind.

Lemma blind_base_end_headers : blind BaseHTTPRequestHandler.end_headers.
Proof. unfold BaseHTTPRequestHandler.end_headers. blind. Qed.
Hint Resolve blind_base_end_headers : blind.

Lemma blind_end_headers : blind MyHTTPRequestHandler.end_headers.
Proof.
unfold MyHTTPRequestHandler.end_headers, MyHTTPRequestHandler.send_header.
blind.
Qed.
Hint Resolve blind_end_headers : blind.

Lemma blind_send_response code message :
blind
  (BaseHTTPRequestHandler.send_response host
     SimpleHTTPRequestHandler.server_version code message).
Proof. unfold BaseHTTPRequestHandler.send_response. blind. Qed.
Hint Resolve blind_send_response : blind.

Lemma blind_send_error code message explain :
blind (MyHTTPRequestHandler.send_error host code message explain).
Proof.
unfold MyHTTPRequestHandler.send_error, BaseHTTPRequestHandler.send_error.
blind.
Qed.
Hint Resolve blind_send_error : blind.

Lemma blind_parse_request block :
blind (MyHTTPRequestHandler.parse_request host block).
Proof.
unfold MyHTTPRequestHandler.parse_request,
  BaseHTTPRequestHandler.parse_request,
  BaseHTTPRequestHandler.parse_request_version,
  BaseHTTPRequestHandler.parse_request_headers,
  BaseHTTPRequestHandler.handle_expect_100.
rewrite my_send_error_eq.
blind.
Qed.
Hint Resolve blind_parse_request : blind.

Lemma blind_send_head_file q :
blind
  (SimpleHTTPRequestHandler.send_head_file host
     MyHTTPRequestHandler.end_headers q).
Proof.
unfold SimpleHTTPRequestHandler.send_head_file,
  SimpleHTTPRequestHandler.send_error,
  SimpleHTTPRequestHandler.send_response,
  SimpleHTTPRequestHandler.send_header.
rewrite my_send_error_eq.
blind.
Qed.
Hint Resolve blind_send_head_file : blind.

Lemma blind_list_directory q :
blind
  (SimpleHTTPRequestHandler.list_directory host
     MyHTTPRequestHandler.end_headers q).
Proof.
unfold SimpleHTTPRequestHandler.list_directory,
  SimpleHTTPRequestHandler.send_error,
  SimpleHTTPRequestHandler.send_response,
  SimpleHTTPRequestHandler.send_header.
rewrite my_send_error_eq.
blind.
Qed.
Hint Resolve blind_list_directory : blind.

Lemma blind_send_head : blind (MyHTTPRequestHandler.send_head host).
Proof.
unfold MyHTTPRequestHandler.send_head, SimpleHTTPRequestHandler.send_head,
  SimpleHTTPRequestHandler.send_response,
  SimpleHTTPRequestHandler.send_header.
blind.
Qed.
Hint Resolve blind_send_head : blind.

Lemma blind_do_GET : blind (MyHTTPRequestHandler.do_GET host).
Proof.
unfold MyHTTPRequestHandler.do_GET, SimpleHTTPRequestHandler.do_GET,
  SimpleHTTPRequestHandler.copyfile.
rewrite my_send_head_eq. blind.
Qed.

Lemma blind_do_HEAD : blind (MyHTTPRequestHandler.do_HEAD host).
Proof.
unfold MyHTTPRequestHandler.do_HEAD, SimpleHTTPRequestHandler.do_HEAD.
rewrite my_send_head_eq. blind.
Qed.

Lemma blind_getattr mname method :
MyHTTPRequestHandler.getattr host mname = Some method ->
blind method.
Proof.
unfold MyHTTPRequestHandler.getattr, SimpleHTTPRequestHandler.getattr.
rewrite my_do_GET_eq, my_do_HEAD_eq.
destruct (mname =? "do_GET").
{ intros E. injection E as <-. apply blind_do_GET. }
destruct (mname =? "do_HEAD"); [|discriminate].
intros E. injection E as <-. apply blind_do_HEAD.
Qed.

(** After the request line is read, [handle_one_request] is blind to the
  requests to come. *)
Lemma handle_one_request_after_read r :
exists m : M unit,
  blind m
  /\ forall rest,
       MyHTTPRequestHandler.handle_one_request host
         (MyHTTPRequestHandler.new (r :: rest))
       = m (with_rfile rest (MyHTTPRequestHandler.new [r])).
Proof.
eexists. split.
2:{ intros rest.
    unfold MyHTTPRequestHandler.handle_one_request,
      BaseHTTPRequestHandler.handle_one_request.
    rewrite bind_get. cbn [rfile MyHTTPRequestHandler.new].
    rewrite bind_set_rfile, my_send_error_eq, my_parse_request_eq.
    reflexivity. }
blind. eapply blind_getattr. eassumption.
Qed.

End FrameMethods.

Lemma on_state_twice {A} v w (x : result A) :
  on_state (with_rfile v) (on_state (with_rfile w) x)
  = on_state (with_rfile v) x.
Proof. now destruct x. Qed.

(** X23: on a connection, the first request is dealt with and no other:
    [handle] does on the connection what it does when the first request
    is alone on it, and leaves the requests after the first unread,
    whatever they are and whatever the first says of keeping the
    connection. It returns with the connection marked for closing, or an
    exception of the class [Exception] leaves it; either way the bytes
    written are the same. *)
Theorem X23_first_request_only host r rest :
  MyHTTPRequestHandler.handle host (MyHTTPRequestHandler.new (r :: rest))
  = on_state (with_rfile rest)
      (MyHTTPRequestHandler.handle host (MyHTTPRequestHandler.new [r]))
  /\ rfile
       (state_of
          (MyHTTPRequestHandler.handle host (MyHTTPRequestHandler.new [r])))
     = []
  /\ response_to host (r :: rest) = response_to host [r]
  /\ match MyHTTPRequestHandler.handle host (MyHTTPRequestHandler.new [r])
     with
     | Ok _ h1 => close_connection h1 = true
     | Raise e _ => is_Exception e = true
     end.
Proof.
  destruct (handle_one_request_after_read host r) as (m & Bm & Em).
  pose proof (handle_spec host (MyHTTPRequestHandler.new [r]) eq_refl) as O1.
  pose proof (handle_spec host (MyHTTPRequestHandler.new (r :: rest)) eq_refl)
    as O2.
  change (with_close_connection true (MyHTTPRequestHandler.new [r]))
    with (MyHTTPRequestHandler.new [r]) in O1.
  change (with_close_connection true (MyHTTPRequestHandler.new (r :: rest)))
    with (MyHTTPRequestHandler.new (r :: rest)) in O2.
  rewrite Em in O1, O2.
  rewrite (Bm [] (MyHTTPRequestHandler.new [r])) in O1.
  rewrite (Bm rest (MyHTTPRequestHandler.new [r])) in O2.
  pose proof (handle_ends host (MyHTTPRequestHandler.new [r]) eq_refl) as C.
  unfold response_to. rewrite O2. rewrite O1 in C |- *.
  rewrite on_state_twice.
  split; [reflexivity|].
  destruct (m (MyHTTPRequestHandler.new [r])) as [u h0|e h0];
    cbn [on_state state_of] in C |- *.
  - split; [reflexivity|]. split; [reflexivity | exact C].
  - split; [reflexivity|]. split; [reflexivity | exact C].
Qed.

(* ================================================================== *)
(** * [HEAD] and [GET] *)

Section Twins.

Import Response.
Variable host : Host.

Lemma twin_not_found message hg hh :
twins hg hh ->
twin_heads
  ((SimpleHTTPRequestHandler.send_error host
      MyHTTPRequestHandler.end_headers HTTPStatus.NOT_FOUND
      (Some message) None ;; ret (@None string)) hg)
  ((SimpleHTTPRequestHandler.send_error host
      MyHTTPRequestHandler.end_headers HTTPStatus.NOT_FOUND
      (Some message) None ;; ret (@None string)) hh)
  hg hh.
Proof.
intros (Lg & Lh & Bg & Bh & _ & _ & _ & Ng & Nh).
rewrite (file_not_found_live host message hg Lg Bg),
  (file_not_found_live host message hh Lh Bh).
cbv zeta. rewrite Ng, Nh.
left. eexists _, _, _, _, _, _. split; reflexivity.
Qed.




End Twins.



(* ================================================================== *)
(** * The query and the fragment of a request path *)

Lemma split1_app (sep : ascii) (a b : string) :
  Py.contains sep a = false ->
  nth 0 (Py.split1 sep (a ++ b)) "" = a ++ nth 0 (Py.split1 sep b) "".
Proof.
  induction a as [|c a IH]; intros N; [reflexivity|].
  cbn [Py.contains] in N. apply orb_false_elim in N as (Nc & Na).
  cbn [String.append Py.split1].
  rewrite Ascii.eqb_sym, Nc.
  specialize (IH Na).
  destruct (Py.split1 sep (a ++ b)) as [|w ws]; cbn [nth] in *.
  - now rewrite <- IH.
  - now rewrite IH.
Qed.

Lemma split1_whole (sep : ascii) (a : string) :
  Py.contains sep a = false -> nth 0 (Py.split1 sep a) "" = a.
Proof.
  intros N. rewrite <- (append_nil_r a) at 1.
  rewrite (split1_app sep a "" N). cbn [Py.split1 nth].
  apply append_nil_r.
Qed.

Lemma split1_cut (sep : ascii) (a b : string) :
  Py.contains sep a = false ->
  nth 0 (Py.split1 sep (a ++ String sep b)) "" = a.
Proof.
  intros N. rewrite (split1_app sep a _ N). cbn [Py.split1].
  rewrite Ascii.eqb_refl. cbn [nth]. apply append_nil_r.
Qed.

(** X25: the query and the fragment of a request path have no part in
    the choice of the file: [translate_path] gives the same path when
    they are cut off. *)
Theorem X25_translate_path_drops_query host p q :
  Py.contains "?" p = false ->
  Py.contains "#" p = false ->
  MyHTTPRequestHandler.translate_path host (p ++ "?" ++ q)
    = MyHTTPRequestHandler.translate_path host p
  /\ MyHTTPRequestHandler.translate_path host (p ++ "#" ++ q)
     = MyHTTPRequestHandler.translate_path host p.
Proof.
  intros Nq Nf.
  assert (A : nth 0 (Py.split1 "#" (nth 0 (Py.split1 "?" (p ++ "?" ++ q)) ""))
                "" = p).
  { change (p ++ "?" ++ q) with (p ++ String "?" q).
    now rewrite (split1_cut "?" p q Nq), (split1_whole "#" p Nf). }
  assert (B : nth 0 (Py.split1 "#" (nth 0 (Py.split1 "?" (p ++ "#" ++ q)) ""))
                "" = p).
  { change (p ++ "#" ++ q) with (p ++ String "#" q).
    rewrite (split1_app "?" p _ Nq).
    cbn [Py.split1]. change (Ascii.eqb "#" "?") with false. cbv iota.
    destruct (Py.split1 "?" q) as [|w ws]; cbn [nth];
      now rewrite (split1_cut "#" p _ Nf). }
  assert (C : nth 0 (Py.split1 "#" (nth 0 (Py.split1 "?" p) "")) "" = p).
  { now rewrite (split1_whole "?" p Nq), (split1_whole "#" p Nf). }
  unfold MyHTTPRequestHandler.translate_path,
    SimpleHTTPRequestHandler.translate_path.
  cbv zeta. rewrite A, B, C. split; reflexivity.
Qed.

Lemma X25_witness :
  MyHTTPRequestHandler.translate_path Example.www "/index.html?v=2#top"
  = "/srv/www/index.html".
Proof.
  destruct (X25_translate_path_drops_query Example.www "/index.html"
              "v=2#top" eq_refl eq_refl) as (E & _).
  change ("/index.html" ++ "?" ++ "v=2#top") with "/index.html?v=2#top" in E.
  rewrite E. reflexivity.
Defined.

(* ================================================================== *)
(** * The headers of the request *)

Section Mates.

Import Response.
Variable host : Host.

Lemma mate_send_head_file q h1 h2 :
mates host h1 h2 ->
same_heads
  (SimpleHTTPRequestHandler.send_head_file host
     MyHTTPRequestHandler.end_headers q h1)
  (SimpleHTTPRequestHandler.send_head_file host
     MyHTTPRequestHandler.end_headers q h2)
  h1 h2.
Proof.
intros (L1 & L2 & B1 & B2 & _ & Cl & Hd & Nm).
destruct (Py.endswith "/" q) eqn:S.
{ rewrite (send_head_file_missing host q h1 L1 B1 (or_introl S)),
    (send_head_file_missing host q h2 L2 B2 (or_introl S)).
  cbv zeta. rewrite Hd.
  left. eexists _, _, _. split; reflexivity. }
destruct (open_rb host q) as [f| |unicode] eqn:O.
- destruct (SimpleHTTPRequestHandler.not_modified host (headers h1)
              (fstat f)) eqn:N.
  + rewrite (send_head_file_not_modified host q f h1 L1 B1 S O N).
    rewrite Nm in N.
    rewrite (send_head_file_not_modified host q f h2 L2 B2 S O N).
    rewrite Cl.
    left. eexists _, _, _. split; reflexivity.
  + rewrite (send_head_file_ok host q f h1 L1 B1 S O N).
    rewrite Nm in N.
    rewrite (send_head_file_ok host q f h2 L2 B2 S O N).
    rewrite Cl.
    left. eexists _, _, _. split; reflexivity.
- rewrite (send_head_file_missing host q h1 L1 B1 (or_intror O)),
    (send_head_file_missing host q h2 L2 B2 (or_intror O)).
  cbv zeta. rewrite Hd.
  left. eexists _, _, _. split; reflexivity.
- rewrite (send_head_file_invalid host q unicode h1 S O),
    (send_head_file_invalid host q unicode h2 S O).
  right. eexists. split; reflexivity.
Qed.

Lemma mate_list_directory q h1 h2 :
mates host h1 h2 ->
same_heads
  (SimpleHTTPRequestHandler.list_directory host
     MyHTTPRequestHandler.end_headers q h1)
  (SimpleHTTPRequestHandler.list_directory host
     MyHTTPRequestHandler.end_headers q h2)
  h1 h2.
Proof.
intros (L1 & L2 & B1 & B2 & P & Cl & Hd & _).
destruct (listdir host q) as [entries|] eqn:Ls.
- destruct (directory_listing host q (path h1) entries) as [listing|]
    eqn:En.
  + rewrite (list_directory_ok host q entries listing h1 L1 B1 Ls En).
    rewrite P in En.
    rewrite (list_directory_ok host q entries listing h2 L2 B2 Ls En).
    rewrite Cl.
    left. eexists _, _, _. split; reflexivity.
  + rewrite (list_directory_garbled host q entries h1 Ls En).
    rewrite P in En.
    rewrite (list_directory_garbled host q entries h2 Ls En).
    right. eexists. split; reflexivity.
- rewrite (list_directory_denied host q h1 L1 B1 Ls),
    (list_directory_denied host q h2 L2 B2 Ls).
  cbv zeta. rewrite Hd.
  left. eexists _, _, _. split; reflexivity.
Qed.

Lemma mate_send_head h1 h2 :
mates host h1 h2 ->
same_heads (MyHTTPRequestHandler.send_head host h1)
  (MyHTTPRequestHandler.send_head host h2) h1 h2.
Proof.
intros T.
pose proof T as (L1 & L2 & B1 & B2 & P & Cl & _ & _).
destruct (path_isdir host
            (MyHTTPRequestHandler.translate_path host (path h1))) eqn:D.
2:{ rewrite (send_head_not_dir host h1 D).
    rewrite P in D. rewrite (send_head_not_dir host h2 D).
    rewrite P. now apply mate_send_head_file. }
destruct (urlsplit host (path h1)) as [parts|] eqn:U.
2:{ rewrite (send_head_unsplit host h1 D U).
    rewrite P in D, U. rewrite (send_head_unsplit host h2 D U).
    right. eexists. split; reflexivity. }
destruct (Py.endswith "/" (sr_path parts)) eqn:S.
- rewrite (send_head_dir host parts h1 D U S).
  rewrite P in D, U. rewrite (send_head_dir host parts h2 D U S).
  cbv zeta. rewrite P.
  destruct (path_isfile host _); [now apply mate_send_head_file|].
  destruct (path_isfile host _); [now apply mate_send_head_file|].
  now apply mate_list_directory.
- rewrite (send_head_redirect host parts h1 L1 B1 D U S).
  rewrite P in D, U.
  rewrite (send_head_redirect host parts h2 L2 B2 D U S).
  rewrite Cl.
  left. eexists _, _, _. split; reflexivity.
Qed.

End Mates.

(** X26: the headers of a request have no part in the answer but through
    the date of [If-Modified-Since]: two requests with the same method,
    path and version whose headers give the same answer to the question
    whether a file was modified are answered by the same bytes, the CORS
    headers included, whatever [Origin], [Connection], [Expect] or the
    headers of a preflight say. When the path is one [open] or
    [urlsplit] does not take, or the page of the listing cannot be
    encoded, the same exception leaves the handler for both and nothing
    is sent. *)
Theorem X26_request_headers_ignored host r1 r2 rest1 rest2 command url version
    hs1 hs2 :
  request_line_is host r1 command url version hs1 ->
  request_line_is host r2 command url version hs2 ->
  (forall fs,
     SimpleHTTPRequestHandler.not_modified host hs1 fs
     = SimpleHTTPRequestHandler.not_modified host hs2 fs) ->
  (exists h1 h2,
     MyHTTPRequestHandler.handle_one_request host
       (MyHTTPRequestHandler.new (r1 :: rest1)) = Ok tt h1
     /\ MyHTTPRequestHandler.handle_one_request host
          (MyHTTPRequestHandler.new (r2 :: rest2)) = Ok tt h2
     /\ wfile h1 = wfile h2)
  \/ (exists e h1 h2,
        MyHTTPRequestHandler.handle_one_request host
          (MyHTTPRequestHandler.new (r1 :: rest1)) = Raise e h1
        /\ MyHTTPRequestHandler.handle_one_request host
             (MyHTTPRequestHandler.new (r2 :: rest2)) = Raise e h2
        /\ is_Exception e = true
        /\ wfile h1 = "" /\ wfile h2 = "").
Proof.
  intros R1 R2 Nm.
  pose proof R1 as (_ & _ & _ & V & _).
  apply String.eqb_neq in V.
  rewrite (handle_one_request_parsed host r1 rest1 command url version hs1 R1),
    (handle_one_request_parsed host r2 rest2 command url version hs2 R2).
  set (a := parsed r1 rest1 command url version hs1).
  set (b := parsed r2 rest2 command url version hs2).
  assert (T : mates host a b) by (repeat split; try reflexivity; assumption).
  pose proof (send_head_live host a V eq_refl) as X.
  pose proof (mate_send_head host a b T) as SH.
  unfold MyHTTPRequestHandler.getattr, SimpleHTTPRequestHandler.getattr.
  rewrite my_do_GET_eq, my_do_HEAD_eq.
  destruct ("do_" ++ command =? "do_GET").
  { destruct SH as [(out & f & close & Ea & Eb) | (e & Ea & Eb)].
    - left.
      rewrite (do_GET_send_head host a _ _ Ea),
        (do_GET_send_head host b _ _ Eb).
      eexists _, _. split; [reflexivity|]. split; [reflexivity|].
      destruct f; cbn [wfile with_wfile]; rewrite !wfile_answered;
        reflexivity.
    - right. rewrite Ea in X. destruct X as (X & _).
      rewrite (do_GET_raise host a _ _ Ea), (do_GET_raise host b _ _ Eb).
      exists e, a, b. repeat split. exact X. }
  destruct ("do_" ++ command =? "do_HEAD").
  { destruct SH as [(out & f & close & Ea & Eb) | (e & Ea & Eb)].
    - left.
      rewrite (do_HEAD_send_head host a _ _ Ea),
        (do_HEAD_send_head host b _ _ Eb).
      eexists _, _. split; [reflexivity|]. split; [reflexivity|].
      rewrite !wfile_answered. reflexivity.
    - right. rewrite Ea in X. destruct X as (X & _).
      rewrite (do_HEAD_raise host a _ _ Ea), (do_HEAD_raise host b _ _ Eb).
      exists e, a, b. repeat split. exact X. }
  left.
  rewrite (send_error_live host HTTPStatus.NOT_IMPLEMENTED
             (Some ("Unsupported method (" ++ Py.repr command ++ ")"))
             None a V eq_refl eq_refl),
    (send_error_live host HTTPStatus.NOT_IMPLEMENTED
       (Some ("Unsupported method (" ++ Py.repr command ++ ")"))
       None b V eq_refl eq_refl).
  eexists _, _. split; [reflexivity|]. split; [reflexivity|].
  rewrite !wfile_answered. reflexivity.
Qed.

Lemma X26_witness :
  exists h1 h2,
    MyHTTPRequestHandler.handle_one_request Example.www
      (MyHTTPRequestHandler.new
         [Variant.request_with "GET /index.html HTTP/1.1"
            [("Origin", "https://example.org");
             ("Connection", "keep-alive")]]) = Ok tt h1
    /\ MyHTTPRequestHandler.handle_one_request Example.www
         (MyHTTPRequestHandler.new
            [Example.request_of "GET /index.html HTTP/1.1"]) = Ok tt h2
    /\ wfile h1 = wfile h2.
Proof.
  destruct (X26_request_headers_ignored Example.www
              (Variant.request_with "GET /index.html HTTP/1.1"
                 [("Origin", "https://example.org");
                  ("Connection", "keep-alive")])
              (Example.request_of "GET /index.html HTTP/1.1")
              [] [] "GET" "/index.html" "HTTP/1.1"
              [("Origin", "https://example.org"); ("Connection", "keep-alive")]
              [])
    as [K | (e & h1 & h2 & E1 & _)].
  - repeat split; try reflexivity; try discriminate.
    exists (1, 1)%Z. split; reflexivity.
  - repeat split; try reflexivity; try discriminate.
    exists (1, 1)%Z. split; reflexivity.
  - intros fs. reflexivity.
  - exact K.
  - vm_compute in E1. discriminate.
Defined.

(* ================================================================== *)
(** * Request lines of one word, and of four or more *)

Section Syntax.

Import Response.

(** X27: a request line of one word is answered by the page of the
  error 400 "Bad request syntax" alone, with the line as [repr] prints
  it, without status line and headers. *)
Theorem X27_one_word_line host r rest word :
(Py.len (line r) <= 65536)%Z ->
words_of r = [word] ->
exists h',
  MyHTTPRequestHandler.handle_one_request host
    (MyHTTPRequestHandler.new (r :: rest)) = Ok tt h'
  /\ wfile h' =
     error_body HTTPStatus.BAD_REQUEST
       ("Bad request syntax ("
        ++ Py.repr (Py.rstrip (Py.is_char_of Py.CRLF) (line r)) ++ ")")
       "Bad request syntax or unsupported method"
  /\ status_of (wfile h') = None.
Proof.
intros Len W.
assert (NE : line r <> "").
{ apply words_nonempty. now rewrite W. }
rewrite (handle_one_request_reads host r rest Len NE), run_bind,
  parse_request_resets.
cbv zeta. change (request_line_of (fresh r rest))
  with (Py.rstrip (Py.is_char_of Py.CRLF) (line r)).
fold (words_of r). rewrite W.
cbn [length Nat.eqb Nat.leb negb andb].
rewrite bind_ret. cbn [negb].
rewrite (plain_error host HTTPStatus.BAD_REQUEST
           ("Bad request syntax ("
            ++ Py.repr (Py.rstrip (Py.is_char_of Py.CRLF) (line r)) ++ ")")
           r rest eq_refl).
cbn [negb]. unfold ret.
eexists. split; [reflexivity|].
rewrite wfile_answered_plain, wfile_reset. cbn [String.append].
split; [reflexivity | apply status_of_error_body].
Qed.

Lemma X27_witness :
Example.answer "GET"
= error_body HTTPStatus.BAD_REQUEST "Bad request syntax ('GET')"
    "Bad request syntax or unsupported method".
Proof.
destruct (X27_one_word_line Example.www (Example.request_of "GET") [] "GET")
  as (h' & E & W & _).
- vm_compute. discriminate.
- reflexivity.
- unfold Example.answer. rewrite E. exact W.
Defined.



End Syntax.

(* ================================================================== *)
(** * Exceptions the handler does not catch *)

Section Uncaught.

Import Response.







End Uncaught.
